(** * Vulkan feature negotiation of IGL: [igl/vulkan/VulkanFeatures.cpp]

    A shallow embedding of the class [VulkanFeatures]: the feature structures it
    owns, the [pNext] chain that [assembleFeatureChain] builds over them, the
    comparison [checkSelectedFeatures] of a requested against an available set,
    and the guarded copy assignment. *)

From stdpp Require Import base option list strings gmap.
From Stdlib Require Import ZArith String Ascii Bool Lia.

Open Scope string_scope.
Open Scope list_scope.
Open Scope Z_scope.

(** ** Vulkan scalar types *)

(** [VkBool32] is a [uint32_t]; the two values the API assigns a meaning to are
    [VK_TRUE] and [VK_FALSE]. *)
Definition VkBool32 : Type := Z.
Definition VK_TRUE : VkBool32 := 1.
Definition VK_FALSE : VkBool32 := 0.

(** [VK_MAKE_API_VERSION(variant, major, minor, patch)] packs a version into 32 bits. *)
Definition VK_MAKE_API_VERSION (variant major minor patch : Z) : Z :=
  Z.lor (Z.lor (Z.lor (Z.shiftl variant 29) (Z.shiftl major 22)) (Z.shiftl minor 12)) patch.
Definition VK_API_VERSION_1_1 : Z := VK_MAKE_API_VERSION 0 1 1 0.
Definition VK_API_VERSION_1_2 : Z := VK_MAKE_API_VERSION 0 1 2 0.
Definition VK_API_VERSION_1_3 : Z := VK_MAKE_API_VERSION 0 1 3 0.

(** Extension names, as the Vulkan headers spell them. *)
Definition VK_EXT_INDEX_TYPE_UINT8_EXTENSION_NAME : string := "VK_EXT_index_type_uint8".
Definition VK_KHR_SYNCHRONIZATION_2_EXTENSION_NAME : string := "VK_KHR_synchronization2".
Definition VK_KHR_TIMELINE_SEMAPHORE_EXTENSION_NAME : string := "VK_KHR_timeline_semaphore".

Record VkExtensionProperties : Type := {
  extensionName : string;
  specVersion : Z
}.

Inductive VkStructureType : Type :=
  | VK_STRUCTURE_TYPE_PHYSICAL_DEVICE_FEATURES_2
  | VK_STRUCTURE_TYPE_PHYSICAL_DEVICE_SAMPLER_YCBCR_CONVERSION_FEATURES
  | VK_STRUCTURE_TYPE_PHYSICAL_DEVICE_SHADER_DRAW_PARAMETERS_FEATURES
  | VK_STRUCTURE_TYPE_PHYSICAL_DEVICE_MULTIVIEW_FEATURES
  | VK_STRUCTURE_TYPE_PHYSICAL_DEVICE_BUFFER_DEVICE_ADDRESS_FEATURES_KHR
  | VK_STRUCTURE_TYPE_PHYSICAL_DEVICE_DESCRIPTOR_INDEXING_FEATURES_EXT
  | VK_STRUCTURE_TYPE_PHYSICAL_DEVICE_16BIT_STORAGE_FEATURES
  | VK_STRUCTURE_TYPE_PHYSICAL_DEVICE_SHADER_FLOAT16_INT8_FEATURES_KHR
  | VK_STRUCTURE_TYPE_PHYSICAL_DEVICE_INDEX_TYPE_UINT8_FEATURES_EXT
  | VK_STRUCTURE_TYPE_PHYSICAL_DEVICE_SYNCHRONIZATION_2_FEATURES_KHR
  | VK_STRUCTURE_TYPE_PHYSICAL_DEVICE_TIMELINE_SEMAPHORE_FEATURES_KHR.

(** ** Pointers into feature objects

    A [VulkanFeatures] object lives at an address; each of its eleven feature
    structures is a member of it. A [pNext] pointer is null or designates one
    member of one object. After a copy assignment the copied [pNext] values
    designate members of the source object, which is why the address is part of
    the pointer. *)
Inductive Member : Type :=
  | mFeatures2
  | mSamplerYcbcrConversion
  | mShaderDrawParameters
  | mMultiview
  | mBufferDeviceAddress
  | mDescriptorIndexing
  | m16BitStorage
  | mShaderFloat16Int8
  | mIndexTypeUint8
  | mSynchronization2
  | mTimelineSemaphore.

#[global] Instance Member_eq_dec : EqDecision Member.
Proof. solve_decision. Defined.

Definition all_members : list Member :=
  [ mFeatures2; mSamplerYcbcrConversion; mShaderDrawParameters; mMultiview;
    mBufferDeviceAddress; mDescriptorIndexing; m16BitStorage; mShaderFloat16Int8;
    mIndexTypeUint8; mSynchronization2; mTimelineSemaphore ].

Definition pointer : Type := option (N * Member).
Definition nullptr : pointer := None.

(** ** Feature structures

    Every feature structure starts with the header [sType], [pNext]; its
    [VkBool32] members follow and are grouped in a record of their own. *)
Record VkStruct (F : Type) : Type := {
  sType : VkStructureType;
  pNext : pointer;
  body : F
}.
Arguments sType {F} _.
Arguments pNext {F} _.
Arguments body {F} _.
Arguments Build_VkStruct {F} _ _ _.

Record VkPhysicalDeviceFeatures : Type := {
  robustBufferAccess : VkBool32; fullDrawIndexUint32 : VkBool32; imageCubeArray : VkBool32;
  independentBlend : VkBool32; geometryShader : VkBool32; tessellationShader : VkBool32;
  sampleRateShading : VkBool32; dualSrcBlend : VkBool32; logicOp : VkBool32;
  multiDrawIndirect : VkBool32; drawIndirectFirstInstance : VkBool32; depthClamp : VkBool32;
  depthBiasClamp : VkBool32; fillModeNonSolid : VkBool32; depthBounds : VkBool32;
  wideLines : VkBool32; largePoints : VkBool32; alphaToOne : VkBool32;
  multiViewport : VkBool32; samplerAnisotropy : VkBool32; textureCompressionETC2 : VkBool32;
  textureCompressionASTC_LDR : VkBool32; textureCompressionBC : VkBool32;
  occlusionQueryPrecise : VkBool32; pipelineStatisticsQuery : VkBool32;
  vertexPipelineStoresAndAtomics : VkBool32; fragmentStoresAndAtomics : VkBool32;
  shaderTessellationAndGeometryPointSize : VkBool32; shaderImageGatherExtended : VkBool32;
  shaderStorageImageExtendedFormats : VkBool32; shaderStorageImageMultisample : VkBool32;
  shaderStorageImageReadWithoutFormat : VkBool32;
  shaderStorageImageWriteWithoutFormat : VkBool32;
  shaderUniformBufferArrayDynamicIndexing : VkBool32;
  shaderSampledImageArrayDynamicIndexing : VkBool32;
  shaderStorageBufferArrayDynamicIndexing : VkBool32;
  shaderStorageImageArrayDynamicIndexing : VkBool32; shaderClipDistance : VkBool32;
  shaderCullDistance : VkBool32; shaderFloat64 : VkBool32; shaderInt64 : VkBool32;
  shaderInt16 : VkBool32; shaderResourceResidency : VkBool32;
  shaderResourceMinLod : VkBool32; sparseBinding : VkBool32;
  sparseResidencyBuffer : VkBool32; sparseResidencyImage2D : VkBool32;
  sparseResidencyImage3D : VkBool32; sparseResidency2Samples : VkBool32;
  sparseResidency4Samples : VkBool32; sparseResidency8Samples : VkBool32;
  sparseResidency16Samples : VkBool32; sparseResidencyAliased : VkBool32;
  variableMultisampleRate : VkBool32; inheritedQueries : VkBool32
}.

Record VkPhysicalDeviceSamplerYcbcrConversionFeatures_fields : Type := {
  samplerYcbcrConversion : VkBool32
}.

Record VkPhysicalDeviceShaderDrawParametersFeatures_fields : Type := {
  shaderDrawParameters : VkBool32
}.

Record VkPhysicalDeviceMultiviewFeatures_fields : Type := {
  multiview : VkBool32; multiviewGeometryShader : VkBool32;
  multiviewTessellationShader : VkBool32
}.

Record VkPhysicalDeviceBufferDeviceAddressFeaturesKHR_fields : Type := {
  bufferDeviceAddress : VkBool32; bufferDeviceAddressCaptureReplay : VkBool32;
  bufferDeviceAddressMultiDevice : VkBool32
}.

Record VkPhysicalDeviceDescriptorIndexingFeaturesEXT_fields : Type := {
  shaderInputAttachmentArrayDynamicIndexing : VkBool32;
  shaderUniformTexelBufferArrayDynamicIndexing : VkBool32;
  shaderStorageTexelBufferArrayDynamicIndexing : VkBool32;
  shaderUniformBufferArrayNonUniformIndexing : VkBool32;
  shaderSampledImageArrayNonUniformIndexing : VkBool32;
  shaderStorageBufferArrayNonUniformIndexing : VkBool32;
  shaderStorageImageArrayNonUniformIndexing : VkBool32;
  shaderInputAttachmentArrayNonUniformIndexing : VkBool32;
  shaderUniformTexelBufferArrayNonUniformIndexing : VkBool32;
  shaderStorageTexelBufferArrayNonUniformIndexing : VkBool32;
  descriptorBindingUniformBufferUpdateAfterBind : VkBool32;
  descriptorBindingSampledImageUpdateAfterBind : VkBool32;
  descriptorBindingStorageImageUpdateAfterBind : VkBool32;
  descriptorBindingStorageBufferUpdateAfterBind : VkBool32;
  descriptorBindingUniformTexelBufferUpdateAfterBind : VkBool32;
  descriptorBindingStorageTexelBufferUpdateAfterBind : VkBool32;
  descriptorBindingUpdateUnusedWhilePending : VkBool32;
  descriptorBindingPartiallyBound : VkBool32;
  descriptorBindingVariableDescriptorCount : VkBool32; runtimeDescriptorArray : VkBool32
}.

Record VkPhysicalDevice16BitStorageFeatures_fields : Type := {
  storageBuffer16BitAccess : VkBool32; uniformAndStorageBuffer16BitAccess : VkBool32;
  storagePushConstant16 : VkBool32; storageInputOutput16 : VkBool32
}.

Record VkPhysicalDeviceShaderFloat16Int8Features_fields : Type := {
  shaderFloat16 : VkBool32; shaderInt8 : VkBool32
}.

Record VkPhysicalDeviceIndexTypeUint8Features_fields : Type := {
  indexTypeUint8 : VkBool32
}.

Record VkPhysicalDeviceSynchronization2Features_fields : Type := {
  synchronization2 : VkBool32
}.

Record VkPhysicalDeviceTimelineSemaphoreFeatures_fields : Type := {
  timelineSemaphore : VkBool32
}.

Abbreviation VkPhysicalDeviceFeatures2 := (VkStruct VkPhysicalDeviceFeatures) (only parsing).
Definition features (s : VkPhysicalDeviceFeatures2) : VkPhysicalDeviceFeatures := body s.

(** The toggles of [VulkanContextConfig] that this file reads. *)
Record VulkanContextConfig : Type := {
  enableBufferDeviceAddress : bool;
  enableDescriptorIndexing : bool;
  enableShaderInt16 : bool;
  enableShaderDrawParameters : bool;
  enableStorageBuffer16BitAccess : bool;
  enableDualSrcBlend : bool
}.

(** ** The class [VulkanFeatures]

    The data members in the order of the constructor's initialiser list. The
    members that the constructor initialises under [#if] (buffer device
    address, descriptor indexing, the Vulkan 1.2 structure, 8-bit index type)
    are present: [assembleFeatureChain] and [operator=] name them without a
    guard. [extensions_] is the [std::vector] of enumerated extensions. *)
Record VulkanFeatures : Type := {
  VkPhysicalDeviceFeatures2_ : VkStruct VkPhysicalDeviceFeatures;
  VkPhysicalDeviceSamplerYcbcrConversionFeatures_ :
    VkStruct VkPhysicalDeviceSamplerYcbcrConversionFeatures_fields;
  VkPhysicalDeviceShaderDrawParametersFeatures_ :
    VkStruct VkPhysicalDeviceShaderDrawParametersFeatures_fields;
  VkPhysicalDeviceMultiviewFeatures_ : VkStruct VkPhysicalDeviceMultiviewFeatures_fields;
  VkPhysicalDeviceBufferDeviceAddressFeaturesKHR_ :
    VkStruct VkPhysicalDeviceBufferDeviceAddressFeaturesKHR_fields;
  VkPhysicalDeviceDescriptorIndexingFeaturesEXT_ :
    VkStruct VkPhysicalDeviceDescriptorIndexingFeaturesEXT_fields;
  VkPhysicalDevice16BitStorageFeatures_ :
    VkStruct VkPhysicalDevice16BitStorageFeatures_fields;
  VkPhysicalDeviceShaderFloat16Int8Features_ :
    VkStruct VkPhysicalDeviceShaderFloat16Int8Features_fields;
  VkPhysicalDeviceIndexTypeUint8Features_ :
    VkStruct VkPhysicalDeviceIndexTypeUint8Features_fields;
  VkPhysicalDeviceSynchronization2Features_ :
    VkStruct VkPhysicalDeviceSynchronization2Features_fields;
  VkPhysicalDeviceTimelineSemaphoreFeatures_ :
    VkStruct VkPhysicalDeviceTimelineSemaphoreFeatures_fields;
  config_ : VulkanContextConfig;
  version_ : Z;
  extensions_ : list VkExtensionProperties
}.

(** [m.pNext] for the member that [m] names. *)
Definition get_pNext (m : Member) (vf : VulkanFeatures) : pointer :=
  match m with
  | mFeatures2 => pNext (VkPhysicalDeviceFeatures2_ vf)
  | mSamplerYcbcrConversion => pNext (VkPhysicalDeviceSamplerYcbcrConversionFeatures_ vf)
  | mShaderDrawParameters => pNext (VkPhysicalDeviceShaderDrawParametersFeatures_ vf)
  | mMultiview => pNext (VkPhysicalDeviceMultiviewFeatures_ vf)
  | mBufferDeviceAddress => pNext (VkPhysicalDeviceBufferDeviceAddressFeaturesKHR_ vf)
  | mDescriptorIndexing => pNext (VkPhysicalDeviceDescriptorIndexingFeaturesEXT_ vf)
  | m16BitStorage => pNext (VkPhysicalDevice16BitStorageFeatures_ vf)
  | mShaderFloat16Int8 => pNext (VkPhysicalDeviceShaderFloat16Int8Features_ vf)
  | mIndexTypeUint8 => pNext (VkPhysicalDeviceIndexTypeUint8Features_ vf)
  | mSynchronization2 => pNext (VkPhysicalDeviceSynchronization2Features_ vf)
  | mTimelineSemaphore => pNext (VkPhysicalDeviceTimelineSemaphoreFeatures_ vf)
  end.

Definition with_pNext {F : Type} (p : pointer) (s : VkStruct F) : VkStruct F :=
  {| sType := sType s; pNext := p; body := body s |}.

Definition with_body {F : Type} (s : VkStruct F) (b : F) : VkStruct F :=
  {| sType := sType s; pNext := pNext s; body := b |}.

(** [m.pNext = p]. *)
Definition set_pNext (m : Member) (p : pointer) (vf : VulkanFeatures) : VulkanFeatures :=
  let 'Build_VulkanFeatures f2 yc dp mv bda di s16 f16 u8 s2 ts cfg ver exts := vf in
  match m with
  | mFeatures2 =>
      Build_VulkanFeatures (with_pNext p f2) yc dp mv bda di s16 f16 u8 s2 ts cfg ver exts
  | mSamplerYcbcrConversion =>
      Build_VulkanFeatures f2 (with_pNext p yc) dp mv bda di s16 f16 u8 s2 ts cfg ver exts
  | mShaderDrawParameters =>
      Build_VulkanFeatures f2 yc (with_pNext p dp) mv bda di s16 f16 u8 s2 ts cfg ver exts
  | mMultiview =>
      Build_VulkanFeatures f2 yc dp (with_pNext p mv) bda di s16 f16 u8 s2 ts cfg ver exts
  | mBufferDeviceAddress =>
      Build_VulkanFeatures f2 yc dp mv (with_pNext p bda) di s16 f16 u8 s2 ts cfg ver exts
  | mDescriptorIndexing =>
      Build_VulkanFeatures f2 yc dp mv bda (with_pNext p di) s16 f16 u8 s2 ts cfg ver exts
  | m16BitStorage =>
      Build_VulkanFeatures f2 yc dp mv bda di (with_pNext p s16) f16 u8 s2 ts cfg ver exts
  | mShaderFloat16Int8 =>
      Build_VulkanFeatures f2 yc dp mv bda di s16 (with_pNext p f16) u8 s2 ts cfg ver exts
  | mIndexTypeUint8 =>
      Build_VulkanFeatures f2 yc dp mv bda di s16 f16 (with_pNext p u8) s2 ts cfg ver exts
  | mSynchronization2 =>
      Build_VulkanFeatures f2 yc dp mv bda di s16 f16 u8 (with_pNext p s2) ts cfg ver exts
  | mTimelineSemaphore =>
      Build_VulkanFeatures f2 yc dp mv bda di s16 f16 u8 s2 (with_pNext p ts) cfg ver exts
  end.

(** ** Names for single feature fields *)
Inductive FeatureField : Type :=
  | F_robustBufferAccess | F_fullDrawIndexUint32 | F_imageCubeArray | F_independentBlend
  | F_geometryShader | F_tessellationShader | F_sampleRateShading | F_dualSrcBlend
  | F_logicOp | F_multiDrawIndirect | F_drawIndirectFirstInstance | F_depthClamp
  | F_depthBiasClamp | F_fillModeNonSolid | F_depthBounds | F_wideLines | F_largePoints
  | F_alphaToOne | F_multiViewport | F_samplerAnisotropy | F_textureCompressionETC2
  | F_textureCompressionASTC_LDR | F_textureCompressionBC | F_occlusionQueryPrecise
  | F_pipelineStatisticsQuery | F_vertexPipelineStoresAndAtomics
  | F_fragmentStoresAndAtomics | F_shaderTessellationAndGeometryPointSize
  | F_shaderImageGatherExtended | F_shaderStorageImageExtendedFormats
  | F_shaderStorageImageMultisample | F_shaderStorageImageReadWithoutFormat
  | F_shaderStorageImageWriteWithoutFormat | F_shaderUniformBufferArrayDynamicIndexing
  | F_shaderSampledImageArrayDynamicIndexing | F_shaderStorageBufferArrayDynamicIndexing
  | F_shaderStorageImageArrayDynamicIndexing | F_shaderClipDistance | F_shaderCullDistance
  | F_shaderFloat64 | F_shaderInt64 | F_shaderInt16 | F_shaderResourceResidency
  | F_shaderResourceMinLod | F_sparseBinding | F_sparseResidencyBuffer
  | F_sparseResidencyImage2D | F_sparseResidencyImage3D | F_sparseResidency2Samples
  | F_sparseResidency4Samples | F_sparseResidency8Samples | F_sparseResidency16Samples
  | F_sparseResidencyAliased | F_variableMultisampleRate | F_inheritedQueries
  | F_samplerYcbcrConversion
  | F_shaderDrawParameters
  | F_multiview | F_multiviewGeometryShader | F_multiviewTessellationShader
  | F_bufferDeviceAddress | F_bufferDeviceAddressCaptureReplay
  | F_bufferDeviceAddressMultiDevice
  | F_shaderInputAttachmentArrayDynamicIndexing
  | F_shaderUniformTexelBufferArrayDynamicIndexing
  | F_shaderStorageTexelBufferArrayDynamicIndexing
  | F_shaderUniformBufferArrayNonUniformIndexing
  | F_shaderSampledImageArrayNonUniformIndexing
  | F_shaderStorageBufferArrayNonUniformIndexing
  | F_shaderStorageImageArrayNonUniformIndexing
  | F_shaderInputAttachmentArrayNonUniformIndexing
  | F_shaderUniformTexelBufferArrayNonUniformIndexing
  | F_shaderStorageTexelBufferArrayNonUniformIndexing
  | F_descriptorBindingUniformBufferUpdateAfterBind
  | F_descriptorBindingSampledImageUpdateAfterBind
  | F_descriptorBindingStorageImageUpdateAfterBind
  | F_descriptorBindingStorageBufferUpdateAfterBind
  | F_descriptorBindingUniformTexelBufferUpdateAfterBind
  | F_descriptorBindingStorageTexelBufferUpdateAfterBind
  | F_descriptorBindingUpdateUnusedWhilePending | F_descriptorBindingPartiallyBound
  | F_descriptorBindingVariableDescriptorCount | F_runtimeDescriptorArray
  | F_storageBuffer16BitAccess | F_uniformAndStorageBuffer16BitAccess
  | F_storagePushConstant16 | F_storageInputOutput16
  | F_shaderFloat16 | F_shaderInt8
  | F_indexTypeUint8
  | F_synchronization2
  | F_timelineSemaphore.

Definition all_fields : list FeatureField :=
  [ F_robustBufferAccess; F_fullDrawIndexUint32; F_imageCubeArray; F_independentBlend;
    F_geometryShader; F_tessellationShader; F_sampleRateShading; F_dualSrcBlend; F_logicOp;
    F_multiDrawIndirect; F_drawIndirectFirstInstance; F_depthClamp; F_depthBiasClamp;
    F_fillModeNonSolid; F_depthBounds; F_wideLines; F_largePoints; F_alphaToOne;
    F_multiViewport; F_samplerAnisotropy; F_textureCompressionETC2;
    F_textureCompressionASTC_LDR; F_textureCompressionBC; F_occlusionQueryPrecise;
    F_pipelineStatisticsQuery; F_vertexPipelineStoresAndAtomics; F_fragmentStoresAndAtomics;
    F_shaderTessellationAndGeometryPointSize; F_shaderImageGatherExtended;
    F_shaderStorageImageExtendedFormats; F_shaderStorageImageMultisample;
    F_shaderStorageImageReadWithoutFormat; F_shaderStorageImageWriteWithoutFormat;
    F_shaderUniformBufferArrayDynamicIndexing; F_shaderSampledImageArrayDynamicIndexing;
    F_shaderStorageBufferArrayDynamicIndexing; F_shaderStorageImageArrayDynamicIndexing;
    F_shaderClipDistance; F_shaderCullDistance; F_shaderFloat64; F_shaderInt64;
    F_shaderInt16; F_shaderResourceResidency; F_shaderResourceMinLod; F_sparseBinding;
    F_sparseResidencyBuffer; F_sparseResidencyImage2D; F_sparseResidencyImage3D;
    F_sparseResidency2Samples; F_sparseResidency4Samples; F_sparseResidency8Samples;
    F_sparseResidency16Samples; F_sparseResidencyAliased; F_variableMultisampleRate;
    F_inheritedQueries; F_samplerYcbcrConversion; F_shaderDrawParameters; F_multiview;
    F_multiviewGeometryShader; F_multiviewTessellationShader; F_bufferDeviceAddress;
    F_bufferDeviceAddressCaptureReplay; F_bufferDeviceAddressMultiDevice;
    F_shaderInputAttachmentArrayDynamicIndexing;
    F_shaderUniformTexelBufferArrayDynamicIndexing;
    F_shaderStorageTexelBufferArrayDynamicIndexing;
    F_shaderUniformBufferArrayNonUniformIndexing;
    F_shaderSampledImageArrayNonUniformIndexing;
    F_shaderStorageBufferArrayNonUniformIndexing;
    F_shaderStorageImageArrayNonUniformIndexing;
    F_shaderInputAttachmentArrayNonUniformIndexing;
    F_shaderUniformTexelBufferArrayNonUniformIndexing;
    F_shaderStorageTexelBufferArrayNonUniformIndexing;
    F_descriptorBindingUniformBufferUpdateAfterBind;
    F_descriptorBindingSampledImageUpdateAfterBind;
    F_descriptorBindingStorageImageUpdateAfterBind;
    F_descriptorBindingStorageBufferUpdateAfterBind;
    F_descriptorBindingUniformTexelBufferUpdateAfterBind;
    F_descriptorBindingStorageTexelBufferUpdateAfterBind;
    F_descriptorBindingUpdateUnusedWhilePending; F_descriptorBindingPartiallyBound;
    F_descriptorBindingVariableDescriptorCount; F_runtimeDescriptorArray;
    F_storageBuffer16BitAccess; F_uniformAndStorageBuffer16BitAccess;
    F_storagePushConstant16; F_storageInputOutput16; F_shaderFloat16; F_shaderInt8;
    F_indexTypeUint8; F_synchronization2; F_timelineSemaphore ].

Definition field_member (f : FeatureField) : Member :=
  match f with
  | F_robustBufferAccess | F_fullDrawIndexUint32 | F_imageCubeArray | F_independentBlend
  | F_geometryShader | F_tessellationShader | F_sampleRateShading | F_dualSrcBlend
  | F_logicOp | F_multiDrawIndirect | F_drawIndirectFirstInstance | F_depthClamp
  | F_depthBiasClamp | F_fillModeNonSolid | F_depthBounds | F_wideLines | F_largePoints
  | F_alphaToOne | F_multiViewport | F_samplerAnisotropy | F_textureCompressionETC2
  | F_textureCompressionASTC_LDR | F_textureCompressionBC | F_occlusionQueryPrecise
  | F_pipelineStatisticsQuery | F_vertexPipelineStoresAndAtomics
  | F_fragmentStoresAndAtomics | F_shaderTessellationAndGeometryPointSize
  | F_shaderImageGatherExtended | F_shaderStorageImageExtendedFormats
  | F_shaderStorageImageMultisample | F_shaderStorageImageReadWithoutFormat
  | F_shaderStorageImageWriteWithoutFormat | F_shaderUniformBufferArrayDynamicIndexing
  | F_shaderSampledImageArrayDynamicIndexing | F_shaderStorageBufferArrayDynamicIndexing
  | F_shaderStorageImageArrayDynamicIndexing | F_shaderClipDistance | F_shaderCullDistance
  | F_shaderFloat64 | F_shaderInt64 | F_shaderInt16 | F_shaderResourceResidency
  | F_shaderResourceMinLod | F_sparseBinding | F_sparseResidencyBuffer
  | F_sparseResidencyImage2D | F_sparseResidencyImage3D | F_sparseResidency2Samples
  | F_sparseResidency4Samples | F_sparseResidency8Samples | F_sparseResidency16Samples
  | F_sparseResidencyAliased | F_variableMultisampleRate | F_inheritedQueries => mFeatures2
  | F_samplerYcbcrConversion => mSamplerYcbcrConversion
  | F_shaderDrawParameters => mShaderDrawParameters
  | F_multiview | F_multiviewGeometryShader | F_multiviewTessellationShader => mMultiview
  | F_bufferDeviceAddress | F_bufferDeviceAddressCaptureReplay
  | F_bufferDeviceAddressMultiDevice => mBufferDeviceAddress
  | F_shaderInputAttachmentArrayDynamicIndexing
  | F_shaderUniformTexelBufferArrayDynamicIndexing
  | F_shaderStorageTexelBufferArrayDynamicIndexing
  | F_shaderUniformBufferArrayNonUniformIndexing
  | F_shaderSampledImageArrayNonUniformIndexing
  | F_shaderStorageBufferArrayNonUniformIndexing
  | F_shaderStorageImageArrayNonUniformIndexing
  | F_shaderInputAttachmentArrayNonUniformIndexing
  | F_shaderUniformTexelBufferArrayNonUniformIndexing
  | F_shaderStorageTexelBufferArrayNonUniformIndexing
  | F_descriptorBindingUniformBufferUpdateAfterBind
  | F_descriptorBindingSampledImageUpdateAfterBind
  | F_descriptorBindingStorageImageUpdateAfterBind
  | F_descriptorBindingStorageBufferUpdateAfterBind
  | F_descriptorBindingUniformTexelBufferUpdateAfterBind
  | F_descriptorBindingStorageTexelBufferUpdateAfterBind
  | F_descriptorBindingUpdateUnusedWhilePending | F_descriptorBindingPartiallyBound
  | F_descriptorBindingVariableDescriptorCount | F_runtimeDescriptorArray => mDescriptorIndexing
  | F_storageBuffer16BitAccess | F_uniformAndStorageBuffer16BitAccess
  | F_storagePushConstant16 | F_storageInputOutput16 => m16BitStorage
  | F_shaderFloat16 | F_shaderInt8 => mShaderFloat16Int8
  | F_indexTypeUint8 => mIndexTypeUint8
  | F_synchronization2 => mSynchronization2
  | F_timelineSemaphore => mTimelineSemaphore
  end.

Definition field_value (f : FeatureField) (vf : VulkanFeatures) : VkBool32 :=
  match f with
  | F_robustBufferAccess => robustBufferAccess (features (VkPhysicalDeviceFeatures2_ vf))
  | F_fullDrawIndexUint32 => fullDrawIndexUint32 (features (VkPhysicalDeviceFeatures2_ vf))
  | F_imageCubeArray => imageCubeArray (features (VkPhysicalDeviceFeatures2_ vf))
  | F_independentBlend => independentBlend (features (VkPhysicalDeviceFeatures2_ vf))
  | F_geometryShader => geometryShader (features (VkPhysicalDeviceFeatures2_ vf))
  | F_tessellationShader => tessellationShader (features (VkPhysicalDeviceFeatures2_ vf))
  | F_sampleRateShading => sampleRateShading (features (VkPhysicalDeviceFeatures2_ vf))
  | F_dualSrcBlend => dualSrcBlend (features (VkPhysicalDeviceFeatures2_ vf))
  | F_logicOp => logicOp (features (VkPhysicalDeviceFeatures2_ vf))
  | F_multiDrawIndirect => multiDrawIndirect (features (VkPhysicalDeviceFeatures2_ vf))
  | F_drawIndirectFirstInstance => drawIndirectFirstInstance (features (VkPhysicalDeviceFeatures2_ vf))
  | F_depthClamp => depthClamp (features (VkPhysicalDeviceFeatures2_ vf))
  | F_depthBiasClamp => depthBiasClamp (features (VkPhysicalDeviceFeatures2_ vf))
  | F_fillModeNonSolid => fillModeNonSolid (features (VkPhysicalDeviceFeatures2_ vf))
  | F_depthBounds => depthBounds (features (VkPhysicalDeviceFeatures2_ vf))
  | F_wideLines => wideLines (features (VkPhysicalDeviceFeatures2_ vf))
  | F_largePoints => largePoints (features (VkPhysicalDeviceFeatures2_ vf))
  | F_alphaToOne => alphaToOne (features (VkPhysicalDeviceFeatures2_ vf))
  | F_multiViewport => multiViewport (features (VkPhysicalDeviceFeatures2_ vf))
  | F_samplerAnisotropy => samplerAnisotropy (features (VkPhysicalDeviceFeatures2_ vf))
  | F_textureCompressionETC2 => textureCompressionETC2 (features (VkPhysicalDeviceFeatures2_ vf))
  | F_textureCompressionASTC_LDR => textureCompressionASTC_LDR (features (VkPhysicalDeviceFeatures2_ vf))
  | F_textureCompressionBC => textureCompressionBC (features (VkPhysicalDeviceFeatures2_ vf))
  | F_occlusionQueryPrecise => occlusionQueryPrecise (features (VkPhysicalDeviceFeatures2_ vf))
  | F_pipelineStatisticsQuery => pipelineStatisticsQuery (features (VkPhysicalDeviceFeatures2_ vf))
  | F_vertexPipelineStoresAndAtomics => vertexPipelineStoresAndAtomics (features (VkPhysicalDeviceFeatures2_ vf))
  | F_fragmentStoresAndAtomics => fragmentStoresAndAtomics (features (VkPhysicalDeviceFeatures2_ vf))
  | F_shaderTessellationAndGeometryPointSize => shaderTessellationAndGeometryPointSize (features (VkPhysicalDeviceFeatures2_ vf))
  | F_shaderImageGatherExtended => shaderImageGatherExtended (features (VkPhysicalDeviceFeatures2_ vf))
  | F_shaderStorageImageExtendedFormats => shaderStorageImageExtendedFormats (features (VkPhysicalDeviceFeatures2_ vf))
  | F_shaderStorageImageMultisample => shaderStorageImageMultisample (features (VkPhysicalDeviceFeatures2_ vf))
  | F_shaderStorageImageReadWithoutFormat => shaderStorageImageReadWithoutFormat (features (VkPhysicalDeviceFeatures2_ vf))
  | F_shaderStorageImageWriteWithoutFormat => shaderStorageImageWriteWithoutFormat (features (VkPhysicalDeviceFeatures2_ vf))
  | F_shaderUniformBufferArrayDynamicIndexing => shaderUniformBufferArrayDynamicIndexing (features (VkPhysicalDeviceFeatures2_ vf))
  | F_shaderSampledImageArrayDynamicIndexing => shaderSampledImageArrayDynamicIndexing (features (VkPhysicalDeviceFeatures2_ vf))
  | F_shaderStorageBufferArrayDynamicIndexing => shaderStorageBufferArrayDynamicIndexing (features (VkPhysicalDeviceFeatures2_ vf))
  | F_shaderStorageImageArrayDynamicIndexing => shaderStorageImageArrayDynamicIndexing (features (VkPhysicalDeviceFeatures2_ vf))
  | F_shaderClipDistance => shaderClipDistance (features (VkPhysicalDeviceFeatures2_ vf))
  | F_shaderCullDistance => shaderCullDistance (features (VkPhysicalDeviceFeatures2_ vf))
  | F_shaderFloat64 => shaderFloat64 (features (VkPhysicalDeviceFeatures2_ vf))
  | F_shaderInt64 => shaderInt64 (features (VkPhysicalDeviceFeatures2_ vf))
  | F_shaderInt16 => shaderInt16 (features (VkPhysicalDeviceFeatures2_ vf))
  | F_shaderResourceResidency => shaderResourceResidency (features (VkPhysicalDeviceFeatures2_ vf))
  | F_shaderResourceMinLod => shaderResourceMinLod (features (VkPhysicalDeviceFeatures2_ vf))
  | F_sparseBinding => sparseBinding (features (VkPhysicalDeviceFeatures2_ vf))
  | F_sparseResidencyBuffer => sparseResidencyBuffer (features (VkPhysicalDeviceFeatures2_ vf))
  | F_sparseResidencyImage2D => sparseResidencyImage2D (features (VkPhysicalDeviceFeatures2_ vf))
  | F_sparseResidencyImage3D => sparseResidencyImage3D (features (VkPhysicalDeviceFeatures2_ vf))
  | F_sparseResidency2Samples => sparseResidency2Samples (features (VkPhysicalDeviceFeatures2_ vf))
  | F_sparseResidency4Samples => sparseResidency4Samples (features (VkPhysicalDeviceFeatures2_ vf))
  | F_sparseResidency8Samples => sparseResidency8Samples (features (VkPhysicalDeviceFeatures2_ vf))
  | F_sparseResidency16Samples => sparseResidency16Samples (features (VkPhysicalDeviceFeatures2_ vf))
  | F_sparseResidencyAliased => sparseResidencyAliased (features (VkPhysicalDeviceFeatures2_ vf))
  | F_variableMultisampleRate => variableMultisampleRate (features (VkPhysicalDeviceFeatures2_ vf))
  | F_inheritedQueries => inheritedQueries (features (VkPhysicalDeviceFeatures2_ vf))
  | F_samplerYcbcrConversion => samplerYcbcrConversion (body (VkPhysicalDeviceSamplerYcbcrConversionFeatures_ vf))
  | F_shaderDrawParameters => shaderDrawParameters (body (VkPhysicalDeviceShaderDrawParametersFeatures_ vf))
  | F_multiview => multiview (body (VkPhysicalDeviceMultiviewFeatures_ vf))
  | F_multiviewGeometryShader => multiviewGeometryShader (body (VkPhysicalDeviceMultiviewFeatures_ vf))
  | F_multiviewTessellationShader => multiviewTessellationShader (body (VkPhysicalDeviceMultiviewFeatures_ vf))
  | F_bufferDeviceAddress => bufferDeviceAddress (body (VkPhysicalDeviceBufferDeviceAddressFeaturesKHR_ vf))
  | F_bufferDeviceAddressCaptureReplay => bufferDeviceAddressCaptureReplay (body (VkPhysicalDeviceBufferDeviceAddressFeaturesKHR_ vf))
  | F_bufferDeviceAddressMultiDevice => bufferDeviceAddressMultiDevice (body (VkPhysicalDeviceBufferDeviceAddressFeaturesKHR_ vf))
  | F_shaderInputAttachmentArrayDynamicIndexing => shaderInputAttachmentArrayDynamicIndexing (body (VkPhysicalDeviceDescriptorIndexingFeaturesEXT_ vf))
  | F_shaderUniformTexelBufferArrayDynamicIndexing => shaderUniformTexelBufferArrayDynamicIndexing (body (VkPhysicalDeviceDescriptorIndexingFeaturesEXT_ vf))
  | F_shaderStorageTexelBufferArrayDynamicIndexing => shaderStorageTexelBufferArrayDynamicIndexing (body (VkPhysicalDeviceDescriptorIndexingFeaturesEXT_ vf))
  | F_shaderUniformBufferArrayNonUniformIndexing => shaderUniformBufferArrayNonUniformIndexing (body (VkPhysicalDeviceDescriptorIndexingFeaturesEXT_ vf))
  | F_shaderSampledImageArrayNonUniformIndexing => shaderSampledImageArrayNonUniformIndexing (body (VkPhysicalDeviceDescriptorIndexingFeaturesEXT_ vf))
  | F_shaderStorageBufferArrayNonUniformIndexing => shaderStorageBufferArrayNonUniformIndexing (body (VkPhysicalDeviceDescriptorIndexingFeaturesEXT_ vf))
  | F_shaderStorageImageArrayNonUniformIndexing => shaderStorageImageArrayNonUniformIndexing (body (VkPhysicalDeviceDescriptorIndexingFeaturesEXT_ vf))
  | F_shaderInputAttachmentArrayNonUniformIndexing => shaderInputAttachmentArrayNonUniformIndexing (body (VkPhysicalDeviceDescriptorIndexingFeaturesEXT_ vf))
  | F_shaderUniformTexelBufferArrayNonUniformIndexing => shaderUniformTexelBufferArrayNonUniformIndexing (body (VkPhysicalDeviceDescriptorIndexingFeaturesEXT_ vf))
  | F_shaderStorageTexelBufferArrayNonUniformIndexing => shaderStorageTexelBufferArrayNonUniformIndexing (body (VkPhysicalDeviceDescriptorIndexingFeaturesEXT_ vf))
  | F_descriptorBindingUniformBufferUpdateAfterBind => descriptorBindingUniformBufferUpdateAfterBind (body (VkPhysicalDeviceDescriptorIndexingFeaturesEXT_ vf))
  | F_descriptorBindingSampledImageUpdateAfterBind => descriptorBindingSampledImageUpdateAfterBind (body (VkPhysicalDeviceDescriptorIndexingFeaturesEXT_ vf))
  | F_descriptorBindingStorageImageUpdateAfterBind => descriptorBindingStorageImageUpdateAfterBind (body (VkPhysicalDeviceDescriptorIndexingFeaturesEXT_ vf))
  | F_descriptorBindingStorageBufferUpdateAfterBind => descriptorBindingStorageBufferUpdateAfterBind (body (VkPhysicalDeviceDescriptorIndexingFeaturesEXT_ vf))
  | F_descriptorBindingUniformTexelBufferUpdateAfterBind => descriptorBindingUniformTexelBufferUpdateAfterBind (body (VkPhysicalDeviceDescriptorIndexingFeaturesEXT_ vf))
  | F_descriptorBindingStorageTexelBufferUpdateAfterBind => descriptorBindingStorageTexelBufferUpdateAfterBind (body (VkPhysicalDeviceDescriptorIndexingFeaturesEXT_ vf))
  | F_descriptorBindingUpdateUnusedWhilePending => descriptorBindingUpdateUnusedWhilePending (body (VkPhysicalDeviceDescriptorIndexingFeaturesEXT_ vf))
  | F_descriptorBindingPartiallyBound => descriptorBindingPartiallyBound (body (VkPhysicalDeviceDescriptorIndexingFeaturesEXT_ vf))
  | F_descriptorBindingVariableDescriptorCount => descriptorBindingVariableDescriptorCount (body (VkPhysicalDeviceDescriptorIndexingFeaturesEXT_ vf))
  | F_runtimeDescriptorArray => runtimeDescriptorArray (body (VkPhysicalDeviceDescriptorIndexingFeaturesEXT_ vf))
  | F_storageBuffer16BitAccess => storageBuffer16BitAccess (body (VkPhysicalDevice16BitStorageFeatures_ vf))
  | F_uniformAndStorageBuffer16BitAccess => uniformAndStorageBuffer16BitAccess (body (VkPhysicalDevice16BitStorageFeatures_ vf))
  | F_storagePushConstant16 => storagePushConstant16 (body (VkPhysicalDevice16BitStorageFeatures_ vf))
  | F_storageInputOutput16 => storageInputOutput16 (body (VkPhysicalDevice16BitStorageFeatures_ vf))
  | F_shaderFloat16 => shaderFloat16 (body (VkPhysicalDeviceShaderFloat16Int8Features_ vf))
  | F_shaderInt8 => shaderInt8 (body (VkPhysicalDeviceShaderFloat16Int8Features_ vf))
  | F_indexTypeUint8 => indexTypeUint8 (body (VkPhysicalDeviceIndexTypeUint8Features_ vf))
  | F_synchronization2 => synchronization2 (body (VkPhysicalDeviceSynchronization2Features_ vf))
  | F_timelineSemaphore => timelineSemaphore (body (VkPhysicalDeviceTimelineSemaphoreFeatures_ vf))
  end.

(** The text the preprocessor produces for [#feature]. *)
Definition field_name (f : FeatureField) : string :=
  match f with
  | F_robustBufferAccess => "robustBufferAccess"
  | F_fullDrawIndexUint32 => "fullDrawIndexUint32"
  | F_imageCubeArray => "imageCubeArray"
  | F_independentBlend => "independentBlend"
  | F_geometryShader => "geometryShader"
  | F_tessellationShader => "tessellationShader"
  | F_sampleRateShading => "sampleRateShading"
  | F_dualSrcBlend => "dualSrcBlend"
  | F_logicOp => "logicOp"
  | F_multiDrawIndirect => "multiDrawIndirect"
  | F_drawIndirectFirstInstance => "drawIndirectFirstInstance"
  | F_depthClamp => "depthClamp"
  | F_depthBiasClamp => "depthBiasClamp"
  | F_fillModeNonSolid => "fillModeNonSolid"
  | F_depthBounds => "depthBounds"
  | F_wideLines => "wideLines"
  | F_largePoints => "largePoints"
  | F_alphaToOne => "alphaToOne"
  | F_multiViewport => "multiViewport"
  | F_samplerAnisotropy => "samplerAnisotropy"
  | F_textureCompressionETC2 => "textureCompressionETC2"
  | F_textureCompressionASTC_LDR => "textureCompressionASTC_LDR"
  | F_textureCompressionBC => "textureCompressionBC"
  | F_occlusionQueryPrecise => "occlusionQueryPrecise"
  | F_pipelineStatisticsQuery => "pipelineStatisticsQuery"
  | F_vertexPipelineStoresAndAtomics => "vertexPipelineStoresAndAtomics"
  | F_fragmentStoresAndAtomics => "fragmentStoresAndAtomics"
  | F_shaderTessellationAndGeometryPointSize => "shaderTessellationAndGeometryPointSize"
  | F_shaderImageGatherExtended => "shaderImageGatherExtended"
  | F_shaderStorageImageExtendedFormats => "shaderStorageImageExtendedFormats"
  | F_shaderStorageImageMultisample => "shaderStorageImageMultisample"
  | F_shaderStorageImageReadWithoutFormat => "shaderStorageImageReadWithoutFormat"
  | F_shaderStorageImageWriteWithoutFormat => "shaderStorageImageWriteWithoutFormat"
  | F_shaderUniformBufferArrayDynamicIndexing => "shaderUniformBufferArrayDynamicIndexing"
  | F_shaderSampledImageArrayDynamicIndexing => "shaderSampledImageArrayDynamicIndexing"
  | F_shaderStorageBufferArrayDynamicIndexing => "shaderStorageBufferArrayDynamicIndexing"
  | F_shaderStorageImageArrayDynamicIndexing => "shaderStorageImageArrayDynamicIndexing"
  | F_shaderClipDistance => "shaderClipDistance"
  | F_shaderCullDistance => "shaderCullDistance"
  | F_shaderFloat64 => "shaderFloat64"
  | F_shaderInt64 => "shaderInt64"
  | F_shaderInt16 => "shaderInt16"
  | F_shaderResourceResidency => "shaderResourceResidency"
  | F_shaderResourceMinLod => "shaderResourceMinLod"
  | F_sparseBinding => "sparseBinding"
  | F_sparseResidencyBuffer => "sparseResidencyBuffer"
  | F_sparseResidencyImage2D => "sparseResidencyImage2D"
  | F_sparseResidencyImage3D => "sparseResidencyImage3D"
  | F_sparseResidency2Samples => "sparseResidency2Samples"
  | F_sparseResidency4Samples => "sparseResidency4Samples"
  | F_sparseResidency8Samples => "sparseResidency8Samples"
  | F_sparseResidency16Samples => "sparseResidency16Samples"
  | F_sparseResidencyAliased => "sparseResidencyAliased"
  | F_variableMultisampleRate => "variableMultisampleRate"
  | F_inheritedQueries => "inheritedQueries"
  | F_samplerYcbcrConversion => "samplerYcbcrConversion"
  | F_shaderDrawParameters => "shaderDrawParameters"
  | F_multiview => "multiview"
  | F_multiviewGeometryShader => "multiviewGeometryShader"
  | F_multiviewTessellationShader => "multiviewTessellationShader"
  | F_bufferDeviceAddress => "bufferDeviceAddress"
  | F_bufferDeviceAddressCaptureReplay => "bufferDeviceAddressCaptureReplay"
  | F_bufferDeviceAddressMultiDevice => "bufferDeviceAddressMultiDevice"
  | F_shaderInputAttachmentArrayDynamicIndexing => "shaderInputAttachmentArrayDynamicIndexing"
  | F_shaderUniformTexelBufferArrayDynamicIndexing => "shaderUniformTexelBufferArrayDynamicIndexing"
  | F_shaderStorageTexelBufferArrayDynamicIndexing => "shaderStorageTexelBufferArrayDynamicIndexing"
  | F_shaderUniformBufferArrayNonUniformIndexing => "shaderUniformBufferArrayNonUniformIndexing"
  | F_shaderSampledImageArrayNonUniformIndexing => "shaderSampledImageArrayNonUniformIndexing"
  | F_shaderStorageBufferArrayNonUniformIndexing => "shaderStorageBufferArrayNonUniformIndexing"
  | F_shaderStorageImageArrayNonUniformIndexing => "shaderStorageImageArrayNonUniformIndexing"
  | F_shaderInputAttachmentArrayNonUniformIndexing => "shaderInputAttachmentArrayNonUniformIndexing"
  | F_shaderUniformTexelBufferArrayNonUniformIndexing => "shaderUniformTexelBufferArrayNonUniformIndexing"
  | F_shaderStorageTexelBufferArrayNonUniformIndexing => "shaderStorageTexelBufferArrayNonUniformIndexing"
  | F_descriptorBindingUniformBufferUpdateAfterBind => "descriptorBindingUniformBufferUpdateAfterBind"
  | F_descriptorBindingSampledImageUpdateAfterBind => "descriptorBindingSampledImageUpdateAfterBind"
  | F_descriptorBindingStorageImageUpdateAfterBind => "descriptorBindingStorageImageUpdateAfterBind"
  | F_descriptorBindingStorageBufferUpdateAfterBind => "descriptorBindingStorageBufferUpdateAfterBind"
  | F_descriptorBindingUniformTexelBufferUpdateAfterBind => "descriptorBindingUniformTexelBufferUpdateAfterBind"
  | F_descriptorBindingStorageTexelBufferUpdateAfterBind => "descriptorBindingStorageTexelBufferUpdateAfterBind"
  | F_descriptorBindingUpdateUnusedWhilePending => "descriptorBindingUpdateUnusedWhilePending"
  | F_descriptorBindingPartiallyBound => "descriptorBindingPartiallyBound"
  | F_descriptorBindingVariableDescriptorCount => "descriptorBindingVariableDescriptorCount"
  | F_runtimeDescriptorArray => "runtimeDescriptorArray"
  | F_storageBuffer16BitAccess => "storageBuffer16BitAccess"
  | F_uniformAndStorageBuffer16BitAccess => "uniformAndStorageBuffer16BitAccess"
  | F_storagePushConstant16 => "storagePushConstant16"
  | F_storageInputOutput16 => "storageInputOutput16"
  | F_shaderFloat16 => "shaderFloat16"
  | F_shaderInt8 => "shaderInt8"
  | F_indexTypeUint8 => "indexTypeUint8"
  | F_synchronization2 => "synchronization2"
  | F_timelineSemaphore => "timelineSemaphore"
  end.

(** The text of the member expression that holds the field, as [#requestedFeatureStruct]
    would print it. *)
Definition member_expr (m : Member) : string :=
  match m with
  | mFeatures2 => "VkPhysicalDeviceFeatures2_.features"
  | mSamplerYcbcrConversion => "VkPhysicalDeviceSamplerYcbcrConversionFeatures_"
  | mShaderDrawParameters => "VkPhysicalDeviceShaderDrawParametersFeatures_"
  | mMultiview => "VkPhysicalDeviceMultiviewFeatures_"
  | mBufferDeviceAddress => "VkPhysicalDeviceBufferDeviceAddressFeaturesKHR_"
  | mDescriptorIndexing => "VkPhysicalDeviceDescriptorIndexingFeaturesEXT_"
  | m16BitStorage => "VkPhysicalDevice16BitStorageFeatures_"
  | mShaderFloat16Int8 => "VkPhysicalDeviceShaderFloat16Int8Features_"
  | mIndexTypeUint8 => "VkPhysicalDeviceIndexTypeUint8Features_"
  | mSynchronization2 => "VkPhysicalDeviceSynchronization2Features_"
  | mTimelineSemaphore => "VkPhysicalDeviceTimelineSemaphoreFeatures_"
  end.
(** ** Extension catalogue *)

(** [strcmp] of the C library: zero exactly on equal strings. *)
Definition strcmp (a b : string) : Z :=
  match String.compare a b with
  | Eq => 0
  | Lt => -1
  | Gt => 1
  end.

(** [VulkanFeatures::hasExtension]: the range-for over [extensions_] with its
    early [return true]. *)
Fixpoint hasExtension_loop (ext : string) (l : list VkExtensionProperties) : bool :=
  match l with
  | [] => false
  | props :: rest =>
      if strcmp ext (extensionName props) =? 0 then true else hasExtension_loop ext rest
  end.

Definition hasExtension (this : VulkanFeatures) (ext : string) : bool :=
  hasExtension_loop ext (extensions_ this).

(** ** Chain assembly *)

(** Walks [pNext] from [cur] to the structure whose [pNext] is null. The walk
    stays inside the object at [this]; [None] stands for a walk that leaves the
    object or does not end within as many steps as the object has members,
    which on eleven members means it runs in a cycle. *)
Fixpoint chain_tail (fuel : nat) (this : N) (vf : VulkanFeatures) (cur : Member)
  : option Member :=
  match fuel with
  | O => None
  | S fuel' =>
      match get_pNext cur vf with
      | None => Some cur
      | Some (a, m) => if decide (a = this) then chain_tail fuel' this vf m else None
      end
  end.

(** Modelled from the spec: [ivkAddNext(node, next)], a helper of IGL's Vulkan
    utilities that is not part of this file. The chain is singly linked, rooted
    at one entry structure, in insertion order, and ends in a null link: the
    helper follows [pNext] from [node] to the last structure and stores the
    address of [next] there. *)
Definition ivkAddNext (this : N) (node next : Member) (vf : VulkanFeatures)
  : option VulkanFeatures :=
  last ← chain_tail (List.length all_members) this vf node;
  Some (set_pNext last (Some (this, next)) vf).

(** The two kinds of statement in the body of [assembleFeatureChain]. *)
Inductive Stmt : Type :=
  | ResetNext (m : Member)   (* m.pNext = nullptr;                              *)
  | AddNext (m : Member).    (* ivkAddNext(&VkPhysicalDeviceFeatures2_, &m);    *)

Definition exec (this : N) (st : Stmt) (vf : VulkanFeatures) : option VulkanFeatures :=
  match st with
  | ResetNext m => Some (set_pNext m nullptr vf)
  | AddNext m => ivkAddNext this mFeatures2 m vf
  end.

Fixpoint run (this : N) (body : list Stmt) (vf : VulkanFeatures) : option VulkanFeatures :=
  match body with
  | [] => Some vf
  | st :: rest => vf' ← exec this st vf; run this rest vf'
  end.

(** [if (c) { ... }] *)
Definition when (c : bool) (body : list Stmt) : list Stmt := if c then body else [].

(** The statements [assembleFeatureChain] executes, in source order. The
    conditions read [version_], the [config] argument and [extensions_], none
    of which a statement of the body writes. *)
Definition assembleFeatureChain_body (vf : VulkanFeatures) (config : VulkanContextConfig)
  : list Stmt :=
  [ ResetNext mFeatures2;
    ResetNext mSamplerYcbcrConversion;
    ResetNext mShaderDrawParameters;
    ResetNext mMultiview;
    ResetNext mIndexTypeUint8;
    ResetNext mSynchronization2;
    ResetNext mTimelineSemaphore;
    ResetNext mShaderFloat16Int8;
    AddNext mSamplerYcbcrConversion;
    AddNext mShaderDrawParameters;
    AddNext mMultiview ]
  ++ when (VK_API_VERSION_1_2 <=? version_ vf) [ AddNext mShaderFloat16Int8 ]
  ++ [ ResetNext mBufferDeviceAddress ]
  ++ when (enableBufferDeviceAddress config) [ AddNext mBufferDeviceAddress ]
  ++ [ ResetNext mDescriptorIndexing ]
  ++ when (enableDescriptorIndexing config) [ AddNext mDescriptorIndexing ]
  ++ [ ResetNext m16BitStorage;
       AddNext m16BitStorage ]
  ++ when (hasExtension vf VK_EXT_INDEX_TYPE_UINT8_EXTENSION_NAME)
       [ AddNext mIndexTypeUint8 ]
  ++ when (hasExtension vf VK_KHR_SYNCHRONIZATION_2_EXTENSION_NAME)
       [ AddNext mSynchronization2 ]
  ++ when (hasExtension vf VK_KHR_TIMELINE_SEMAPHORE_EXTENSION_NAME)
       [ AddNext mTimelineSemaphore ].

(** [VulkanFeatures::assembleFeatureChain] on the object at address [this]. *)
Definition assembleFeatureChain (this : N) (config : VulkanContextConfig)
    (vf : VulkanFeatures) : option VulkanFeatures :=
  run this (assembleFeatureChain_body vf config) vf.

(** The chain a traversal from [VkPhysicalDeviceFeatures2_] sees, root first. *)
Fixpoint chain_from (fuel : nat) (this : N) (vf : VulkanFeatures) (cur : Member)
  : option (list Member) :=
  match fuel with
  | O => None
  | S fuel' =>
      match get_pNext cur vf with
      | None => Some [cur]
      | Some (a, m) =>
          if decide (a = this) then (cur ::.) <$> chain_from fuel' this vf m else None
      end
  end.

Definition featureChain (this : N) (vf : VulkanFeatures) : option (list Member) :=
  chain_from (List.length all_members) this vf mFeatures2.

(** ** Construction *)

(** [.features = {}]: value initialisation clears every member. *)
Definition VkPhysicalDeviceFeatures_zero : VkPhysicalDeviceFeatures := {|
  robustBufferAccess := 0; fullDrawIndexUint32 := 0; imageCubeArray := 0;
  independentBlend := 0; geometryShader := 0; tessellationShader := 0;
  sampleRateShading := 0; dualSrcBlend := 0; logicOp := 0; multiDrawIndirect := 0;
  drawIndirectFirstInstance := 0; depthClamp := 0; depthBiasClamp := 0;
  fillModeNonSolid := 0; depthBounds := 0; wideLines := 0; largePoints := 0;
  alphaToOne := 0; multiViewport := 0; samplerAnisotropy := 0; textureCompressionETC2 := 0;
  textureCompressionASTC_LDR := 0; textureCompressionBC := 0; occlusionQueryPrecise := 0;
  pipelineStatisticsQuery := 0; vertexPipelineStoresAndAtomics := 0;
  fragmentStoresAndAtomics := 0; shaderTessellationAndGeometryPointSize := 0;
  shaderImageGatherExtended := 0; shaderStorageImageExtendedFormats := 0;
  shaderStorageImageMultisample := 0; shaderStorageImageReadWithoutFormat := 0;
  shaderStorageImageWriteWithoutFormat := 0; shaderUniformBufferArrayDynamicIndexing := 0;
  shaderSampledImageArrayDynamicIndexing := 0; shaderStorageBufferArrayDynamicIndexing := 0;
  shaderStorageImageArrayDynamicIndexing := 0; shaderClipDistance := 0;
  shaderCullDistance := 0; shaderFloat64 := 0; shaderInt64 := 0; shaderInt16 := 0;
  shaderResourceResidency := 0; shaderResourceMinLod := 0; sparseBinding := 0;
  sparseResidencyBuffer := 0; sparseResidencyImage2D := 0; sparseResidencyImage3D := 0;
  sparseResidency2Samples := 0; sparseResidency4Samples := 0; sparseResidency8Samples := 0;
  sparseResidency16Samples := 0; sparseResidencyAliased := 0; variableMultisampleRate := 0;
  inheritedQueries := 0
|}.

(** The member initialisers of the constructor, before its body runs. *)
Definition VulkanFeatures_init (version : Z) (config : VulkanContextConfig)
  : VulkanFeatures := {|
  VkPhysicalDeviceFeatures2_ :=
    {| sType := VK_STRUCTURE_TYPE_PHYSICAL_DEVICE_FEATURES_2;
       pNext := nullptr;
       body := VkPhysicalDeviceFeatures_zero |};
  VkPhysicalDeviceSamplerYcbcrConversionFeatures_ :=
    {| sType := VK_STRUCTURE_TYPE_PHYSICAL_DEVICE_SAMPLER_YCBCR_CONVERSION_FEATURES;
       pNext := nullptr;
       body := {| samplerYcbcrConversion := VK_FALSE |} |};
  VkPhysicalDeviceShaderDrawParametersFeatures_ :=
    {| sType := VK_STRUCTURE_TYPE_PHYSICAL_DEVICE_SHADER_DRAW_PARAMETERS_FEATURES;
       pNext := nullptr;
       body := {| shaderDrawParameters := VK_FALSE |} |};
  VkPhysicalDeviceMultiviewFeatures_ :=
    {| sType := VK_STRUCTURE_TYPE_PHYSICAL_DEVICE_MULTIVIEW_FEATURES;
       pNext := nullptr;
       body := {| multiview := VK_FALSE;
                  multiviewGeometryShader := VK_FALSE;
                  multiviewTessellationShader := VK_FALSE |} |};
  VkPhysicalDeviceBufferDeviceAddressFeaturesKHR_ :=
    {| sType := VK_STRUCTURE_TYPE_PHYSICAL_DEVICE_BUFFER_DEVICE_ADDRESS_FEATURES_KHR;
       pNext := nullptr;
       body := {| bufferDeviceAddress := VK_FALSE;
                  bufferDeviceAddressCaptureReplay := VK_FALSE;
                  bufferDeviceAddressMultiDevice := VK_FALSE |} |};
  VkPhysicalDeviceDescriptorIndexingFeaturesEXT_ :=
    {| sType := VK_STRUCTURE_TYPE_PHYSICAL_DEVICE_DESCRIPTOR_INDEXING_FEATURES_EXT;
       pNext := nullptr;
       body := {| shaderInputAttachmentArrayDynamicIndexing := VK_FALSE;
                  shaderUniformTexelBufferArrayDynamicIndexing := VK_FALSE;
                  shaderStorageTexelBufferArrayDynamicIndexing := VK_FALSE;
                  shaderUniformBufferArrayNonUniformIndexing := VK_FALSE;
                  shaderSampledImageArrayNonUniformIndexing := VK_FALSE;
                  shaderStorageBufferArrayNonUniformIndexing := VK_FALSE;
                  shaderStorageImageArrayNonUniformIndexing := VK_FALSE;
                  shaderInputAttachmentArrayNonUniformIndexing := VK_FALSE;
                  shaderUniformTexelBufferArrayNonUniformIndexing := VK_FALSE;
                  shaderStorageTexelBufferArrayNonUniformIndexing := VK_FALSE;
                  descriptorBindingUniformBufferUpdateAfterBind := VK_FALSE;
                  descriptorBindingSampledImageUpdateAfterBind := VK_FALSE;
                  descriptorBindingStorageImageUpdateAfterBind := VK_FALSE;
                  descriptorBindingStorageBufferUpdateAfterBind := VK_FALSE;
                  descriptorBindingUniformTexelBufferUpdateAfterBind := VK_FALSE;
                  descriptorBindingStorageTexelBufferUpdateAfterBind := VK_FALSE;
                  descriptorBindingUpdateUnusedWhilePending := VK_FALSE;
                  descriptorBindingPartiallyBound := VK_FALSE;
                  descriptorBindingVariableDescriptorCount := VK_FALSE;
                  runtimeDescriptorArray := VK_FALSE |} |};
  VkPhysicalDevice16BitStorageFeatures_ :=
    {| sType := VK_STRUCTURE_TYPE_PHYSICAL_DEVICE_16BIT_STORAGE_FEATURES;
       pNext := nullptr;
       body := {| storageBuffer16BitAccess := VK_FALSE;
                  uniformAndStorageBuffer16BitAccess := VK_FALSE;
                  storagePushConstant16 := VK_FALSE;
                  storageInputOutput16 := VK_FALSE |} |};
  VkPhysicalDeviceShaderFloat16Int8Features_ :=
    {| sType := VK_STRUCTURE_TYPE_PHYSICAL_DEVICE_SHADER_FLOAT16_INT8_FEATURES_KHR;
       pNext := nullptr;
       body := {| shaderFloat16 := VK_FALSE;
                  shaderInt8 := VK_FALSE |} |};
  VkPhysicalDeviceIndexTypeUint8Features_ :=
    {| sType := VK_STRUCTURE_TYPE_PHYSICAL_DEVICE_INDEX_TYPE_UINT8_FEATURES_EXT;
       pNext := nullptr;
       body := {| indexTypeUint8 := VK_FALSE |} |};
  VkPhysicalDeviceSynchronization2Features_ :=
    {| sType := VK_STRUCTURE_TYPE_PHYSICAL_DEVICE_SYNCHRONIZATION_2_FEATURES_KHR;
       pNext := nullptr;
       body := {| synchronization2 := VK_TRUE |} |};
  VkPhysicalDeviceTimelineSemaphoreFeatures_ :=
    {| sType := VK_STRUCTURE_TYPE_PHYSICAL_DEVICE_TIMELINE_SEMAPHORE_FEATURES_KHR;
       pNext := nullptr;
       body := {| timelineSemaphore := VK_TRUE |} |};
  config_ := config;
  version_ := version;
  extensions_ := []
|}.

(** [VulkanFeatures::VulkanFeatures(version, config)], constructing at [this]. *)
Definition VulkanFeatures_new (this : N) (version : Z) (config : VulkanContextConfig)
  : option VulkanFeatures :=
  assembleFeatureChain this config (VulkanFeatures_init version config).

(** ** Results and diagnostics *)

(** The codes of [igl::Result] that this file returns. *)
Inductive Code : Type :=
  | Ok
  | InvalidOperation
  | RuntimeError.

Record Result : Type := {
  code : Code;
  message : string
}.

(** [Result{}] and [Result(code)]. *)
Definition Result_default : Result := {| code := Ok; message := "" |}.
Definition Result_of (c : Code) : Result := {| code := c; message := "" |}.

(** What a call reports besides its return value. The macros
    [IGL_DEBUG_ASSERT], [IGL_DEBUG_ABORT] and [IGL_LOG_INFO] are defined outside
    this file. A failed assertion, an abort and a log line are each recorded as
    an event, and execution goes on with the statement after the macro. The
    source is written for that: it places
    [return Result(Result::Code::RuntimeError)] directly behind
    [IGL_DEBUG_ABORT], and [PlatformDevice::createTextureFromNativeDepth]
    asserts a defined image format with [IGL_DEBUG_ASSERT] and then returns
    [RuntimeError] for a format it cannot convert. *)
Inductive Event : Type :=
  | DebugAssertFailed (msg : string)   (* IGL_DEBUG_ASSERT(false, msg) *)
  | DebugAbort (msg : string)          (* IGL_DEBUG_ABORT(msg)         *)
  | LogInfo (msg : string).            (* IGL_LOG_INFO(msg)            *)

Record Logged (A : Type) : Type := {
  events : list Event;
  value : A
}.
Arguments events {A} _.
Arguments value {A} _.
Arguments Build_Logged {A} _ _.

#[global] Instance Logged_ret : MRet Logged := λ A a, Build_Logged [] a.
#[global] Instance Logged_bind : MBind Logged := λ A B k m,
  let r := k (value m) in Build_Logged (events m ++ events r) (value r).

Definition tell (e : Event) : Logged unit := Build_Logged [e] tt.

Definition IGL_DEBUG_ASSERT (cond : bool) (msg : string) : Logged unit :=
  if cond then mret tt else tell (DebugAssertFailed msg).
Definition IGL_DEBUG_ABORT (msg : string) : Logged unit := tell (DebugAbort msg).
Definition IGL_LOG_INFO (msg : string) : Logged unit := tell (LogInfo msg).

(** Compile-time platform selection: the value of [IGL_PLATFORM_APPLE] and
    whether [IGL_PLATFORM_ANDROID] is a defined macro. *)
Record Platform : Type := {
  IGL_PLATFORM_APPLE : bool;
  defined_IGL_PLATFORM_ANDROID : bool
}.

(** ** Checking requested against available features *)

Definition LF : string := String "010" EmptyString.

(** One entry of the report: the literal
    ["\n   " version " " #requestedFeatureStruct "." #feature]. *)
Definition report_entry (feature : FeatureField) (version : string) : string :=
  (LF ++ "   " ++ version ++ " " ++ member_expr (field_member feature) ++ "."
      ++ field_name feature)%string.

(** [ENABLE_VULKAN_FEATURE(requestedFeatureStruct, availableFeatureStruct, feature, version)].
    The token [feature] selects the same member field on both sides
    ([field_value]) and is stringified together with the requested structure
    ([member_expr], [field_name]). *)
Definition ENABLE_VULKAN_FEATURE (this availableFeatures : VulkanFeatures)
    (feature : FeatureField) (version : string) (missingFeatures : string) : string :=
  if (field_value feature this =? VK_TRUE) && (field_value feature availableFeatures =? VK_FALSE)
  then (missingFeatures ++ report_entry feature version)%string
  else missingFeatures.

(** One use of a checking macro: the field and the version text it passes on. *)
Definition FeatureCheck : Type := (FeatureField * string)%type.
Definition ENABLE_FEATURE_1_1 (feature : FeatureField) : FeatureCheck := (feature, "1.1").
Definition ENABLE_FEATURE_1_1_EXT (feature : FeatureField) : FeatureCheck := (feature, "1.1 EXT").
Definition ENABLE_FEATURE_1_2_EXT (feature : FeatureField) : FeatureCheck := (feature, "1.2").

(** The macro uses in the body of [checkSelectedFeatures], in source order,
    under the two [if (config_...)] guards. *)
Definition checkSelectedFeatures_checks (this : VulkanFeatures) : list FeatureCheck :=
  [ ENABLE_FEATURE_1_1 F_dualSrcBlend;
    ENABLE_FEATURE_1_1 F_shaderInt16;
    ENABLE_FEATURE_1_1 F_multiDrawIndirect;
    ENABLE_FEATURE_1_1 F_drawIndirectFirstInstance;
    ENABLE_FEATURE_1_1 F_depthBiasClamp;
    ENABLE_FEATURE_1_1 F_fillModeNonSolid ]
  ++ (if enableDescriptorIndexing (config_ this) then
        [ ENABLE_FEATURE_1_1_EXT F_shaderSampledImageArrayNonUniformIndexing;
          ENABLE_FEATURE_1_1_EXT F_descriptorBindingUniformBufferUpdateAfterBind;
          ENABLE_FEATURE_1_1_EXT F_descriptorBindingSampledImageUpdateAfterBind;
          ENABLE_FEATURE_1_1_EXT F_descriptorBindingStorageImageUpdateAfterBind;
          ENABLE_FEATURE_1_1_EXT F_descriptorBindingStorageBufferUpdateAfterBind;
          ENABLE_FEATURE_1_1_EXT F_descriptorBindingUpdateUnusedWhilePending;
          ENABLE_FEATURE_1_1_EXT F_descriptorBindingPartiallyBound;
          ENABLE_FEATURE_1_1_EXT F_runtimeDescriptorArray ]
      else [])
  ++ [ ENABLE_FEATURE_1_1_EXT F_storageBuffer16BitAccess ]
  ++ (if enableBufferDeviceAddress (config_ this) then
        [ ENABLE_FEATURE_1_1_EXT F_bufferDeviceAddress ]
      else [])
  ++ [ ENABLE_FEATURE_1_1_EXT F_multiview;
       ENABLE_FEATURE_1_1_EXT F_samplerYcbcrConversion;
       ENABLE_FEATURE_1_1_EXT F_shaderDrawParameters;
       ENABLE_FEATURE_1_2_EXT F_shaderFloat16 ].

(** The value of the local [missingFeatures] once all checks have run. *)
Definition missingFeatures_of (this availableFeatures : VulkanFeatures) : string :=
  fold_left
    (λ missingFeatures (c : FeatureCheck),
       ENABLE_VULKAN_FEATURE this availableFeatures (fst c) (snd c) missingFeatures)
    (checkSelectedFeatures_checks this) EmptyString.

(** [std::string::empty]. *)
Definition string_empty (s : string) : bool :=
  match s with
  | EmptyString => true
  | String _ _ => false
  end.

(** The text [printf] produces for ["Missing Vulkan features: %s\n"]. *)
Definition missing_message (missingFeatures : string) : string :=
  ("Missing Vulkan features: " ++ missingFeatures ++ LF)%string.

(** [VulkanFeatures::checkSelectedFeatures]; [this] is the requested set. *)
Definition checkSelectedFeatures (platform : Platform)
    (this availableFeatures : VulkanFeatures) : Logged Result :=
  IGL_DEBUG_ASSERT (version_ availableFeatures =? version_ this)
    "The API versions don't match between the requested features and the ones that are available";;
  let missingFeatures := missingFeatures_of this availableFeatures in
  if negb (string_empty missingFeatures) then
    if negb (IGL_PLATFORM_APPLE platform) then
      IGL_DEBUG_ABORT (missing_message missingFeatures);;
      mret (Result_of RuntimeError)
    else
      IGL_LOG_INFO (missing_message missingFeatures);;
      mret Result_default
  else
    mret Result_default.

(** ** Copy assignment *)

(** [VulkanFeatures::operator=]: the object at [this] holds [self], the argument
    at [other_addr] holds [other]. [config_] and [version_] are not assigned. *)
Definition operator_assign (this : N) (self : VulkanFeatures)
    (other_addr : N) (other : VulkanFeatures) : option VulkanFeatures :=
  if decide (this = other_addr) then Some self
  else
    let sameVersion := version_ self =? version_ other in
    let sameConfiguration :=
      Bool.eqb (enableBufferDeviceAddress (config_ self))
               (enableBufferDeviceAddress (config_ other))
      && Bool.eqb (enableDescriptorIndexing (config_ self))
                  (enableDescriptorIndexing (config_ other)) in
    if negb sameVersion || negb sameConfiguration then Some self
    else
      let self' := {|
        VkPhysicalDeviceFeatures2_ := VkPhysicalDeviceFeatures2_ other;
        VkPhysicalDeviceSamplerYcbcrConversionFeatures_ :=
          VkPhysicalDeviceSamplerYcbcrConversionFeatures_ other;
        VkPhysicalDeviceShaderDrawParametersFeatures_ :=
          VkPhysicalDeviceShaderDrawParametersFeatures_ other;
        VkPhysicalDeviceMultiviewFeatures_ := VkPhysicalDeviceMultiviewFeatures_ other;
        VkPhysicalDeviceBufferDeviceAddressFeaturesKHR_ :=
          VkPhysicalDeviceBufferDeviceAddressFeaturesKHR_ other;
        VkPhysicalDeviceDescriptorIndexingFeaturesEXT_ :=
          VkPhysicalDeviceDescriptorIndexingFeaturesEXT_ other;
        VkPhysicalDevice16BitStorageFeatures_ := VkPhysicalDevice16BitStorageFeatures_ other;
        VkPhysicalDeviceShaderFloat16Int8Features_ :=
          VkPhysicalDeviceShaderFloat16Int8Features_ other;
        VkPhysicalDeviceIndexTypeUint8Features_ := VkPhysicalDeviceIndexTypeUint8Features_ other;
        VkPhysicalDeviceSynchronization2Features_ :=
          VkPhysicalDeviceSynchronization2Features_ other;
        VkPhysicalDeviceTimelineSemaphoreFeatures_ :=
          VkPhysicalDeviceTimelineSemaphoreFeatures_ other;
        config_ := config_ self;
        version_ := version_ self;
        extensions_ := extensions_ other
      |} in
      assembleFeatureChain this (config_ self') self'.

(** The objects in memory, by address; [dst = src] for the objects at [this]
    and [other] reads both and writes the first. *)
Definition assign (h : gmap N VulkanFeatures) (this other : N)
  : option (gmap N VulkanFeatures) :=
  self ← h !! this;
  src ← h !! other;
  self' ← operator_assign this self other src;
  Some (<[this := self']> h).

(** ** Default requests *)

(** [VulkanFeatures::enableDefaultFeatures1_1]: assignments to single members;
    every member not named keeps its value. *)
Definition enableDefaultFeatures1_1 (platform : Platform) (this : VulkanFeatures)
  : VulkanFeatures :=
  let features := features (VkPhysicalDeviceFeatures2_ this) in
  let descriptorIndexingFeatures := body (VkPhysicalDeviceDescriptorIndexingFeaturesEXT_ this) in
  {|
  VkPhysicalDeviceFeatures2_ :=
    with_body (VkPhysicalDeviceFeatures2_ this) {|
      robustBufferAccess := robustBufferAccess features;
      fullDrawIndexUint32 := fullDrawIndexUint32 features;
      imageCubeArray := imageCubeArray features;
      independentBlend := independentBlend features;
      geometryShader := geometryShader features;
      tessellationShader := tessellationShader features;
      sampleRateShading := sampleRateShading features;
      dualSrcBlend := (if enableDualSrcBlend (config_ this) then VK_TRUE else VK_FALSE);
      logicOp := logicOp features; multiDrawIndirect := VK_TRUE;
      drawIndirectFirstInstance := VK_TRUE; depthClamp := depthClamp features;
      depthBiasClamp := VK_TRUE;
      fillModeNonSolid := (if defined_IGL_PLATFORM_ANDROID platform then VK_FALSE else VK_TRUE);
      depthBounds := depthBounds features; wideLines := wideLines features;
      largePoints := largePoints features; alphaToOne := alphaToOne features;
      multiViewport := multiViewport features;
      samplerAnisotropy := samplerAnisotropy features;
      textureCompressionETC2 := textureCompressionETC2 features;
      textureCompressionASTC_LDR := textureCompressionASTC_LDR features;
      textureCompressionBC := textureCompressionBC features;
      occlusionQueryPrecise := occlusionQueryPrecise features;
      pipelineStatisticsQuery := pipelineStatisticsQuery features;
      vertexPipelineStoresAndAtomics := vertexPipelineStoresAndAtomics features;
      fragmentStoresAndAtomics := fragmentStoresAndAtomics features;
      shaderTessellationAndGeometryPointSize := shaderTessellationAndGeometryPointSize features;
      shaderImageGatherExtended := shaderImageGatherExtended features;
      shaderStorageImageExtendedFormats := shaderStorageImageExtendedFormats features;
      shaderStorageImageMultisample := shaderStorageImageMultisample features;
      shaderStorageImageReadWithoutFormat := shaderStorageImageReadWithoutFormat features;
      shaderStorageImageWriteWithoutFormat := shaderStorageImageWriteWithoutFormat features;
      shaderUniformBufferArrayDynamicIndexing := shaderUniformBufferArrayDynamicIndexing features;
      shaderSampledImageArrayDynamicIndexing := shaderSampledImageArrayDynamicIndexing features;
      shaderStorageBufferArrayDynamicIndexing := shaderStorageBufferArrayDynamicIndexing features;
      shaderStorageImageArrayDynamicIndexing := shaderStorageImageArrayDynamicIndexing features;
      shaderClipDistance := shaderClipDistance features;
      shaderCullDistance := shaderCullDistance features;
      shaderFloat64 := shaderFloat64 features; shaderInt64 := shaderInt64 features;
      shaderInt16 := (if enableShaderInt16 (config_ this) then VK_TRUE else VK_FALSE);
      shaderResourceResidency := shaderResourceResidency features;
      shaderResourceMinLod := shaderResourceMinLod features;
      sparseBinding := sparseBinding features;
      sparseResidencyBuffer := sparseResidencyBuffer features;
      sparseResidencyImage2D := sparseResidencyImage2D features;
      sparseResidencyImage3D := sparseResidencyImage3D features;
      sparseResidency2Samples := sparseResidency2Samples features;
      sparseResidency4Samples := sparseResidency4Samples features;
      sparseResidency8Samples := sparseResidency8Samples features;
      sparseResidency16Samples := sparseResidency16Samples features;
      sparseResidencyAliased := sparseResidencyAliased features;
      variableMultisampleRate := variableMultisampleRate features;
      inheritedQueries := inheritedQueries features
    |};
  VkPhysicalDeviceSamplerYcbcrConversionFeatures_ :=
    with_body (VkPhysicalDeviceSamplerYcbcrConversionFeatures_ this)
      {| samplerYcbcrConversion := VK_TRUE |};
  VkPhysicalDeviceShaderDrawParametersFeatures_ :=
    with_body (VkPhysicalDeviceShaderDrawParametersFeatures_ this)
      {| shaderDrawParameters :=
           if enableShaderDrawParameters (config_ this) then VK_TRUE else VK_FALSE |};
  VkPhysicalDeviceMultiviewFeatures_ :=
    let old := body (VkPhysicalDeviceMultiviewFeatures_ this) in
    with_body (VkPhysicalDeviceMultiviewFeatures_ this)
      {| multiview := VK_TRUE;
         multiviewGeometryShader := multiviewGeometryShader old;
         multiviewTessellationShader := multiviewTessellationShader old |};
  VkPhysicalDeviceBufferDeviceAddressFeaturesKHR_ :=
    let old := body (VkPhysicalDeviceBufferDeviceAddressFeaturesKHR_ this) in
    if enableBufferDeviceAddress (config_ this) then
      with_body (VkPhysicalDeviceBufferDeviceAddressFeaturesKHR_ this)
        {| bufferDeviceAddress := VK_TRUE;
           bufferDeviceAddressCaptureReplay := bufferDeviceAddressCaptureReplay old;
           bufferDeviceAddressMultiDevice := bufferDeviceAddressMultiDevice old |}
    else VkPhysicalDeviceBufferDeviceAddressFeaturesKHR_ this;
  VkPhysicalDeviceDescriptorIndexingFeaturesEXT_ :=
    if enableDescriptorIndexing (config_ this) then
      with_body (VkPhysicalDeviceDescriptorIndexingFeaturesEXT_ this) {|
        shaderInputAttachmentArrayDynamicIndexing := shaderInputAttachmentArrayDynamicIndexing descriptorIndexingFeatures;
        shaderUniformTexelBufferArrayDynamicIndexing := shaderUniformTexelBufferArrayDynamicIndexing descriptorIndexingFeatures;
        shaderStorageTexelBufferArrayDynamicIndexing := shaderStorageTexelBufferArrayDynamicIndexing descriptorIndexingFeatures;
        shaderUniformBufferArrayNonUniformIndexing := shaderUniformBufferArrayNonUniformIndexing descriptorIndexingFeatures;
        shaderSampledImageArrayNonUniformIndexing := VK_TRUE;
        shaderStorageBufferArrayNonUniformIndexing := shaderStorageBufferArrayNonUniformIndexing descriptorIndexingFeatures;
        shaderStorageImageArrayNonUniformIndexing := shaderStorageImageArrayNonUniformIndexing descriptorIndexingFeatures;
        shaderInputAttachmentArrayNonUniformIndexing := shaderInputAttachmentArrayNonUniformIndexing descriptorIndexingFeatures;
        shaderUniformTexelBufferArrayNonUniformIndexing := shaderUniformTexelBufferArrayNonUniformIndexing descriptorIndexingFeatures;
        shaderStorageTexelBufferArrayNonUniformIndexing := shaderStorageTexelBufferArrayNonUniformIndexing descriptorIndexingFeatures;
        descriptorBindingUniformBufferUpdateAfterBind := VK_TRUE;
        descriptorBindingSampledImageUpdateAfterBind := VK_TRUE;
        descriptorBindingStorageImageUpdateAfterBind := VK_TRUE;
        descriptorBindingStorageBufferUpdateAfterBind := VK_TRUE;
        descriptorBindingUniformTexelBufferUpdateAfterBind := descriptorBindingUniformTexelBufferUpdateAfterBind descriptorIndexingFeatures;
        descriptorBindingStorageTexelBufferUpdateAfterBind := descriptorBindingStorageTexelBufferUpdateAfterBind descriptorIndexingFeatures;
        descriptorBindingUpdateUnusedWhilePending := VK_TRUE;
        descriptorBindingPartiallyBound := VK_TRUE;
        descriptorBindingVariableDescriptorCount := descriptorBindingVariableDescriptorCount descriptorIndexingFeatures;
        runtimeDescriptorArray := VK_TRUE
      |}
    else VkPhysicalDeviceDescriptorIndexingFeaturesEXT_ this;
  VkPhysicalDevice16BitStorageFeatures_ :=
    let old := body (VkPhysicalDevice16BitStorageFeatures_ this) in
    with_body (VkPhysicalDevice16BitStorageFeatures_ this)
      {| storageBuffer16BitAccess :=
           if enableStorageBuffer16BitAccess (config_ this) then VK_TRUE else VK_FALSE;
         uniformAndStorageBuffer16BitAccess := uniformAndStorageBuffer16BitAccess old;
         storagePushConstant16 := storagePushConstant16 old;
         storageInputOutput16 := storageInputOutput16 old |};
  VkPhysicalDeviceShaderFloat16Int8Features_ := VkPhysicalDeviceShaderFloat16Int8Features_ this;
  VkPhysicalDeviceIndexTypeUint8Features_ := VkPhysicalDeviceIndexTypeUint8Features_ this;
  VkPhysicalDeviceSynchronization2Features_ :=
    with_body (VkPhysicalDeviceSynchronization2Features_ this)
      {| synchronization2 := VK_TRUE |};
  VkPhysicalDeviceTimelineSemaphoreFeatures_ :=
    with_body (VkPhysicalDeviceTimelineSemaphoreFeatures_ this)
      {| timelineSemaphore := VK_TRUE |};
  config_ := config_ this;
  version_ := version_ this;
  extensions_ := extensions_ this
  |}.

(** * Derived notions

    Definitions that the statements below are phrased in: the closed form of
    the assembled chain, the order of the statements of the body, the report
    as a list of lines, and sample objects. *)

(** ** The assembled chain *)

(** [pNext] links along a list of members, head first. *)
Fixpoint relink (this : N) (l : list Member) (vf : VulkanFeatures) : VulkanFeatures :=
  match l with
  | a :: (b :: _) as rest => relink this rest (set_pNext a (Some (this, b)) vf)
  | _ => vf
  end.

Definition reset_all (vf : VulkanFeatures) : VulkanFeatures :=
  foldr (λ m, set_pNext m nullptr) vf all_members.

Definition take_if (c : bool) (m : Member) : list Member := if c then [m] else [].

(** The members behind the root, in the order the body links them. *)
Definition linked_members (vf : VulkanFeatures) (config : VulkanContextConfig)
  : list Member :=
  [ mSamplerYcbcrConversion; mShaderDrawParameters; mMultiview ]
  ++ take_if (VK_API_VERSION_1_2 <=? version_ vf) mShaderFloat16Int8
  ++ take_if (enableBufferDeviceAddress config) mBufferDeviceAddress
  ++ take_if (enableDescriptorIndexing config) mDescriptorIndexing
  ++ [ m16BitStorage ]
  ++ take_if (hasExtension vf VK_EXT_INDEX_TYPE_UINT8_EXTENSION_NAME) mIndexTypeUint8
  ++ take_if (hasExtension vf VK_KHR_SYNCHRONIZATION_2_EXTENSION_NAME) mSynchronization2
  ++ take_if (hasExtension vf VK_KHR_TIMELINE_SEMAPHORE_EXTENSION_NAME) mTimelineSemaphore.

(** The successor of [m] in a list of members. *)
Fixpoint successor (l : list Member) (m : Member) : option Member :=
  match l with
  | [] => None
  | a :: rest => if decide (a = m) then head rest else successor rest m
  end.

(** The state [assembleFeatureChain] leaves behind. *)
Definition assembled (this : N) (config : VulkanContextConfig) (vf : VulkanFeatures)
  : VulkanFeatures :=
  relink this (mFeatures2 :: linked_members vf config) (reset_all vf).

(** The gating condition of a member, in the words of the specification:
    unconditional, or the version reaches the introducing version, or the
    configuration toggle is on, or the introducing extension is named in the
    catalogue. *)
Definition gating_condition (vf : VulkanFeatures) (config : VulkanContextConfig)
    (m : Member) : Prop :=
  match m with
  | mFeatures2 | mSamplerYcbcrConversion | mShaderDrawParameters | mMultiview
  | m16BitStorage => True
  | mShaderFloat16Int8 => VK_API_VERSION_1_2 ≤ version_ vf
  | mBufferDeviceAddress => enableBufferDeviceAddress config = true
  | mDescriptorIndexing => enableDescriptorIndexing config = true
  | mIndexTypeUint8 =>
      VK_EXT_INDEX_TYPE_UINT8_EXTENSION_NAME ∈ extensionName <$> extensions_ vf
  | mSynchronization2 =>
      VK_KHR_SYNCHRONIZATION_2_EXTENSION_NAME ∈ extensionName <$> extensions_ vf
  | mTimelineSemaphore =>
      VK_KHR_TIMELINE_SEMAPHORE_EXTENSION_NAME ∈ extensionName <$> extensions_ vf
  end.

(** ** Order of the statements of [assembleFeatureChain] *)

Definition is_link (st : Stmt) : bool :=
  match st with
  | AddNext _ => true
  | ResetNext _ => false
  end.

(** All resets come first: once a link statement has run, only link
    statements follow. *)
Fixpoint resets_precede_all_links (body : list Stmt) : bool :=
  match body with
  | ResetNext _ :: rest => resets_precede_all_links rest
  | _ => forallb is_link body
  end.

(** A member is linked only after its own [pNext] and that of the root have
    been reset; [seen] holds the members reset so far. *)
Fixpoint links_follow_own_reset (seen : list Member) (body : list Stmt) : bool :=
  match body with
  | [] => true
  | ResetNext m :: rest => links_follow_own_reset (m :: seen) rest
  | AddNext m :: rest =>
      bool_decide (m ∈ seen) && bool_decide (mFeatures2 ∈ seen)
      && links_follow_own_reset seen rest
  end.

(** ** Text of the report *)

#[local] Arguments String.append : simpl nomatch.

(** Concatenation of a list of strings. *)
Definition flatten (l : list string) : string := foldr String.append EmptyString l.

(** The lines of a text: the pieces between line feeds. *)
Fixpoint split_lines (s : string) : list string :=
  match s with
  | EmptyString => [EmptyString]
  | String c rest =>
      if Ascii.eqb c "010" then EmptyString :: split_lines rest
      else match split_lines rest with
           | [] => [String c EmptyString]
           | l :: ls => String c l :: ls
           end
  end.

Fixpoint no_newline (s : string) : bool :=
  match s with
  | EmptyString => true
  | String c rest => negb (Ascii.eqb c "010") && no_newline rest
  end.

Fixpoint ends_with (suffix s : string) : bool :=
  String.eqb s suffix
  || match s with
     | EmptyString => false
     | String _ rest => ends_with suffix rest
     end.

(** The text of an entry behind its line feed. *)
Definition report_line (feature : FeatureField) (version : string) : string :=
  ("   " ++ version ++ " " ++ member_expr (field_member feature) ++ "."
     ++ field_name feature)%string.

(** The entry of a check without line feed and indentation. *)
Definition bare_entry (c : FeatureCheck) : string :=
  (snd c ++ " " ++ member_expr (field_member (fst c)) ++ "." ++ field_name (fst c))%string.

(** A check fires: the field is requested and reported unavailable. *)
Definition is_missing (R A : VulkanFeatures) (c : FeatureCheck) : bool :=
  (field_value (fst c) R =? VK_TRUE) && (field_value (fst c) A =? VK_FALSE).

(** The checks of the requested set that fire, in source order. *)
Definition missing_checks (R A : VulkanFeatures) : list FeatureCheck :=
  List.filter (is_missing R A) (checkSelectedFeatures_checks R).

Definition versions_message : string :=
  "The API versions don't match between the requested features and the ones that are available".

#[global] Instance FeatureField_eq_dec : EqDecision FeatureField.
Proof. solve_decision. Defined.

(** ** Sample configurations, requests and devices *)

Definition config_none : VulkanContextConfig := {|
  enableBufferDeviceAddress := false;
  enableDescriptorIndexing := false;
  enableShaderInt16 := false;
  enableShaderDrawParameters := false;
  enableStorageBuffer16BitAccess := false;
  enableDualSrcBlend := false
|}.

Definition config_all : VulkanContextConfig := {|
  enableBufferDeviceAddress := true;
  enableDescriptorIndexing := true;
  enableShaderInt16 := true;
  enableShaderDrawParameters := true;
  enableStorageBuffer16BitAccess := true;
  enableDualSrcBlend := true
|}.

Definition config_int16 : VulkanContextConfig := {|
  enableBufferDeviceAddress := false;
  enableDescriptorIndexing := false;
  enableShaderInt16 := true;
  enableShaderDrawParameters := false;
  enableStorageBuffer16BitAccess := false;
  enableDualSrcBlend := false
|}.

Definition linux : Platform :=
  {| IGL_PLATFORM_APPLE := false; defined_IGL_PLATFORM_ANDROID := false |}.

Definition macos : Platform :=
  {| IGL_PLATFORM_APPLE := true; defined_IGL_PLATFORM_ANDROID := false |}.

(** The object a constructor call leaves at address [this]. *)
Definition fresh (this : N) (version : Z) (config : VulkanContextConfig) : VulkanFeatures :=
  default (VulkanFeatures_init version config) (VulkanFeatures_new this version config).

Definition with_extensions (names : list string) (vf : VulkanFeatures) : VulkanFeatures :=
  let 'Build_VulkanFeatures f2 yc dp mv bda di s16 f16 u8 s2 ts cfg ver _ := vf in
  Build_VulkanFeatures f2 yc dp mv bda di s16 f16 u8 s2 ts cfg ver
    ((λ n, {| extensionName := n; specVersion := 1 |}) <$> names).

Definition set_multiview (v : VkBool32) (vf : VulkanFeatures) : VulkanFeatures :=
  let 'Build_VulkanFeatures f2 yc dp mv bda di s16 f16 u8 s2 ts cfg ver exts := vf in
  Build_VulkanFeatures f2 yc dp
    (with_body mv
       {| multiview := v;
          multiviewGeometryShader := multiviewGeometryShader (body mv);
          multiviewTessellationShader := multiviewTessellationShader (body mv) |})
    bda di s16 f16 u8 s2 ts cfg ver exts.

Definition set_multiviewGeometryShader (v : VkBool32) (vf : VulkanFeatures)
  : VulkanFeatures :=
  let 'Build_VulkanFeatures f2 yc dp mv bda di s16 f16 u8 s2 ts cfg ver exts := vf in
  Build_VulkanFeatures f2 yc dp
    (with_body mv
       {| multiview := multiview (body mv);
          multiviewGeometryShader := v;
          multiviewTessellationShader := multiviewTessellationShader (body mv) |})
    bda di s16 f16 u8 s2 ts cfg ver exts.

Definition set_synchronization2 (v : VkBool32) (vf : VulkanFeatures) : VulkanFeatures :=
  let 'Build_VulkanFeatures f2 yc dp mv bda di s16 f16 u8 s2 ts cfg ver exts := vf in
  Build_VulkanFeatures f2 yc dp mv bda di s16 f16 u8
    (with_body s2 {| synchronization2 := v |}) ts cfg ver exts.

(** The default request for Vulkan 1.1 with every toggle off, held at address 1. *)
Definition requested : VulkanFeatures :=
  enableDefaultFeatures1_1 linux (fresh 1 VK_API_VERSION_1_1 config_none).

(** An available set, held at address 2, that offers what [requested] asks
    for, and one that offers nothing but the two fields the constructor sets. *)
Definition device_full : VulkanFeatures :=
  enableDefaultFeatures1_1 linux (fresh 2 VK_API_VERSION_1_1 config_none).

Definition device_bare : VulkanFeatures := fresh 2 VK_API_VERSION_1_1 config_none.

(** The same as [device_full], for Vulkan 1.2. *)
Definition device_full_1_2 : VulkanFeatures :=
  enableDefaultFeatures1_1 linux (fresh 2 VK_API_VERSION_1_2 config_none).

(** Every check the body can make, with both configuration guards open. *)
Definition every_check : list FeatureCheck :=
  checkSelectedFeatures_checks (VulkanFeatures_init VK_API_VERSION_1_1 config_all).

(** Two objects of one version whose configurations differ in
    [enableShaderInt16] only: a fresh one at address 1 and a default request at
    address 2. *)
Definition two_objects : gmap N VulkanFeatures :=
  <[1%N := fresh 1 VK_API_VERSION_1_1 config_none]>
    (<[2%N := enableDefaultFeatures1_1 linux (fresh 2 VK_API_VERSION_1_1 config_int16)]> ∅).

Definition two_versions : gmap N VulkanFeatures :=
  <[1%N := fresh 1 VK_API_VERSION_1_1 config_none]>
    (<[2%N := device_full_1_2]> ∅).

Ltac own_pointer := rewrite decide_True by reflexivity.

(** * The remaining functions

    [populateWithAvailablePhysicalDeviceFeatures], with the two driver entry
    points it calls, and the part of [PlatformDevice] and of the test shell
    whose behaviour is decided by the code of these files. *)

(** ** Structure types *)

Definition get_sType (m : Member) (vf : VulkanFeatures) : VkStructureType :=
  match m with
  | mFeatures2 => sType (VkPhysicalDeviceFeatures2_ vf)
  | mSamplerYcbcrConversion => sType (VkPhysicalDeviceSamplerYcbcrConversionFeatures_ vf)
  | mShaderDrawParameters => sType (VkPhysicalDeviceShaderDrawParametersFeatures_ vf)
  | mMultiview => sType (VkPhysicalDeviceMultiviewFeatures_ vf)
  | mBufferDeviceAddress => sType (VkPhysicalDeviceBufferDeviceAddressFeaturesKHR_ vf)
  | mDescriptorIndexing => sType (VkPhysicalDeviceDescriptorIndexingFeaturesEXT_ vf)
  | m16BitStorage => sType (VkPhysicalDevice16BitStorageFeatures_ vf)
  | mShaderFloat16Int8 => sType (VkPhysicalDeviceShaderFloat16Int8Features_ vf)
  | mIndexTypeUint8 => sType (VkPhysicalDeviceIndexTypeUint8Features_ vf)
  | mSynchronization2 => sType (VkPhysicalDeviceSynchronization2Features_ vf)
  | mTimelineSemaphore => sType (VkPhysicalDeviceTimelineSemaphoreFeatures_ vf)
  end.

(** The structure type that the Vulkan headers assign to the type of each member. *)
Definition member_sType (m : Member) : VkStructureType :=
  match m with
  | mFeatures2 => VK_STRUCTURE_TYPE_PHYSICAL_DEVICE_FEATURES_2
  | mSamplerYcbcrConversion => VK_STRUCTURE_TYPE_PHYSICAL_DEVICE_SAMPLER_YCBCR_CONVERSION_FEATURES
  | mShaderDrawParameters => VK_STRUCTURE_TYPE_PHYSICAL_DEVICE_SHADER_DRAW_PARAMETERS_FEATURES
  | mMultiview => VK_STRUCTURE_TYPE_PHYSICAL_DEVICE_MULTIVIEW_FEATURES
  | mBufferDeviceAddress => VK_STRUCTURE_TYPE_PHYSICAL_DEVICE_BUFFER_DEVICE_ADDRESS_FEATURES_KHR
  | mDescriptorIndexing => VK_STRUCTURE_TYPE_PHYSICAL_DEVICE_DESCRIPTOR_INDEXING_FEATURES_EXT
  | m16BitStorage => VK_STRUCTURE_TYPE_PHYSICAL_DEVICE_16BIT_STORAGE_FEATURES
  | mShaderFloat16Int8 => VK_STRUCTURE_TYPE_PHYSICAL_DEVICE_SHADER_FLOAT16_INT8_FEATURES_KHR
  | mIndexTypeUint8 => VK_STRUCTURE_TYPE_PHYSICAL_DEVICE_INDEX_TYPE_UINT8_FEATURES_EXT
  | mSynchronization2 => VK_STRUCTURE_TYPE_PHYSICAL_DEVICE_SYNCHRONIZATION_2_FEATURES_KHR
  | mTimelineSemaphore => VK_STRUCTURE_TYPE_PHYSICAL_DEVICE_TIMELINE_SEMAPHORE_FEATURES_KHR
  end.

(** Every member carries the structure type of its own type, which is how a
    driver recognises the structures on a chain. *)
Definition well_tagged (vf : VulkanFeatures) : Prop :=
  ∀ m, get_sType m vf = member_sType m.

(** The order in which the body of [assembleFeatureChain] names the members
    it links. *)
Definition link_order : list Member :=
  [ mFeatures2; mSamplerYcbcrConversion; mShaderDrawParameters; mMultiview;
    mShaderFloat16Int8; mBufferDeviceAddress; mDescriptorIndexing; m16BitStorage;
    mIndexTypeUint8; mSynchronization2; mTimelineSemaphore ].

(** Writes to [pNext] members, applied right to left. *)
Definition write_links (writes : list (Member * pointer)) (vf : VulkanFeatures)
  : VulkanFeatures :=
  foldr (λ w, set_pNext (fst w) (snd w)) vf writes.

(** ** Querying the physical device *)

(** What a physical device answers: the count that
    [vkEnumerateDeviceExtensionProperties] reports when called without an
    array, the properties it has to write when called with one, and the value
    it reports for each feature. *)
Record PhysicalDevice : Type := {
  extension_count : nat;
  extension_properties : list VkExtensionProperties;
  supported : FeatureField → VkBool32
}.

(** The part of [VulkanContext] the call reads: its configuration and whether
    the function table [vf_] holds a pointer for [vkGetPhysicalDeviceFeatures2]. *)
Record VulkanContext : Type := {
  context_config_ : VulkanContextConfig;
  vkGetPhysicalDeviceFeatures2_loaded : bool
}.

(** A value-initialised [VkExtensionProperties]: the empty name. *)
Definition VkExtensionProperties_zero : VkExtensionProperties :=
  {| extensionName := EmptyString; specVersion := 0 |}.

(** [std::vector::resize(n)]: the first [n] elements stay, new elements are
    value-initialised. *)
Definition vector_resize (n : nat) (v : list VkExtensionProperties)
  : list VkExtensionProperties :=
  take n v ++ replicate (n - List.length v) VkExtensionProperties_zero.

(** [vkEnumerateDeviceExtensionProperties] with an array to fill: the driver
    writes as many properties as it has and the array holds, from the front;
    the rest of the array is left as it is. *)
Definition enumerate_into (physicalDevice : PhysicalDevice)
    (array : list VkExtensionProperties) : list VkExtensionProperties :=
  let written := take (List.length array) (extension_properties physicalDevice) in
  written ++ drop (List.length written) array.

Definition set_extensions (exts : list VkExtensionProperties) (vf : VulkanFeatures)
  : VulkanFeatures :=
  let 'Build_VulkanFeatures f2 yc dp mv bda di s16 f16 u8 s2 ts cfg ver _ := vf in
  Build_VulkanFeatures f2 yc dp mv bda di s16 f16 u8 s2 ts cfg ver exts.

(** The driver writes every feature field of the structure [m]. *)
Definition write_features (d : FeatureField → VkBool32) (m : Member) (vf : VulkanFeatures)
  : VulkanFeatures :=
  let 'Build_VulkanFeatures f2 yc dp mv bda di s16 f16 u8 s2 ts cfg ver exts := vf in
  match m with
  | mFeatures2 =>
      Build_VulkanFeatures
        (with_body f2 {|
           robustBufferAccess := d F_robustBufferAccess;
           fullDrawIndexUint32 := d F_fullDrawIndexUint32;
           imageCubeArray := d F_imageCubeArray; independentBlend := d F_independentBlend;
           geometryShader := d F_geometryShader;
           tessellationShader := d F_tessellationShader;
           sampleRateShading := d F_sampleRateShading; dualSrcBlend := d F_dualSrcBlend;
           logicOp := d F_logicOp; multiDrawIndirect := d F_multiDrawIndirect;
           drawIndirectFirstInstance := d F_drawIndirectFirstInstance;
           depthClamp := d F_depthClamp; depthBiasClamp := d F_depthBiasClamp;
           fillModeNonSolid := d F_fillModeNonSolid; depthBounds := d F_depthBounds;
           wideLines := d F_wideLines; largePoints := d F_largePoints;
           alphaToOne := d F_alphaToOne; multiViewport := d F_multiViewport;
           samplerAnisotropy := d F_samplerAnisotropy;
           textureCompressionETC2 := d F_textureCompressionETC2;
           textureCompressionASTC_LDR := d F_textureCompressionASTC_LDR;
           textureCompressionBC := d F_textureCompressionBC;
           occlusionQueryPrecise := d F_occlusionQueryPrecise;
           pipelineStatisticsQuery := d F_pipelineStatisticsQuery;
           vertexPipelineStoresAndAtomics := d F_vertexPipelineStoresAndAtomics;
           fragmentStoresAndAtomics := d F_fragmentStoresAndAtomics;
           shaderTessellationAndGeometryPointSize := d F_shaderTessellationAndGeometryPointSize;
           shaderImageGatherExtended := d F_shaderImageGatherExtended;
           shaderStorageImageExtendedFormats := d F_shaderStorageImageExtendedFormats;
           shaderStorageImageMultisample := d F_shaderStorageImageMultisample;
           shaderStorageImageReadWithoutFormat := d F_shaderStorageImageReadWithoutFormat;
           shaderStorageImageWriteWithoutFormat := d F_shaderStorageImageWriteWithoutFormat;
           shaderUniformBufferArrayDynamicIndexing := d F_shaderUniformBufferArrayDynamicIndexing;
           shaderSampledImageArrayDynamicIndexing := d F_shaderSampledImageArrayDynamicIndexing;
           shaderStorageBufferArrayDynamicIndexing := d F_shaderStorageBufferArrayDynamicIndexing;
           shaderStorageImageArrayDynamicIndexing := d F_shaderStorageImageArrayDynamicIndexing;
           shaderClipDistance := d F_shaderClipDistance;
           shaderCullDistance := d F_shaderCullDistance; shaderFloat64 := d F_shaderFloat64;
           shaderInt64 := d F_shaderInt64; shaderInt16 := d F_shaderInt16;
           shaderResourceResidency := d F_shaderResourceResidency;
           shaderResourceMinLod := d F_shaderResourceMinLod;
           sparseBinding := d F_sparseBinding;
           sparseResidencyBuffer := d F_sparseResidencyBuffer;
           sparseResidencyImage2D := d F_sparseResidencyImage2D;
           sparseResidencyImage3D := d F_sparseResidencyImage3D;
           sparseResidency2Samples := d F_sparseResidency2Samples;
           sparseResidency4Samples := d F_sparseResidency4Samples;
           sparseResidency8Samples := d F_sparseResidency8Samples;
           sparseResidency16Samples := d F_sparseResidency16Samples;
           sparseResidencyAliased := d F_sparseResidencyAliased;
           variableMultisampleRate := d F_variableMultisampleRate;
           inheritedQueries := d F_inheritedQueries |})
        yc dp mv bda di s16 f16 u8 s2 ts cfg ver exts
  | mSamplerYcbcrConversion =>
      Build_VulkanFeatures f2
        (with_body yc {|
           samplerYcbcrConversion := d F_samplerYcbcrConversion |})
        dp mv bda di s16 f16 u8 s2 ts cfg ver exts
  | mShaderDrawParameters =>
      Build_VulkanFeatures f2 yc
        (with_body dp {|
           shaderDrawParameters := d F_shaderDrawParameters |})
        mv bda di s16 f16 u8 s2 ts cfg ver exts
  | mMultiview =>
      Build_VulkanFeatures f2 yc dp
        (with_body mv {|
           multiview := d F_multiview;
           multiviewGeometryShader := d F_multiviewGeometryShader;
           multiviewTessellationShader := d F_multiviewTessellationShader |})
        bda di s16 f16 u8 s2 ts cfg ver exts
  | mBufferDeviceAddress =>
      Build_VulkanFeatures f2 yc dp mv
        (with_body bda {|
           bufferDeviceAddress := d F_bufferDeviceAddress;
           bufferDeviceAddressCaptureReplay := d F_bufferDeviceAddressCaptureReplay;
           bufferDeviceAddressMultiDevice := d F_bufferDeviceAddressMultiDevice |})
        di s16 f16 u8 s2 ts cfg ver exts
  | mDescriptorIndexing =>
      Build_VulkanFeatures f2 yc dp mv bda
        (with_body di {|
           shaderInputAttachmentArrayDynamicIndexing := d F_shaderInputAttachmentArrayDynamicIndexing;
           shaderUniformTexelBufferArrayDynamicIndexing := d F_shaderUniformTexelBufferArrayDynamicIndexing;
           shaderStorageTexelBufferArrayDynamicIndexing := d F_shaderStorageTexelBufferArrayDynamicIndexing;
           shaderUniformBufferArrayNonUniformIndexing := d F_shaderUniformBufferArrayNonUniformIndexing;
           shaderSampledImageArrayNonUniformIndexing := d F_shaderSampledImageArrayNonUniformIndexing;
           shaderStorageBufferArrayNonUniformIndexing := d F_shaderStorageBufferArrayNonUniformIndexing;
           shaderStorageImageArrayNonUniformIndexing := d F_shaderStorageImageArrayNonUniformIndexing;
           shaderInputAttachmentArrayNonUniformIndexing := d F_shaderInputAttachmentArrayNonUniformIndexing;
           shaderUniformTexelBufferArrayNonUniformIndexing := d F_shaderUniformTexelBufferArrayNonUniformIndexing;
           shaderStorageTexelBufferArrayNonUniformIndexing := d F_shaderStorageTexelBufferArrayNonUniformIndexing;
           descriptorBindingUniformBufferUpdateAfterBind := d F_descriptorBindingUniformBufferUpdateAfterBind;
           descriptorBindingSampledImageUpdateAfterBind := d F_descriptorBindingSampledImageUpdateAfterBind;
           descriptorBindingStorageImageUpdateAfterBind := d F_descriptorBindingStorageImageUpdateAfterBind;
           descriptorBindingStorageBufferUpdateAfterBind := d F_descriptorBindingStorageBufferUpdateAfterBind;
           descriptorBindingUniformTexelBufferUpdateAfterBind := d F_descriptorBindingUniformTexelBufferUpdateAfterBind;
           descriptorBindingStorageTexelBufferUpdateAfterBind := d F_descriptorBindingStorageTexelBufferUpdateAfterBind;
           descriptorBindingUpdateUnusedWhilePending := d F_descriptorBindingUpdateUnusedWhilePending;
           descriptorBindingPartiallyBound := d F_descriptorBindingPartiallyBound;
           descriptorBindingVariableDescriptorCount := d F_descriptorBindingVariableDescriptorCount;
           runtimeDescriptorArray := d F_runtimeDescriptorArray |})
        s16 f16 u8 s2 ts cfg ver exts
  | m16BitStorage =>
      Build_VulkanFeatures f2 yc dp mv bda di
        (with_body s16 {|
           storageBuffer16BitAccess := d F_storageBuffer16BitAccess;
           uniformAndStorageBuffer16BitAccess := d F_uniformAndStorageBuffer16BitAccess;
           storagePushConstant16 := d F_storagePushConstant16;
           storageInputOutput16 := d F_storageInputOutput16 |})
        f16 u8 s2 ts cfg ver exts
  | mShaderFloat16Int8 =>
      Build_VulkanFeatures f2 yc dp mv bda di s16
        (with_body f16 {|
           shaderFloat16 := d F_shaderFloat16; shaderInt8 := d F_shaderInt8 |})
        u8 s2 ts cfg ver exts
  | mIndexTypeUint8 =>
      Build_VulkanFeatures f2 yc dp mv bda di s16 f16
        (with_body u8 {|
           indexTypeUint8 := d F_indexTypeUint8 |})
        s2 ts cfg ver exts
  | mSynchronization2 =>
      Build_VulkanFeatures f2 yc dp mv bda di s16 f16 u8
        (with_body s2 {|
           synchronization2 := d F_synchronization2 |})
        ts cfg ver exts
  | mTimelineSemaphore =>
      Build_VulkanFeatures f2 yc dp mv bda di s16 f16 u8 s2
        (with_body ts {|
           timelineSemaphore := d F_timelineSemaphore |})
         cfg ver exts
  end.

(** [vkGetPhysicalDeviceFeatures2(physicalDevice, &VkPhysicalDeviceFeatures2_)]:
    the driver follows [pNext] from the structure it is given and writes the
    feature fields of every structure it meets. [None] stands for a chain that
    leaves the object or runs in a cycle. *)
Definition vkGetPhysicalDeviceFeatures2 (this : N) (physicalDevice : PhysicalDevice)
    (vf : VulkanFeatures) : option VulkanFeatures :=
  chain ← featureChain this vf;
  Some (foldr (write_features (supported physicalDevice)) vf chain).

(** [VulkanFeatures::populateWithAvailablePhysicalDeviceFeatures]. The value is
    [None] when the call goes through a null function pointer. *)
Definition populateWithAvailablePhysicalDeviceFeatures (this : N) (context : VulkanContext)
    (physicalDevice : PhysicalDevice) (vf : VulkanFeatures)
  : Logged (option VulkanFeatures) :=
  IGL_DEBUG_ASSERT (vkGetPhysicalDeviceFeatures2_loaded context)
    "Pointer to function vkGetPhysicalDeviceFeatures2() is nullptr";;
  let numExtensions := extension_count physicalDevice in
  let vf := set_extensions (vector_resize numExtensions (extensions_ vf)) vf in
  let vf := set_extensions (enumerate_into physicalDevice (extensions_ vf)) vf in
  mret (vf ← assembleFeatureChain this (context_config_ context) vf;
        if vkGetPhysicalDeviceFeatures2_loaded context
        then vkGetPhysicalDeviceFeatures2 this physicalDevice vf
        else None).

(** The structure members [operator=] copies, taken from [other], beside the
    version and the configuration of [self], which it leaves in place. *)
Definition copy_members (self other : VulkanFeatures) : VulkanFeatures := {|
  VkPhysicalDeviceFeatures2_ := VkPhysicalDeviceFeatures2_ other;
  VkPhysicalDeviceSamplerYcbcrConversionFeatures_ :=
    VkPhysicalDeviceSamplerYcbcrConversionFeatures_ other;
  VkPhysicalDeviceShaderDrawParametersFeatures_ :=
    VkPhysicalDeviceShaderDrawParametersFeatures_ other;
  VkPhysicalDeviceMultiviewFeatures_ := VkPhysicalDeviceMultiviewFeatures_ other;
  VkPhysicalDeviceBufferDeviceAddressFeaturesKHR_ :=
    VkPhysicalDeviceBufferDeviceAddressFeaturesKHR_ other;
  VkPhysicalDeviceDescriptorIndexingFeaturesEXT_ :=
    VkPhysicalDeviceDescriptorIndexingFeaturesEXT_ other;
  VkPhysicalDevice16BitStorageFeatures_ := VkPhysicalDevice16BitStorageFeatures_ other;
  VkPhysicalDeviceShaderFloat16Int8Features_ :=
    VkPhysicalDeviceShaderFloat16Int8Features_ other;
  VkPhysicalDeviceIndexTypeUint8Features_ := VkPhysicalDeviceIndexTypeUint8Features_ other;
  VkPhysicalDeviceSynchronization2Features_ :=
    VkPhysicalDeviceSynchronization2Features_ other;
  VkPhysicalDeviceTimelineSemaphoreFeatures_ :=
    VkPhysicalDeviceTimelineSemaphoreFeatures_ other;
  config_ := config_ self;
  version_ := version_ self;
  extensions_ := extensions_ other
|}.

(** Two distinct objects that pass the guard of [operator=]. *)
Definition two_alike : gmap N VulkanFeatures :=
  <[1%N := fresh 1 VK_API_VERSION_1_1 config_none]>
    (<[2%N := with_extensions ["VK_KHR_timeline_semaphore"] device_full]> ∅).


(** A context that has loaded [vkGetPhysicalDeviceFeatures2], and a physical
    device that offers every feature and one extension. *)
Definition context_loaded (config : VulkanContextConfig) : VulkanContext :=
  {| context_config_ := config; vkGetPhysicalDeviceFeatures2_loaded := true |}.

Definition device_timeline : PhysicalDevice :=
  {| extension_count := 1;
     extension_properties :=
       [{| extensionName := "VK_KHR_timeline_semaphore"; specVersion := 2 |}];
     supported := λ _, VK_TRUE |}.

(** * [PlatformDevice]: the textures of the swapchain *)

(** [PlatformDevice] keeps one texture per swapchain image and one depth
    texture, and hands them out again as long as they fit. The classes it works
    with are defined outside this file; the model takes what the two functions
    use of them as an interface and is valid for every implementation of it. *)
Module PlatformDevice.

Definition VkFormat : Type := Z.
Definition VK_FORMAT_UNDEFINED : VkFormat := 0.

Inductive TextureUsageBits : Type :=
  | Sampled
  | Attachment.

(** A [TextureDesc] as [TextureDesc::new2D] is given it; [usage] lists the bits
    that the call joins with [|]. *)
Record TextureDesc (Format : Type) : Type := new2D {
  format : Format;
  width : N;
  height : N;
  usage : list TextureUsageBits;
  debugName : string
}.
Arguments new2D {Format} _ _ _ _ _.
Arguments format {Format} _.
Arguments width {Format} _.
Arguments height {Format} _.
Arguments usage {Format} _.
Arguments debugName {Format} _.

Record Dimensions : Type := {
  Dimensions_width : N;
  Dimensions_height : N
}.

(** What the functions use of [igl::TextureFormat], [VulkanTexture],
    [vkFormatToTextureFormat] and [vulkan::Texture]. [make_shared_Texture] is
    [std::make_shared<Texture>(device_, vkTex, desc)]. *)
Class Collaborators : Type := {
  TextureFormat : Type;
  TextureFormat_eq_dec :: EqDecision TextureFormat;
  TextureFormat_Invalid : TextureFormat;
  VulkanTexture : Type;
  imageFormat_ : VulkanTexture → VkFormat;
  vkFormatToTextureFormat : VkFormat → TextureFormat;
  Texture : Type;
  make_shared_Texture : VulkanTexture → TextureDesc TextureFormat → Texture;
  getDimensions : Texture → Dimensions;
  getFormat : Texture → TextureFormat
}.

(** What one call reads from the swapchain. *)
Record VulkanSwapchain `{Collaborators} : Type := {
  getCurrentDepthTexture : option VulkanTexture;
  getCurrentVulkanTexture : option VulkanTexture;
  getWidth : N;
  getHeight : N;
  getCurrentImageIndex : nat
}.

(** [device_.getVulkanContext()]: [swapchain_] is a pointer, [None] when null. *)
Record VulkanContext `{Collaborators} : Type := {
  hasSwapchain : bool;
  swapchain_ : option VulkanSwapchain
}.

(** The members of a [PlatformDevice]; a null [shared_ptr] is [None]. *)
Record PlatformDevice `{Collaborators} : Type := {
  nativeDrawableTextures_ : list (option Texture);
  nativeDepthTexture_ : option Texture
}.

(** What a call reports besides its results: a failed [IGL_DEBUG_VERIFY], given
    by its condition, a failed [IGL_DEBUG_ASSERT], given by its message, and
    each texture made. *)
Inductive Notice `{Collaborators} : Type :=
  | VerifyFailed (condition : string)
  | AssertFailed (msg : string)
  | TextureMade (desc : TextureDesc TextureFormat).

(** A finished call: what it reported, the members afterwards, what
    [Result::setResult] stored in [outResult], and the pointer returned. *)
Record Outcome `{Collaborators} : Type := {
  notices : list Notice;
  after : PlatformDevice;
  outResult : Result;
  returned : option Texture
}.

Section Functions.
Context `{Collaborators}.

(** [IGL_DEBUG_ASSERT(vkTex->image_.imageFormat_ != VK_FORMAT_UNDEFINED, ...)]. *)
Definition assert_image_format (vkTex : VulkanTexture) : list Notice :=
  if decide (imageFormat_ vkTex = VK_FORMAT_UNDEFINED)
  then [AssertFailed "Invalid image format"]
  else [].

(** The condition under which a texture is made anew: the pointer is null, or
    the texture differs in width, height or format. *)
Definition mismatches (held : option Texture) (width height : N)
    (iglFormat : TextureFormat) : bool :=
  match held with
  | None => true
  | Some texture =>
      negb (bool_decide (width = Dimensions_width (getDimensions texture)))
      || negb (bool_decide (height = Dimensions_height (getDimensions texture)))
      || negb (bool_decide (iglFormat = getFormat texture))
  end.

(** [PlatformDevice::createTextureFromNativeDepth]. The result is [None] where
    the call dereferences a null [swapchain_]. *)
Definition createTextureFromNativeDepth (ctx : VulkanContext) (width height : N)
    (self : PlatformDevice) : option Outcome :=
  if negb (hasSwapchain ctx) then
    Some {| notices := [];
            after := {| nativeDrawableTextures_ := nativeDrawableTextures_ self;
                        nativeDepthTexture_ := None |};
            outResult := {| code := Ok; message := "" |};
            returned := None |}
  else
    swapChain ← swapchain_ ctx;
    match getCurrentDepthTexture swapChain with
    | None =>
        Some {| notices := [VerifyFailed "vkTex != nullptr"];
                after := self;
                outResult := {| code := InvalidOperation;
                                message := "Swapchain has no valid texture" |};
                returned := None |}
    | Some vkTex =>
        let asserted := assert_image_format vkTex in
        let iglFormat := vkFormatToTextureFormat (imageFormat_ vkTex) in
        if decide (iglFormat = TextureFormat_Invalid) then
          Some {| notices :=
                    asserted ++ [VerifyFailed "iglFormat != igl::TextureFormat::Invalid"];
                  after := self;
                  outResult := {| code := RuntimeError;
                                  message := "Invalid surface depth format" |};
                  returned := None |}
        else if mismatches (nativeDepthTexture_ self) width height iglFormat then
          let desc :=
            new2D iglFormat width height [Attachment; Sampled] "SwapChain Texture" in
          let texture := make_shared_Texture vkTex desc in
          Some {| notices := asserted ++ [TextureMade desc];
                  after := {| nativeDrawableTextures_ := nativeDrawableTextures_ self;
                              nativeDepthTexture_ := Some texture |};
                  outResult := {| code := Ok; message := "" |};
                  returned := Some texture |}
        else
          Some {| notices := asserted;
                  after := self;
                  outResult := {| code := Ok; message := "" |};
                  returned := nativeDepthTexture_ self |}
    end.

(** [nativeDrawableTextures_[i]]; the call has made the vector long enough. *)
Definition at_index (textures : list (option Texture)) (i : nat) : option Texture :=
  default None (textures !! i).

(** [PlatformDevice::createTextureFromNativeDrawable]. *)
Definition createTextureFromNativeDrawable (ctx : VulkanContext) (self : PlatformDevice)
  : option Outcome :=
  if negb (hasSwapchain ctx) then
    Some {| notices := [];
            after := {| nativeDrawableTextures_ := [];
                        nativeDepthTexture_ := nativeDepthTexture_ self |};
            outResult := {| code := Ok; message := "" |};
            returned := None |}
  else
    swapChain ← swapchain_ ctx;
    match getCurrentVulkanTexture swapChain with
    | None =>
        Some {| notices := [VerifyFailed "vkTex != nullptr"];
                after := self;
                outResult := {| code := InvalidOperation;
                                message := "Swapchain has no valid texture" |};
                returned := None |}
    | Some vkTex =>
        let asserted := assert_image_format vkTex in
        let iglFormat := vkFormatToTextureFormat (imageFormat_ vkTex) in
        if decide (iglFormat = TextureFormat_Invalid) then
          Some {| notices :=
                    asserted ++ [VerifyFailed "iglFormat != igl::TextureFormat::Invalid"];
                  after := self;
                  outResult := {| code := RuntimeError;
                                  message := "Invalid surface color format" |};
                  returned := None |}
        else
          let width := getWidth swapChain in
          let height := getHeight swapChain in
          let currentImageIndex := getCurrentImageIndex swapChain in
          let textures :=
            if decide (List.length (nativeDrawableTextures_ self) ≤ currentImageIndex)%nat
            then resize (currentImageIndex + 1)%nat None (nativeDrawableTextures_ self)
            else nativeDrawableTextures_ self in
          let result := at_index textures currentImageIndex in
          if mismatches result width height iglFormat then
            let desc := new2D iglFormat width height [Attachment] "SwapChain Texture" in
            let textures :=
              <[currentImageIndex := Some (make_shared_Texture vkTex desc)]> textures in
            Some {| notices := asserted ++ [TextureMade desc];
                    after := {| nativeDrawableTextures_ := textures;
                                nativeDepthTexture_ := nativeDepthTexture_ self |};
                    outResult := {| code := Ok; message := "" |};
                    returned := at_index textures currentImageIndex |}
          else
            Some {| notices := asserted;
                    after := {| nativeDrawableTextures_ := textures;
                                nativeDepthTexture_ := nativeDepthTexture_ self |};
                    outResult := {| code := Ok; message := "" |};
                    returned := at_index textures currentImageIndex |}
    end.

(** The vector after the resizing step of [createTextureFromNativeDrawable]. *)
Definition resized (textures : list (option Texture)) (i : nat) : list (option Texture) :=
  if decide (List.length textures ≤ i)%nat then resize (i + 1)%nat None textures
  else textures.

(** A texture made from a description reports the size and the format of that
    description. *)
Definition Texture_reports_desc : Prop :=
  ∀ vkTex desc,
    getDimensions (make_shared_Texture vkTex desc)
    = {| Dimensions_width := width desc; Dimensions_height := height desc |}
    ∧ getFormat (make_shared_Texture vkTex desc) = format desc.

End Functions.

(** An implementation of the interface for examples: formats are numbers with
    [0] invalid, a Vulkan texture is its image format, and a texture is the
    pair it was made from. *)
Definition sample_collaborators : Collaborators := {|
  TextureFormat := nat;
  TextureFormat_Invalid := 0%nat;
  VulkanTexture := VkFormat;
  imageFormat_ := λ vkTex, vkTex;
  vkFormatToTextureFormat := Z.to_nat;
  Texture := VkFormat * TextureDesc nat;
  make_shared_Texture := pair;
  getDimensions := λ texture,
    {| Dimensions_width := width (snd texture);
       Dimensions_height := height (snd texture) |};
  getFormat := λ texture, format (snd texture)
|}.

(** A swapchain of 640 by 480 showing its third image. *)
Definition sample_swapchain : @VulkanSwapchain sample_collaborators :=
  @Build_VulkanSwapchain sample_collaborators (Some 126) (Some 44) 640 480 2.

Definition sample_context : @VulkanContext sample_collaborators :=
  @Build_VulkanContext sample_collaborators true (Some sample_swapchain).

Definition sample_device : @PlatformDevice sample_collaborators :=
  @Build_PlatformDevice sample_collaborators [] None.

(** A swapchain that has no image to show. *)
Definition sample_context_no_image : @VulkanContext sample_collaborators :=
  @Build_VulkanContext sample_collaborators true
    (Some (@Build_VulkanSwapchain sample_collaborators None None 640 480 0)).

End PlatformDevice.

(** * [TestShell]: command-line arguments are initialized once *)

Module TestShell.

(** [initializeCommandLineArgs(0, nullptr)] was called. *)
Inductive Call : Type :=
  | initializeCommandLineArgs.

(** The initial value of the static [sInitialized]: [true] where
    [IGL_PLATFORM_ANDROID] is set. *)
Definition sInitialized_initial (IGL_PLATFORM_ANDROID : bool) : bool :=
  IGL_PLATFORM_ANDROID.

(** [ensureCommandLineArgsInitialized]: the calls made and the value of
    [sInitialized] afterwards. *)
Definition ensureCommandLineArgsInitialized (sInitialized : bool) : list Call * bool :=
  if negb sInitialized then ([initializeCommandLineArgs], true)
  else ([], sInitialized).

(** [n] calls in sequence, the static variable carried along. *)
Fixpoint ensure_times (n : nat) (sInitialized : bool) : list Call * bool :=
  match n with
  | O => ([], sInitialized)
  | S n =>
      let '(calls, sInitialized) := ensureCommandLineArgsInitialized sInitialized in
      let '(rest, sInitialized) := ensure_times n sInitialized in
      (calls ++ rest, sInitialized)
  end.

End TestShell.

(** * Properties *)

(** ** The extension catalogue *)

Lemma strcmp_zero_iff (a b : string) : strcmp a b = 0 ↔ a = b.
Proof.
  unfold strcmp. split.
  - destruct (String.compare a b) eqn:E; try discriminate.
    intros _. now apply String.compare_eq_iff.
  - intros ->. pose proof (String.compare_antisym b b).
    destruct (String.compare b b); trivial; discriminate.
Qed.

Lemma hasExtension_loop_true (ext : string) (l : list VkExtensionProperties) :
  hasExtension_loop ext l = true ↔ ext ∈ extensionName <$> l.
Proof.
  induction l as [|props rest IH]; simpl.
  - split; [discriminate | intros H; inversion H].
  - rewrite elem_of_cons, <- IH, <- strcmp_zero_iff.
    destruct (strcmp ext (extensionName props) =? 0) eqn:E.
    + apply Z.eqb_eq in E. tauto.
    + apply Z.eqb_neq in E. tauto.
Qed.

Lemma hasExtension_true (vf : VulkanFeatures) (ext : string) :
  hasExtension vf ext = true ↔ ext ∈ extensionName <$> extensions_ vf.
Proof. apply hasExtension_loop_true. Qed.

(** ** Chain assembly in closed form *)

Lemma assemble_closed_form (this : N) (config : VulkanContextConfig) (vf : VulkanFeatures) :
  assembleFeatureChain this config vf
  = Some (relink this (mFeatures2 :: linked_members vf config) (reset_all vf)).
Proof.
  unfold assembleFeatureChain, assembleFeatureChain_body, linked_members, hasExtension.
  destruct vf as [f2 yc dp mv bda di s16 f16 u8 s2 ts cfg ver exts]; simpl.
  destruct (VK_API_VERSION_1_2 <=? ver), (enableBufferDeviceAddress config),
    (enableDescriptorIndexing config),
    (hasExtension_loop VK_EXT_INDEX_TYPE_UINT8_EXTENSION_NAME exts),
    (hasExtension_loop VK_KHR_SYNCHRONIZATION_2_EXTENSION_NAME exts),
    (hasExtension_loop VK_KHR_TIMELINE_SEMAPHORE_EXTENSION_NAME exts);
    repeat (cbn; own_pointer); reflexivity.
Qed.

Section Frame.
Variables (m : Member) (p : pointer) (vf : VulkanFeatures).

Lemma version_set_pNext : version_ (set_pNext m p vf) = version_ vf.
Proof. destruct vf, m; reflexivity. Qed.

Lemma config_set_pNext : config_ (set_pNext m p vf) = config_ vf.
Proof. destruct vf, m; reflexivity. Qed.

Lemma extensions_set_pNext : extensions_ (set_pNext m p vf) = extensions_ vf.
Proof. destruct vf, m; reflexivity. Qed.

Lemma field_value_set_pNext (f : FeatureField) :
  field_value f (set_pNext m p vf) = field_value f vf.
Proof. destruct vf, m, f; reflexivity. Qed.

Lemma get_set_pNext (m' : Member) :
  get_pNext m' (set_pNext m p vf) = if decide (m' = m) then p else get_pNext m' vf.
Proof. destruct vf, m, m'; reflexivity. Qed.

Lemma reset_all_set_pNext : reset_all (set_pNext m p vf) = reset_all vf.
Proof. destruct vf, m; reflexivity. Qed.
End Frame.

Lemma get_reset_all (m : Member) (vf : VulkanFeatures) : get_pNext m (reset_all vf) = None.
Proof. destruct vf, m; reflexivity. Qed.

Lemma reset_all_idem (vf : VulkanFeatures) : reset_all (reset_all vf) = reset_all vf.
Proof. destruct vf; reflexivity. Qed.

Lemma successor_elem_of (l : list Member) (m b : Member) :
  successor l m = Some b → m ∈ l ∧ b ∈ l.
Proof.
  induction l as [|a rest IH]; simpl; [discriminate|].
  destruct (decide (a = m)) as [->|_].
  - destruct rest as [|c rest]; simpl; [discriminate|].
    intros [= ->]. split; [left | right; left].
  - intros H. destruct (IH H). split; now right.
Qed.

Lemma successor_not_elem_of (l : list Member) (m : Member) :
  m ∉ l → successor l m = None.
Proof.
  induction l as [|a rest IH]; simpl; trivial.
  intros [Ha Hrest]%not_elem_of_cons.
  rewrite decide_False by congruence. now apply IH.
Qed.

Lemma successor_app (pre : list Member) (a : Member) (rest : list Member) :
  a ∉ pre → successor (pre ++ a :: rest) a = head rest.
Proof.
  induction pre as [|x pre IH]; simpl; intros Ha.
  - now rewrite decide_True.
  - apply not_elem_of_cons in Ha as [Hx Ha].
    rewrite decide_False by congruence. now apply IH.
Qed.

(** Scalars and feature fields are out of reach of [relink] and [reset_all]. *)
Section RelinkFrame.
Variables (this : N).

Lemma relink_frame {A : Type} (g : VulkanFeatures → A) :
  (∀ m p vf, g (set_pNext m p vf) = g vf) →
  ∀ l vf, g (relink this l vf) = g vf.
Proof.
  intros Hg l. induction l as [|a [|b rest] IH]; intros vf; trivial.
  change (g (relink this (b :: rest) (set_pNext a (Some (this, b)) vf)) = g vf).
  rewrite IH. apply Hg.
Qed.

Lemma reset_all_frame {A : Type} (g : VulkanFeatures → A) :
  (∀ m p vf, g (set_pNext m p vf) = g vf) → ∀ vf, g (reset_all vf) = g vf.
Proof. intros Hg vf. unfold reset_all. simpl. now rewrite !Hg. Qed.

Lemma reset_all_relink (l : list Member) (vf : VulkanFeatures) :
  reset_all (relink this l vf) = reset_all vf.
Proof. apply (relink_frame reset_all). intros; apply reset_all_set_pNext. Qed.

Lemma get_relink (l : list Member) :
  NoDup l → ∀ vf m,
  get_pNext m (relink this l vf)
  = match successor l m with
    | Some b => Some (this, b)
    | None => get_pNext m vf
    end.
Proof.
  induction l as [|a [|b rest] IH]; intros Hnd vf m.
  - reflexivity.
  - simpl. now destruct (decide (a = m)).
  - change (relink this (a :: b :: rest) vf)
      with (relink this (b :: rest) (set_pNext a (Some (this, b)) vf)).
    change (successor (a :: b :: rest) m)
      with (if decide (a = m) then Some b else successor (b :: rest) m).
    apply NoDup_cons in Hnd as [Ha Hnd].
    rewrite (IH Hnd), get_set_pNext.
    destruct (decide (a = m)) as [->|Hne].
    + rewrite (successor_not_elem_of _ _ Ha). now rewrite decide_True.
    + destruct (successor (b :: rest) m); trivial.
      rewrite decide_False; congruence.
Qed.

(** A traversal reads back the list that [successor] describes. *)
Lemma chain_from_successor (vf : VulkanFeatures) (l : list Member) :
  (∀ m, get_pNext m vf = (λ b, (this, b)) <$> successor l m) →
  NoDup l →
  ∀ (rest pre : list Member) (a : Member) (fuel : nat),
    l = pre ++ a :: rest → (List.length rest < fuel)%nat →
    chain_from fuel this vf a = Some (a :: rest).
Proof.
  intros Hget Hnd rest.
  induction rest as [|b rest IH]; intros pre a fuel Hl Hfuel;
    (destruct fuel as [|fuel]; [simpl in Hfuel; lia|]);
    assert (a ∉ pre) as Ha
      by (intros Hin; rewrite Hl in Hnd; apply NoDup_app in Hnd as (_ & Hdisj & _);
          apply (Hdisj a Hin); left);
    simpl; rewrite Hget, Hl, (successor_app _ _ _ Ha); simpl.
  - reflexivity.
  - own_pointer. rewrite (IH (pre ++ [a]) b fuel).
    + reflexivity.
    + now rewrite <- app_assoc.
    + simpl in Hfuel. lia.
Qed.
End RelinkFrame.

Lemma linked_members_NoDup (vf : VulkanFeatures) (config : VulkanContextConfig) :
  NoDup (mFeatures2 :: linked_members vf config).
Proof.
  unfold linked_members.
  destruct (VK_API_VERSION_1_2 <=? version_ vf), (enableBufferDeviceAddress config),
    (enableDescriptorIndexing config),
    (hasExtension vf VK_EXT_INDEX_TYPE_UINT8_EXTENSION_NAME),
    (hasExtension vf VK_KHR_SYNCHRONIZATION_2_EXTENSION_NAME),
    (hasExtension vf VK_KHR_TIMELINE_SEMAPHORE_EXTENSION_NAME);
    apply (bool_decide_unpack _); vm_compute; reflexivity.
Qed.

Lemma linked_members_length (vf : VulkanFeatures) (config : VulkanContextConfig) :
  (List.length (linked_members vf config) < List.length all_members)%nat.
Proof.
  unfold linked_members, take_if.
  repeat match goal with |- context [if ?c then _ else _] => destruct c end;
    simpl; lia.
Qed.

Lemma elem_of_take_if (c : bool) (m m' : Member) : m ∈ take_if c m' ↔ c = true ∧ m = m'.
Proof.
  destruct c; simpl.
  - rewrite list_elem_of_singleton. tauto.
  - split; [intros H; inversion H | intros [? _]; discriminate].
Qed.

Section Assembled.
Variables (this : N) (config : VulkanContextConfig) (vf : VulkanFeatures).

Lemma assembled_version : version_ (assembled this config vf) = version_ vf.
Proof.
  unfold assembled. rewrite (relink_frame this version_), (reset_all_frame version_);
    auto using version_set_pNext.
Qed.

Lemma assembled_config : config_ (assembled this config vf) = config_ vf.
Proof.
  unfold assembled. rewrite (relink_frame this config_), (reset_all_frame config_);
    auto using config_set_pNext.
Qed.

Lemma assembled_extensions : extensions_ (assembled this config vf) = extensions_ vf.
Proof.
  unfold assembled.
  rewrite (relink_frame this extensions_), (reset_all_frame extensions_);
    auto using extensions_set_pNext.
Qed.

Lemma assembled_field_value (f : FeatureField) :
  field_value f (assembled this config vf) = field_value f vf.
Proof.
  unfold assembled.
  rewrite (relink_frame this (field_value f)), (reset_all_frame (field_value f));
    auto using field_value_set_pNext.
Qed.

Lemma assembled_linked_members :
  linked_members (assembled this config vf) config = linked_members vf config.
Proof.
  unfold linked_members, hasExtension.
  now rewrite assembled_version, assembled_extensions.
Qed.

Lemma assembled_pNext (m : Member) :
  get_pNext m (assembled this config vf)
  = (λ b, (this, b)) <$> successor (mFeatures2 :: linked_members vf config) m.
Proof.
  unfold assembled. rewrite get_relink by apply linked_members_NoDup.
  rewrite get_reset_all. now destruct (successor _ m).
Qed.

Lemma assembled_chain :
  featureChain this (assembled this config vf)
  = Some (mFeatures2 :: linked_members vf config).
Proof.
  unfold featureChain.
  apply (chain_from_successor this _ (mFeatures2 :: linked_members vf config))
    with (pre := []).
  - apply assembled_pNext.
  - apply linked_members_NoDup.
  - reflexivity.
  - apply linked_members_length.
Qed.

Lemma assembled_idem : assembled this config (assembled this config vf) = assembled this config vf.
Proof.
  unfold assembled at 1. rewrite assembled_linked_members.
  unfold assembled. now rewrite reset_all_relink, reset_all_idem.
Qed.
End Assembled.

Lemma fresh_assembled (this : N) (version : Z) (config : VulkanContextConfig) :
  fresh this version config = assembled this config (VulkanFeatures_init version config).
Proof. unfold fresh, VulkanFeatures_new. now rewrite assemble_closed_form. Qed.

Lemma VulkanFeatures_new_fresh (this : N) (version : Z) (config : VulkanContextConfig) :
  VulkanFeatures_new this version config = Some (fresh this version config).
Proof.
  rewrite fresh_assembled. unfold VulkanFeatures_new. apply assemble_closed_form.
Qed.

Lemma linked_iff_gated (vf : VulkanFeatures) (config : VulkanContextConfig) (m : Member) :
  m ∈ mFeatures2 :: linked_members vf config ↔ gating_condition vf config m.
Proof.
  unfold linked_members.
  rewrite elem_of_cons, !elem_of_app, !elem_of_take_if, !elem_of_cons, !elem_of_nil,
    !hasExtension_true, Z.leb_le.
  destruct m; simpl; intuition (discriminate || trivial).
Qed.

(** ** Order of the statements of the body *)

Lemma body_resets_every_member (vf : VulkanFeatures) (config : VulkanContextConfig)
    (m : Member) :
  ResetNext m ∈ assembleFeatureChain_body vf config.
Proof.
  unfold assembleFeatureChain_body.
  rewrite !elem_of_app, !elem_of_cons. destruct m; tauto.
Qed.

Lemma body_links_follow_own_reset (vf : VulkanFeatures) (config : VulkanContextConfig) :
  links_follow_own_reset [] (assembleFeatureChain_body vf config) = true.
Proof.
  unfold assembleFeatureChain_body, when.
  destruct (VK_API_VERSION_1_2 <=? version_ vf), (enableBufferDeviceAddress config),
    (enableDescriptorIndexing config),
    (hasExtension vf VK_EXT_INDEX_TYPE_UINT8_EXTENSION_NAME),
    (hasExtension vf VK_KHR_SYNCHRONIZATION_2_EXTENSION_NAME),
    (hasExtension vf VK_KHR_TIMELINE_SEMAPHORE_EXTENSION_NAME);
    vm_compute; reflexivity.
Qed.

(** ** Assembled chains of sample objects *)

Example chain_of_fresh_1_1 :
  (VulkanFeatures_new 7 VK_API_VERSION_1_1 config_none ≫= featureChain 7)
  = Some [mFeatures2; mSamplerYcbcrConversion; mShaderDrawParameters; mMultiview;
          m16BitStorage].
Proof. reflexivity. Qed.

Example chain_of_fresh_1_3_all :
  (VulkanFeatures_new 7 VK_API_VERSION_1_3 config_all ≫= featureChain 7)
  = Some [mFeatures2; mSamplerYcbcrConversion; mShaderDrawParameters; mMultiview;
          mShaderFloat16Int8; mBufferDeviceAddress; mDescriptorIndexing; m16BitStorage].
Proof. reflexivity. Qed.

Example chain_with_extensions :
  (assembleFeatureChain 7 config_none
     (with_extensions ["VK_KHR_timeline_semaphore"; "VK_EXT_index_type_uint8"]
        (fresh 7 VK_API_VERSION_1_1 config_none))
   ≫= featureChain 7)
  = Some [mFeatures2; mSamplerYcbcrConversion; mShaderDrawParameters; mMultiview;
          m16BitStorage; mIndexTypeUint8; mTimelineSemaphore].
Proof. reflexivity. Qed.

(** The match is exact in case: a name in other case does not gate a member in. *)
Example chain_extension_name_case :
  (assembleFeatureChain 7 config_none
     (with_extensions ["vk_khr_timeline_semaphore"; "VK_EXT_INDEX_TYPE_UINT8"]
        (fresh 7 VK_API_VERSION_1_1 config_none))
   ≫= featureChain 7)
  = Some [mFeatures2; mSamplerYcbcrConversion; mShaderDrawParameters; mMultiview;
          m16BitStorage].
Proof. reflexivity. Qed.

(** Links that point into another object, as a member-wise copy leaves them,
    and a cycle are both cleared by a reassembly. *)
Example chain_from_stale_links :
  (assembleFeatureChain 7 config_none
     (set_pNext mFeatures2 (Some (9%N, mMultiview))
        (set_pNext m16BitStorage (Some (7%N, m16BitStorage))
           (fresh 7 VK_API_VERSION_1_1 config_none)))
   ≫= featureChain 7)
  = Some [mFeatures2; mSamplerYcbcrConversion; mShaderDrawParameters; mMultiview;
          m16BitStorage].
Proof. reflexivity. Qed.

(** ** Claims on chain assembly *)

(** C3. After [assembleFeatureChain] has run, a member is on the chain rooted at
    [VkPhysicalDeviceFeatures2_] if and only if its gating condition holds:
    sampler-ycbcr, shader-draw-parameters, multiview and 16-bit storage always,
    ShaderFloat16Int8 iff the version is at least 1.2, buffer-device-address
    and descriptor-indexing iff their toggle is on in the configuration passed
    in, index-type-uint8, synchronization2 and timeline-semaphore iff the name
    of their extension is in the catalogue (compared by [strcmp]); with an
    empty catalogue none of the last three is linked. *)
Theorem assembleFeatureChain_links_iff_gated
    (this : N) (config : VulkanContextConfig) (vf : VulkanFeatures) :
  ∃ vf' chain,
    assembleFeatureChain this config vf = Some vf'
    ∧ featureChain this vf' = Some chain
    ∧ (∀ m, m ∈ chain ↔ gating_condition vf config m)
    ∧ (extensions_ vf = [] →
         (mIndexTypeUint8 ∉ chain) ∧ (mSynchronization2 ∉ chain)
         ∧ (mTimelineSemaphore ∉ chain)).
Proof.
  exists (assembled this config vf), (mFeatures2 :: linked_members vf config).
  split; [apply assemble_closed_form|].
  split; [apply assembled_chain|].
  split; [apply linked_iff_gated|].
  intros Hext. rewrite !linked_iff_gated. simpl. rewrite Hext. simpl.
  rewrite !elem_of_nil. tauto.
Qed.

(** C6, as the code has it. Every member's [pNext] is reset by the body, the
    members that stay out of the chain included; not all resets come before the
    first link, but each member is linked only after its own [pNext] and the
    root's have been reset. After the call every [pNext] of the object is null
    or points to a member of the same object that is on the chain and whose
    gating condition holds, and a member off the chain has a null [pNext]. *)
Theorem assembleFeatureChain_resets_each_link
    (this : N) (config : VulkanContextConfig) (vf : VulkanFeatures) :
  (∀ m, ResetNext m ∈ assembleFeatureChain_body vf config)
  ∧ links_follow_own_reset [] (assembleFeatureChain_body vf config) = true
  ∧ ∃ vf' chain,
      assembleFeatureChain this config vf = Some vf'
      ∧ featureChain this vf' = Some chain
      ∧ ∀ m,
          match get_pNext m vf' with
          | None => True
          | Some (a, m') =>
              a = this ∧ m ∈ chain ∧ m' ∈ chain ∧ gating_condition vf config m'
          end
          ∧ (m ∉ chain → get_pNext m vf' = None).
Proof.
  split; [apply body_resets_every_member|].
  split; [apply body_links_follow_own_reset|].
  exists (assembled this config vf), (mFeatures2 :: linked_members vf config).
  split; [apply assemble_closed_form|].
  split; [apply assembled_chain|].
  intros m. rewrite assembled_pNext. split.
  - destruct (successor _ m) as [b|] eqn:E; simpl; trivial.
    apply successor_elem_of in E as [Hm Hb].
    repeat split; trivial. now apply linked_iff_gated.
  - intros Hm. now rewrite successor_not_elem_of.
Qed.

(** C6, the order it claims: in the body of a freshly initialised object three
    resets come after the first links. *)
Lemma assembleFeatureChain_resets_interleaved :
  resets_precede_all_links
    (assembleFeatureChain_body (VulkanFeatures_init VK_API_VERSION_1_1 config_none)
       config_none) = false
  ∧ ∃ pre post,
      assembleFeatureChain_body (VulkanFeatures_init VK_API_VERSION_1_1 config_none)
        config_none
      = pre ++ ResetNext mBufferDeviceAddress :: post
      ∧ AddNext mSamplerYcbcrConversion ∈ pre.
Proof.
  split; [reflexivity|].
  eexists (_ :: _ :: _ :: _ :: _ :: _ :: _ :: _ :: _ :: _ :: _ :: []), _.
  split; [reflexivity|].
  rewrite !elem_of_cons. tauto.
Qed.

(** C7. Running [assembleFeatureChain] a second time, with the same
    configuration and with version and catalogue untouched, reproduces the
    object of the first run, and so the same chain in the same order. *)
Theorem assembleFeatureChain_idempotent
    (this : N) (config : VulkanContextConfig) (vf : VulkanFeatures) :
  ∃ vf1 vf2,
    assembleFeatureChain this config vf = Some vf1
    ∧ assembleFeatureChain this config vf1 = Some vf2
    ∧ vf2 = vf1
    ∧ featureChain this vf2 = featureChain this vf1
    ∧ is_Some (featureChain this vf1).
Proof.
  exists (assembled this config vf), (assembled this config vf).
  split; [apply assemble_closed_form|].
  split; [rewrite assemble_closed_form; f_equal; apply assembled_idem|].
  repeat split; trivial. rewrite assembled_chain. eauto.
Qed.

(** C10. A freshly constructed object has every feature field of every member
    equal to [VK_FALSE], except [synchronization2] and [timelineSemaphore],
    which are [VK_TRUE]. *)
Theorem fresh_fields_false_but_two
    (this : N) (version : Z) (config : VulkanContextConfig) :
  ∃ vf,
    VulkanFeatures_new this version config = Some vf
    ∧ ∀ f, field_value f vf
           = match f with
             | F_synchronization2 | F_timelineSemaphore => VK_TRUE
             | _ => VK_FALSE
             end.
Proof.
  exists (fresh this version config).
  split; [apply VulkanFeatures_new_fresh|].
  intros f. rewrite fresh_assembled, assembled_field_value. now destruct f.
Qed.

(** ** Strings *)

Lemma append_nil_r (s : string) : (s ++ "")%string = s.
Proof. induction s as [|c s IH]; simpl; congruence. Qed.

Lemma append_assoc (a b c : string) : ((a ++ b) ++ c)%string = (a ++ (b ++ c))%string.
Proof. induction a as [|x a IH]; simpl; congruence. Qed.

Lemma append_cons (c : ascii) (a b : string) :
  (String c a ++ b)%string = String c (a ++ b).
Proof. reflexivity. Qed.

Lemma ends_with_app (p s : string) : ends_with s (p ++ s) = true.
Proof.
  induction p as [|c p IH]; simpl.
  - destruct s; simpl; rewrite ?Ascii.eqb_refl, ?String.eqb_refl; trivial.
  - rewrite IH. apply orb_true_r.
Qed.

Lemma split_lines_single (l : string) : no_newline l = true → split_lines l = [l].
Proof.
  induction l as [|c l IH]; simpl; trivial.
  intros [Hc Hl]%andb_true_iff. apply negb_true_iff in Hc. rewrite Hc, IH; trivial.
Qed.

Lemma split_lines_first (l rest : string) :
  no_newline l = true →
  split_lines (l ++ String "010" rest) = l :: split_lines rest.
Proof.
  induction l as [|c l IH]; simpl; trivial.
  intros [Hc Hl]%andb_true_iff. apply negb_true_iff in Hc. rewrite Hc, IH; trivial.
Qed.

(** ** The report as a list of entries *)

Lemma report_entry_line (feature : FeatureField) (version : string) :
  report_entry feature version = String "010" (report_line feature version).
Proof. reflexivity. Qed.

Lemma is_missing_true (R A : VulkanFeatures) (c : FeatureCheck) :
  is_missing R A c = true
  ↔ field_value (fst c) R = VK_TRUE ∧ field_value (fst c) A = VK_FALSE.
Proof. unfold is_missing. now rewrite andb_true_iff, !Z.eqb_eq. Qed.

Lemma elem_of_missing_checks (R A : VulkanFeatures) (c : FeatureCheck) :
  c ∈ missing_checks R A
  ↔ c ∈ checkSelectedFeatures_checks R
    ∧ field_value (fst c) R = VK_TRUE ∧ field_value (fst c) A = VK_FALSE.
Proof.
  unfold missing_checks.
  now rewrite !list_elem_of_In, filter_In, is_missing_true.
Qed.

Section Report.
Variables R A : VulkanFeatures.

Lemma fold_checks (l : list FeatureCheck) (init : string) :
  fold_left (λ missingFeatures (c : FeatureCheck),
               ENABLE_VULKAN_FEATURE R A (fst c) (snd c) missingFeatures) l init
  = (init ++ flatten (map (λ c, report_entry (fst c) (snd c))
                        (List.filter (is_missing R A) l)))%string.
Proof.
  revert init. induction l as [|c l IH]; intros init; simpl.
  - now rewrite append_nil_r.
  - rewrite IH. unfold ENABLE_VULKAN_FEATURE. fold (is_missing R A c).
    destruct (is_missing R A c); simpl; trivial.
    now rewrite append_assoc.
Qed.

Lemma missingFeatures_of_flatten :
  missingFeatures_of R A
  = flatten (map (λ c, report_entry (fst c) (snd c)) (missing_checks R A)).
Proof. unfold missingFeatures_of. now rewrite fold_checks. Qed.

Lemma missingFeatures_of_empty :
  string_empty (missingFeatures_of R A) = true ↔ missing_checks R A = [].
Proof.
  rewrite missingFeatures_of_flatten.
  destruct (missing_checks R A) as [|c l]; simpl; split; trivial; discriminate.
Qed.
End Report.

Lemma checks_subset (R : VulkanFeatures) (c : FeatureCheck) :
  c ∈ checkSelectedFeatures_checks R → c ∈ every_check.
Proof.
  unfold every_check, checkSelectedFeatures_checks.
  destruct (enableDescriptorIndexing (config_ R)), (enableBufferDeviceAddress (config_ R));
    simpl; rewrite !elem_of_cons, !elem_of_nil; tauto.
Qed.

Lemma all_fields_complete (f : FeatureField) : f ∈ all_fields.
Proof. apply (bool_decide_unpack _). destruct f; vm_compute; exact I. Qed.

Lemma every_check_no_newline :
  forallb (λ c : FeatureCheck, no_newline (report_line (fst c) (snd c))) every_check = true.
Proof. vm_compute. reflexivity. Qed.

(** Among the lines the body can write, the one that ends in the qualified
    name of a field belongs to the check of that field. *)
Lemma every_check_suffix :
  forallb (λ c : FeatureCheck,
    forallb (λ f,
      implb (ends_with (" " ++ member_expr (field_member f) ++ "." ++ field_name f)%string
               (report_line (fst c) (snd c)))
            (bool_decide (fst c = f)))
      all_fields)
    every_check = true.
Proof. vm_compute. reflexivity. Qed.

Lemma report_line_field (c : FeatureCheck) (f : FeatureField) (version : string) :
  c ∈ every_check → report_line (fst c) (snd c) = report_line f version → fst c = f.
Proof.
  intros Hc Heq.
  pose proof every_check_suffix as H.
  rewrite forallb_forall in H. apply list_elem_of_In in Hc. specialize (H c Hc).
  rewrite forallb_forall in H.
  specialize (H f (proj1 (list_elem_of_In _ _) (all_fields_complete f))).
  rewrite Heq in H. unfold report_line at 1 in H.
  replace ("   " ++ version ++ " " ++ member_expr (field_member f) ++ "." ++ field_name f)%string
    with (("   " ++ version) ++ (" " ++ member_expr (field_member f) ++ "." ++ field_name f))%string
    in H by apply append_assoc.
  rewrite ends_with_app in H. simpl in H. now apply bool_decide_eq_true in H.
Qed.

Lemma split_lines_entries (l : list FeatureCheck) :
  (∀ c, c ∈ l → c ∈ every_check) →
  split_lines (flatten (map (λ c, report_entry (fst c) (snd c)) l))
  = EmptyString :: map (λ c, report_line (fst c) (snd c)) l.
Proof.
  intros Hl.
  assert (∀ c, c ∈ l → no_newline (report_line (fst c) (snd c)) = true) as Hnl.
  { intros c Hc. pose proof every_check_no_newline as H.
    rewrite forallb_forall in H. apply H, list_elem_of_In, Hl, Hc. }
  clear Hl.
  enough (∀ first, no_newline first = true →
            split_lines (first ++ flatten (map (λ c, report_entry (fst c) (snd c)) l))
            = first :: map (λ c, report_line (fst c) (snd c)) l) as H
    by (apply (H EmptyString); reflexivity).
  induction l as [|c l IH]; intros first Hfirst.
  - cbn [map flatten foldr]. rewrite append_nil_r. now apply split_lines_single.
  - cbn [map flatten foldr]. rewrite report_entry_line, append_cons.
    rewrite split_lines_first by trivial. f_equal.
    apply IH.
    + intros c' Hc'. apply Hnl. now right.
    + apply Hnl. now left.
Qed.

Lemma report_lines (R A : VulkanFeatures) :
  split_lines (missingFeatures_of R A)
  = EmptyString :: map (λ c, report_line (fst c) (snd c)) (missing_checks R A).
Proof.
  rewrite missingFeatures_of_flatten. apply split_lines_entries.
  intros c [Hc _]%elem_of_missing_checks. now apply checks_subset in Hc.
Qed.

(** ** The outcome of [checkSelectedFeatures] in closed form *)

Lemma checkSelectedFeatures_value (platform : Platform) (R A : VulkanFeatures) :
  value (checkSelectedFeatures platform R A)
  = if string_empty (missingFeatures_of R A) || IGL_PLATFORM_APPLE platform
    then Result_default
    else Result_of RuntimeError.
Proof.
  unfold checkSelectedFeatures.
  destruct (string_empty (missingFeatures_of R A)), (IGL_PLATFORM_APPLE platform);
    reflexivity.
Qed.

Lemma checkSelectedFeatures_events (platform : Platform) (R A : VulkanFeatures) :
  events (checkSelectedFeatures platform R A)
  = (if version_ A =? version_ R then [] else [DebugAssertFailed versions_message])
    ++ (if string_empty (missingFeatures_of R A) then []
        else if IGL_PLATFORM_APPLE platform
             then [LogInfo (missing_message (missingFeatures_of R A))]
             else [DebugAbort (missing_message (missingFeatures_of R A))]).
Proof.
  unfold checkSelectedFeatures.
  destruct (version_ A =? version_ R), (string_empty (missingFeatures_of R A)),
    (IGL_PLATFORM_APPLE platform); reflexivity.
Qed.

(** ** Comparisons of sample objects *)

Example check_satisfied :
  checkSelectedFeatures linux requested device_full
  = {| events := []; value := Result_default |}.
Proof. reflexivity. Qed.

Example check_bare_device :
  split_lines (missingFeatures_of requested device_bare)
  = [ "";
      "   1.1 VkPhysicalDeviceFeatures2_.features.multiDrawIndirect";
      "   1.1 VkPhysicalDeviceFeatures2_.features.drawIndirectFirstInstance";
      "   1.1 VkPhysicalDeviceFeatures2_.features.depthBiasClamp";
      "   1.1 VkPhysicalDeviceFeatures2_.features.fillModeNonSolid";
      "   1.1 EXT VkPhysicalDeviceMultiviewFeatures_.multiview";
      "   1.1 EXT VkPhysicalDeviceSamplerYcbcrConversionFeatures_.samplerYcbcrConversion" ]
  ∧ value (checkSelectedFeatures linux requested device_bare) = Result_of RuntimeError
  ∧ value (checkSelectedFeatures macos requested device_bare) = Result_default.
Proof. repeat split; reflexivity. Qed.

(** A request for dual-source blending against a device without it: one entry. *)
Example check_dual_source_blend :
  missingFeatures_of
    (enableDefaultFeatures1_1 linux
       (fresh 1 VK_API_VERSION_1_1
          {| enableBufferDeviceAddress := false; enableDescriptorIndexing := false;
             enableShaderInt16 := false; enableShaderDrawParameters := false;
             enableStorageBuffer16BitAccess := false; enableDualSrcBlend := true |}))
    device_full
  = (LF ++ "   1.1 VkPhysicalDeviceFeatures2_.features.dualSrcBlend")%string.
Proof. reflexivity. Qed.

(** Descriptor-indexing fields are compared only under the toggle of the
    requested set. *)
Example check_descriptor_indexing_gate :
  missingFeatures_of
    (enableDefaultFeatures1_1 linux
       (fresh 1 VK_API_VERSION_1_1
          {| enableBufferDeviceAddress := false; enableDescriptorIndexing := true;
             enableShaderInt16 := false; enableShaderDrawParameters := false;
             enableStorageBuffer16BitAccess := false; enableDualSrcBlend := false |}))
    device_full
  = (LF ++ "   1.1 EXT VkPhysicalDeviceDescriptorIndexingFeaturesEXT_.shaderSampledImageArrayNonUniformIndexing"
     ++ LF ++ "   1.1 EXT VkPhysicalDeviceDescriptorIndexingFeaturesEXT_.descriptorBindingUniformBufferUpdateAfterBind"
     ++ LF ++ "   1.1 EXT VkPhysicalDeviceDescriptorIndexingFeaturesEXT_.descriptorBindingSampledImageUpdateAfterBind"
     ++ LF ++ "   1.1 EXT VkPhysicalDeviceDescriptorIndexingFeaturesEXT_.descriptorBindingStorageImageUpdateAfterBind"
     ++ LF ++ "   1.1 EXT VkPhysicalDeviceDescriptorIndexingFeaturesEXT_.descriptorBindingStorageBufferUpdateAfterBind"
     ++ LF ++ "   1.1 EXT VkPhysicalDeviceDescriptorIndexingFeaturesEXT_.descriptorBindingUpdateUnusedWhilePending"
     ++ LF ++ "   1.1 EXT VkPhysicalDeviceDescriptorIndexingFeaturesEXT_.descriptorBindingPartiallyBound"
     ++ LF ++ "   1.1 EXT VkPhysicalDeviceDescriptorIndexingFeaturesEXT_.runtimeDescriptorArray")%string.
Proof. reflexivity. Qed.

(** ** Claims on the comparison *)

(** C1, as stated: success exactly when every field the requested set has at
    [VK_TRUE] is [VK_TRUE] in the available set, and every such field that is
    [VK_FALSE] there is reported. Two requests show otherwise on a platform
    where a missing feature is fatal: [multiviewGeometryShader], a field of a
    member that is always on the chain, and [synchronization2], which the
    defaults themselves request, are both absent on the device, and the call
    succeeds with an empty report. *)
Lemma unchecked_field_missing_yet_success :
  (let R := set_multiviewGeometryShader VK_TRUE requested in
   let A := device_full in
   version_ R = version_ A
   ∧ field_value F_multiviewGeometryShader R = VK_TRUE
   ∧ field_value F_multiviewGeometryShader A = VK_FALSE
   ∧ missingFeatures_of R A = EmptyString
   ∧ checkSelectedFeatures linux R A = {| events := []; value := Result_default |}
   ∧ ¬ (value (checkSelectedFeatures linux R A) = Result_default
        ↔ ∀ f, field_value f R = VK_TRUE → field_value f A = VK_TRUE))
  ∧ (let R := requested in
     let A := set_synchronization2 VK_FALSE device_full in
     version_ R = version_ A
     ∧ field_value F_synchronization2 R = VK_TRUE
     ∧ field_value F_synchronization2 A = VK_FALSE
     ∧ missingFeatures_of R A = EmptyString
     ∧ checkSelectedFeatures linux R A = {| events := []; value := Result_default |}).
Proof.
  split; [|repeat split; reflexivity].
  repeat split; try reflexivity.
  intros [Hall _].
  specialize (Hall eq_refl F_multiviewGeometryShader eq_refl). discriminate Hall.
Qed.

(** C1, as the code has it. Where a missing feature is fatal (any platform but
    Apple), [checkSelectedFeatures] returns success exactly when none of the
    fields its body compares is [VK_TRUE] in the requested and [VK_FALSE] in the
    available set; the fields compared are the fixed list
    [checkSelectedFeatures_checks], whose descriptor-indexing and
    buffer-device-address entries are present only under the toggle of the
    requested set. Every compared field that is [VK_TRUE] in the requested and
    [VK_FALSE] in the available set has its line in the report. *)
Theorem checkSelectedFeatures_compared_fields
    (platform : Platform) (R A : VulkanFeatures) :
  IGL_PLATFORM_APPLE platform = false →
  (value (checkSelectedFeatures platform R A) = Result_default
   ↔ ∀ c, c ∈ checkSelectedFeatures_checks R →
          ¬ (field_value (fst c) R = VK_TRUE ∧ field_value (fst c) A = VK_FALSE))
  ∧ (value (checkSelectedFeatures platform R A) = Result_default
     ∨ value (checkSelectedFeatures platform R A) = Result_of RuntimeError)
  ∧ (∀ c, c ∈ checkSelectedFeatures_checks R →
          field_value (fst c) R = VK_TRUE → field_value (fst c) A = VK_FALSE →
          report_line (fst c) (snd c) ∈ split_lines (missingFeatures_of R A)).
Proof.
  intros Happle. rewrite checkSelectedFeatures_value, Happle, orb_false_r.
  split; [|split].
  - destruct (string_empty (missingFeatures_of R A)) eqn:E.
    + apply missingFeatures_of_empty in E. split; trivial.
      intros _ c Hc [HR HA].
      assert (c ∈ missing_checks R A) as Hin by now apply elem_of_missing_checks.
      rewrite E in Hin. now apply elem_of_nil in Hin.
    + split; [discriminate|]. intros Hnone. exfalso.
      assert (missing_checks R A = []) as Hnil.
      { destruct (missing_checks R A) as [|c l] eqn:El; trivial.
        assert (c ∈ missing_checks R A) as Hin by (rewrite El; left).
        apply elem_of_missing_checks in Hin as (Hc & HR & HA).
        destruct (Hnone c Hc); now split. }
      apply missingFeatures_of_empty in Hnil. congruence.
  - destruct (string_empty (missingFeatures_of R A)); auto.
  - intros c Hc HR HA. rewrite report_lines. right.
    apply (list_elem_of_fmap_2 (λ c, report_line (fst c) (snd c))).
    now apply elem_of_missing_checks.
Qed.

Lemma checkSelectedFeatures_compared_fields_witness :
  IGL_PLATFORM_APPLE linux = false
  ∧ value (checkSelectedFeatures linux requested device_bare) ≠ Result_default
  ∧ report_line F_multiview "1.1 EXT"
    ∈ split_lines (missingFeatures_of requested device_bare).
Proof.
  destruct (checkSelectedFeatures_compared_fields linux requested device_bare eq_refl)
    as (Hiff & _ & Hline).
  split; [reflexivity|]. split.
  - intros Hok. apply (proj1 Hiff Hok (ENABLE_FEATURE_1_1_EXT F_multiview)).
    + apply list_elem_of_In. simpl. tauto.
    + split; reflexivity.
  - apply (Hline (ENABLE_FEATURE_1_1_EXT F_multiview)); try reflexivity.
    apply list_elem_of_In. simpl. tauto.
Defined.

(** C4, as stated: with differing versions the call never goes on to return a
    failure result. Here the request is for 1.1, the device set is for 1.2 and
    lacks [multiview]: the call returns [RuntimeError]. *)
Lemma version_mismatch_returns_failure :
  let R := requested in
  let A := set_multiview VK_FALSE device_full_1_2 in
  version_ R = VK_API_VERSION_1_1
  ∧ version_ A = VK_API_VERSION_1_2
  ∧ version_ R ≠ version_ A
  ∧ value (checkSelectedFeatures linux R A) = Result_of RuntimeError.
Proof. repeat split; try reflexivity. discriminate. Qed.

(** C4, as the code has it. With differing versions the debug assertion on the
    versions is the first event of the call. The call has no return of its own
    for this case: the comparison runs as for equal versions and decides the
    result, [RuntimeError] when a compared feature is missing and the platform
    is not Apple, success otherwise. *)
Theorem version_mismatch_asserts_then_compares
    (platform : Platform) (R A : VulkanFeatures) :
  version_ R ≠ version_ A →
  (∃ rest, events (checkSelectedFeatures platform R A)
           = DebugAssertFailed versions_message :: rest)
  ∧ value (checkSelectedFeatures platform R A)
    = if string_empty (missingFeatures_of R A) || IGL_PLATFORM_APPLE platform
      then Result_default
      else Result_of RuntimeError.
Proof.
  intros Hver. split; [|apply checkSelectedFeatures_value].
  rewrite checkSelectedFeatures_events.
  destruct (version_ A =? version_ R) eqn:E.
  - apply Z.eqb_eq in E. congruence.
  - eauto.
Qed.

Lemma version_mismatch_asserts_then_compares_witness :
  version_ requested ≠ version_ device_full_1_2
  ∧ events (checkSelectedFeatures linux requested device_full_1_2)
    = [DebugAssertFailed versions_message]
  ∧ value (checkSelectedFeatures linux requested device_full_1_2) = Result_default.
Proof.
  assert (version_ requested ≠ version_ device_full_1_2) as Hver by discriminate.
  destruct (version_mismatch_asserts_then_compares linux requested device_full_1_2 Hver)
    as [[rest Hev] Hval].
  split; [exact Hver|]. split; [reflexivity|]. rewrite Hval. reflexivity.
Defined.

(** C5. Whenever the report is not empty the outcome depends on the platform
    alone: everywhere but on Apple the call raises the debug abort with the
    report and returns [RuntimeError]; on Apple it logs the report at info
    level, raises no abort and returns success. *)
Theorem missing_features_platform_policy (platform : Platform) (R A : VulkanFeatures) :
  missingFeatures_of R A ≠ EmptyString →
  if IGL_PLATFORM_APPLE platform
  then value (checkSelectedFeatures platform R A) = Result_default
       ∧ LogInfo (missing_message (missingFeatures_of R A))
         ∈ events (checkSelectedFeatures platform R A)
       ∧ ∀ msg, DebugAbort msg ∉ events (checkSelectedFeatures platform R A)
  else value (checkSelectedFeatures platform R A) = Result_of RuntimeError
       ∧ DebugAbort (missing_message (missingFeatures_of R A))
         ∈ events (checkSelectedFeatures platform R A)
       ∧ ∀ msg, LogInfo msg ∉ events (checkSelectedFeatures platform R A).
Proof.
  intros Hne.
  rewrite checkSelectedFeatures_value, checkSelectedFeatures_events.
  destruct (missingFeatures_of R A) as [|c s] eqn:E; [congruence|]. simpl.
  destruct (IGL_PLATFORM_APPLE platform), (version_ A =? version_ R); simpl;
    repeat split; rewrite ?elem_of_cons, ?elem_of_nil; auto;
    intros msg; rewrite ?elem_of_cons, ?elem_of_nil; intros H;
    repeat (destruct H as [H|H]; try discriminate); trivial.
Qed.

Lemma missing_features_platform_policy_witness :
  missingFeatures_of requested device_bare ≠ EmptyString
  ∧ value (checkSelectedFeatures linux requested device_bare) = Result_of RuntimeError
  ∧ value (checkSelectedFeatures macos requested device_bare) = Result_default.
Proof.
  assert (missingFeatures_of requested device_bare ≠ EmptyString) as Hne by discriminate.
  split; [exact Hne|]. split.
  - exact (proj1 (missing_features_platform_policy linux requested device_bare Hne)).
  - exact (proj1 (missing_features_platform_policy macos requested device_bare Hne)).
Defined.

(** C8. A field that the requested set does not have at [VK_TRUE] has no line in
    the report, under any version text and whatever the available set holds. *)
Theorem unrequested_field_not_reported
    (R A : VulkanFeatures) (f : FeatureField) (version : string) :
  field_value f R ≠ VK_TRUE →
  report_line f version ∉ split_lines (missingFeatures_of R A).
Proof.
  intros Hf Hin. rewrite report_lines in Hin.
  apply elem_of_cons in Hin as [Hempty|Hin]; [discriminate Hempty|].
  apply list_elem_of_fmap in Hin as (c & Heq & Hc).
  apply elem_of_missing_checks in Hc as (Hc & HR & _).
  apply checks_subset in Hc.
  symmetry in Heq. apply report_line_field in Heq; trivial.
  congruence.
Qed.

Lemma unrequested_field_not_reported_witness :
  field_value F_dualSrcBlend requested ≠ VK_TRUE
  ∧ field_value F_dualSrcBlend device_bare = VK_FALSE
  ∧ report_line F_dualSrcBlend "1.1" ∉ split_lines (missingFeatures_of requested device_bare).
Proof.
  assert (field_value F_dualSrcBlend requested ≠ VK_TRUE) as Hf by discriminate.
  split; [exact Hf|]. split; [reflexivity|].
  exact (unrequested_field_not_reported requested device_bare F_dualSrcBlend "1.1" Hf).
Defined.

(** C9, as stated: the report is the bare entries joined by line feeds. With
    [multiview] alone missing the report is a line feed, three blanks and the
    entry. *)
Lemma report_not_newline_joined :
  let R := requested in
  let A := set_multiview VK_FALSE device_full in
  missing_checks R A = [ENABLE_FEATURE_1_1_EXT F_multiview]
  ∧ missingFeatures_of R A
    = String "010" "   1.1 EXT VkPhysicalDeviceMultiviewFeatures_.multiview"
  ∧ String.concat LF (map bare_entry (missing_checks R A))
    = "1.1 EXT VkPhysicalDeviceMultiviewFeatures_.multiview"
  ∧ missingFeatures_of R A ≠ String.concat LF (map bare_entry (missing_checks R A)).
Proof. repeat split; try reflexivity. discriminate. Qed.

(** C9, as the code has it. On a failed comparison the report holds, for each
    missing feature in the order of the checks, a line feed, three blanks, the
    version text, a blank, the requested member expression, a dot and the field
    name; the diagnostic is the report between the text
    ["Missing Vulkan features: "] and a final line feed. *)
Theorem report_text_shape (platform : Platform) (R A : VulkanFeatures) :
  missing_checks R A ≠ [] →
  missingFeatures_of R A
  = flatten (map (λ c, (LF ++ "   " ++ bare_entry c)%string) (missing_checks R A))
  ∧ split_lines (missingFeatures_of R A)
    = EmptyString :: map (λ c, ("   " ++ bare_entry c)%string) (missing_checks R A)
  ∧ (if IGL_PLATFORM_APPLE platform then LogInfo else DebugAbort)
      ("Missing Vulkan features: " ++ missingFeatures_of R A ++ LF)%string
    ∈ events (checkSelectedFeatures platform R A).
Proof.
  intros Hne. split; [apply missingFeatures_of_flatten|].
  split; [apply report_lines|].
  rewrite checkSelectedFeatures_events.
  destruct (string_empty (missingFeatures_of R A)) eqn:E.
  - now apply missingFeatures_of_empty in E.
  - apply elem_of_app. right. destruct (IGL_PLATFORM_APPLE platform); left.
Qed.

Lemma report_text_shape_witness :
  missing_checks requested (set_multiview VK_FALSE device_full) ≠ []
  ∧ missingFeatures_of requested (set_multiview VK_FALSE device_full)
    = (LF ++ "   1.1 EXT VkPhysicalDeviceMultiviewFeatures_.multiview")%string.
Proof.
  assert (missing_checks requested (set_multiview VK_FALSE device_full) ≠ []) as Hne
    by discriminate.
  split; [exact Hne|].
  rewrite (proj1 (report_text_shape linux requested (set_multiview VK_FALSE device_full) Hne)).
  reflexivity.
Defined.

(** ** Claims on copy assignment *)

Lemma operator_assign_guard (this other_addr : N) (self other : VulkanFeatures) :
  version_ self ≠ version_ other
  ∨ enableBufferDeviceAddress (config_ self) ≠ enableBufferDeviceAddress (config_ other)
  ∨ enableDescriptorIndexing (config_ self) ≠ enableDescriptorIndexing (config_ other) →
  operator_assign this self other_addr other = Some self.
Proof.
  intros Hdiff. unfold operator_assign.
  destruct (decide (this = other_addr)); trivial.
  destruct (version_ self =? version_ other) eqn:Ev; trivial.
  apply Z.eqb_eq in Ev.
  destruct (Bool.eqb (enableBufferDeviceAddress (config_ self))
              (enableBufferDeviceAddress (config_ other))) eqn:Eb; trivial.
  apply Bool.eqb_prop in Eb.
  destruct (Bool.eqb (enableDescriptorIndexing (config_ self))
              (enableDescriptorIndexing (config_ other))) eqn:Ed; trivial.
  apply Bool.eqb_prop in Ed. tauto.
Qed.

(** C2, as stated: any differing toggle makes the assignment a no-op. The two
    objects differ in [enableShaderInt16]; the assignment copies the feature
    structures of the source all the same. *)
Lemma assign_copies_despite_differing_toggle :
  two_objects !! 1%N = Some (fresh 1 VK_API_VERSION_1_1 config_none)
  ∧ (∃ dst src,
       two_objects !! 1%N = Some dst ∧ two_objects !! 2%N = Some src
       ∧ version_ dst = version_ src
       ∧ config_ dst ≠ config_ src
       ∧ field_value F_shaderInt16 dst = VK_FALSE
       ∧ field_value F_shaderInt16 src = VK_TRUE)
  ∧ (∃ h' dst',
       assign two_objects 1 2 = Some h'
       ∧ h' !! 1%N = Some dst'
       ∧ field_value F_shaderInt16 dst' = VK_TRUE
       ∧ config_ dst' = config_none)
  ∧ assign two_objects 1 2 ≠ Some two_objects.
Proof.
  assert (two_objects !! 1%N = Some (fresh 1 VK_API_VERSION_1_1 config_none)) as H1
    by apply lookup_insert_eq.
  assert (two_objects !! 2%N
          = Some (enableDefaultFeatures1_1 linux (fresh 2 VK_API_VERSION_1_1 config_int16)))
    as H2 by (unfold two_objects; rewrite lookup_insert_ne by discriminate;
              apply lookup_insert_eq).
  assert (∃ dst', assign two_objects 1 2 = Some (<[1%N := dst']> two_objects)
                  ∧ field_value F_shaderInt16 dst' = VK_TRUE
                  ∧ config_ dst' = config_none) as (dst' & Hassign & Hfield & Hcfg).
  { unfold assign. rewrite H1, H2. simpl. eexists. split; [reflexivity|].
    split; reflexivity. }
  split; [exact H1|]. split; [|split].
  - eexists _, _. repeat split; try eassumption; try reflexivity. discriminate.
  - exists (<[1%N := dst']> two_objects), dst'.
    repeat split; trivial; apply lookup_insert_eq.
  - rewrite Hassign. intros Heq. apply (inj Some) in Heq.
    assert ((<[1%N := dst']> two_objects) !! 1%N = two_objects !! 1%N) as Hl
      by now rewrite Heq.
    rewrite lookup_insert_eq, H1 in Hl. injection Hl as ->.
    discriminate Hfield.
Qed.

(** C2, as the code has it. If the two objects differ in version, in
    [enableBufferDeviceAddress] or in [enableDescriptorIndexing], the
    assignment changes nothing: memory after it is memory before it, so the
    destination keeps every member and the source is untouched. No other
    toggle is compared. *)
Theorem assign_guard_leaves_memory_unchanged
    (h : gmap N VulkanFeatures) (this other : N) (dst src : VulkanFeatures) :
  h !! this = Some dst →
  h !! other = Some src →
  version_ dst ≠ version_ src
  ∨ enableBufferDeviceAddress (config_ dst) ≠ enableBufferDeviceAddress (config_ src)
  ∨ enableDescriptorIndexing (config_ dst) ≠ enableDescriptorIndexing (config_ src) →
  assign h this other = Some h.
Proof.
  intros Hdst Hsrc Hdiff. unfold assign. rewrite Hdst, Hsrc. simpl.
  rewrite operator_assign_guard by trivial. simpl.
  f_equal. now apply insert_id.
Qed.

Lemma assign_guard_leaves_memory_unchanged_witness :
  assign two_versions 1 2 = Some two_versions.
Proof.
  apply (assign_guard_leaves_memory_unchanged two_versions 1 2
           (fresh 1 VK_API_VERSION_1_1 config_none) device_full_1_2).
  - apply lookup_insert_eq.
  - unfold two_versions. rewrite lookup_insert_ne by discriminate. apply lookup_insert_eq.
  - left. discriminate.
Defined.

(** When the guard lets the assignment through, the destination takes the
    feature fields and the catalogue of the source, keeps its own version and
    configuration, and has its chain rebuilt over its own members. *)
Lemma operator_assign_copies (this other_addr : N) (self other : VulkanFeatures) :
  this ≠ other_addr →
  version_ self = version_ other →
  enableBufferDeviceAddress (config_ self) = enableBufferDeviceAddress (config_ other) →
  enableDescriptorIndexing (config_ self) = enableDescriptorIndexing (config_ other) →
  ∃ self',
    operator_assign this self other_addr other = Some self'
    ∧ (∀ f, field_value f self' = field_value f other)
    ∧ extensions_ self' = extensions_ other
    ∧ version_ self' = version_ self
    ∧ config_ self' = config_ self
    ∧ featureChain this self'
      = Some (mFeatures2 :: linked_members other (config_ self)).
Proof.
  intros Hne Hv Hb Hd. unfold operator_assign.
  rewrite decide_False by trivial.
  rewrite Hv, Z.eqb_refl, Hb, Hd, !Bool.eqb_reflx. simpl.
  match goal with
  | |- context [assembleFeatureChain this ?c ?s] => exists (assembled this c s)
  end.
  split; [apply assemble_closed_form|].
  rewrite assembled_version, assembled_config, assembled_extensions, assembled_chain.
  repeat split; trivial.
  intros f. rewrite assembled_field_value. now destruct f.
Qed.


(** * Further properties of [VulkanFeatures] *)

(** ** Frames of the pointer and field writes *)

Lemma sType_set_pNext (m m' : Member) (p : pointer) (vf : VulkanFeatures) :
  get_sType m' (set_pNext m p vf) = get_sType m' vf.
Proof. destruct vf, m, m'; reflexivity. Qed.

Lemma assembled_sType (this : N) (config : VulkanContextConfig) (vf : VulkanFeatures)
    (m : Member) :
  get_sType m (assembled this config vf) = get_sType m vf.
Proof.
  unfold assembled.
  rewrite (relink_frame this (get_sType m)), (reset_all_frame (get_sType m));
    auto using sType_set_pNext.
Qed.

Lemma assembled_write_links (this : N) (config : VulkanContextConfig)
    (writes : list (Member * pointer)) (vf : VulkanFeatures) :
  assembled this config (write_links writes vf) = assembled this config vf.
Proof.
  induction writes as [|[m p] writes IH]; simpl; trivial.
  rewrite <- IH. unfold assembled, linked_members, hasExtension.
  now rewrite version_set_pNext, extensions_set_pNext, reset_all_set_pNext.
Qed.

Section WriteFeatures.
Variables (d : FeatureField → VkBool32) (m : Member) (vf : VulkanFeatures).

Lemma field_value_write_features (f : FeatureField) :
  field_value f (write_features d m vf)
  = if decide (field_member f = m) then d f else field_value f vf.
Proof. destruct vf, m, f; reflexivity. Qed.

Lemma pNext_write_features (m' : Member) :
  get_pNext m' (write_features d m vf) = get_pNext m' vf.
Proof. destruct vf, m, m'; reflexivity. Qed.

Lemma sType_write_features (m' : Member) :
  get_sType m' (write_features d m vf) = get_sType m' vf.
Proof. destruct vf, m, m'; reflexivity. Qed.

Lemma version_write_features : version_ (write_features d m vf) = version_ vf.
Proof. destruct vf, m; reflexivity. Qed.

Lemma config_write_features : config_ (write_features d m vf) = config_ vf.
Proof. destruct vf, m; reflexivity. Qed.

Lemma extensions_write_features : extensions_ (write_features d m vf) = extensions_ vf.
Proof. destruct vf, m; reflexivity. Qed.
End WriteFeatures.

Lemma write_features_frame {A : Type} (g : VulkanFeatures → A)
    (d : FeatureField → VkBool32) :
  (∀ m vf, g (write_features d m vf) = g vf) →
  ∀ chain vf, g (foldr (write_features d) vf chain) = g vf.
Proof.
  intros Hg chain vf. induction chain as [|m chain IH]; simpl; trivial.
  now rewrite Hg.
Qed.

Lemma field_value_written (d : FeatureField → VkBool32) (chain : list Member)
    (vf : VulkanFeatures) (f : FeatureField) :
  field_value f (foldr (write_features d) vf chain)
  = if decide (field_member f ∈ chain) then d f else field_value f vf.
Proof.
  induction chain as [|m chain IH]; cbn [foldr].
  - destruct (decide (field_member f ∈ [])) as [Hin|_]; [inversion Hin | reflexivity].
  - rewrite field_value_write_features, IH.
    destruct (decide (field_member f = m)) as [->|Hne].
    + rewrite decide_True; [trivial | left].
    + destruct (decide (field_member f ∈ chain)) as [Hin|Hout].
      * rewrite decide_True; [trivial | now right].
      * rewrite decide_False; trivial.
        intros [?|?]%elem_of_cons; contradiction.
Qed.

Section SetExtensions.
Variables (exts : list VkExtensionProperties) (vf : VulkanFeatures).

Lemma extensions_set_extensions : extensions_ (set_extensions exts vf) = exts.
Proof. destruct vf; reflexivity. Qed.

Lemma version_set_extensions : version_ (set_extensions exts vf) = version_ vf.
Proof. destruct vf; reflexivity. Qed.

Lemma config_set_extensions : config_ (set_extensions exts vf) = config_ vf.
Proof. destruct vf; reflexivity. Qed.

Lemma field_value_set_extensions (f : FeatureField) :
  field_value f (set_extensions exts vf) = field_value f vf.
Proof. destruct vf, f; reflexivity. Qed.

Lemma sType_set_extensions (m : Member) :
  get_sType m (set_extensions exts vf) = get_sType m vf.
Proof. destruct vf, m; reflexivity. Qed.
End SetExtensions.

(** ** The extension catalogue *)

(** X1. [hasExtension] answers true exactly when some element of [extensions_]
    carries the name asked for, character for character; where the element
    stands and how often it occurs makes no difference, and on an empty
    catalogue the answer is false. *)
Theorem hasExtension_exact_match (vf : VulkanFeatures) (ext : string) :
  (hasExtension vf ext = true
   ↔ ∃ props, props ∈ extensions_ vf ∧ extensionName props = ext)
  ∧ (extensions_ vf = [] → hasExtension vf ext = false).
Proof.
  split.
  - rewrite hasExtension_true, list_elem_of_fmap. split.
    + intros (props & -> & Hin). eauto.
    + intros (props & Hin & <-). eauto.
  - unfold hasExtension. now intros ->.
Qed.

(** ** Chain assembly *)

(** X2. [assembleFeatureChain] writes [pNext] members and nothing else: every
    feature field, every structure type, the version, the catalogue and the
    stored configuration are as before. The configuration it is called with
    gates the chain but is not stored. *)
Theorem assembleFeatureChain_writes_links_only
    (this : N) (config : VulkanContextConfig) (vf : VulkanFeatures) :
  ∃ vf',
    assembleFeatureChain this config vf = Some vf'
    ∧ (∀ f, field_value f vf' = field_value f vf)
    ∧ (∀ m, get_sType m vf' = get_sType m vf)
    ∧ version_ vf' = version_ vf
    ∧ extensions_ vf' = extensions_ vf
    ∧ config_ vf' = config_ vf.
Proof.
  exists (assembled this config vf).
  split; [apply assemble_closed_form|].
  split; [intros f; apply assembled_field_value|].
  split; [intros m; apply assembled_sType|].
  auto using assembled_version, assembled_extensions, assembled_config.
Qed.

Lemma take_if_sublist (c : bool) (m : Member) : take_if c m `sublist_of` [m].
Proof. destruct c; simpl; [reflexivity | apply sublist_nil_l]. Qed.

Lemma linked_members_sublist (vf : VulkanFeatures) (config : VulkanContextConfig) :
  mFeatures2 :: linked_members vf config `sublist_of` link_order.
Proof.
  unfold linked_members, link_order.
  apply sublist_skip.
  change [mSamplerYcbcrConversion; mShaderDrawParameters; mMultiview; mShaderFloat16Int8;
          mBufferDeviceAddress; mDescriptorIndexing; m16BitStorage; mIndexTypeUint8;
          mSynchronization2; mTimelineSemaphore]
    with ([mSamplerYcbcrConversion; mShaderDrawParameters; mMultiview]
          ++ [mShaderFloat16Int8] ++ [mBufferDeviceAddress] ++ [mDescriptorIndexing]
          ++ [m16BitStorage] ++ [mIndexTypeUint8] ++ [mSynchronization2]
          ++ [mTimelineSemaphore]).
  repeat (apply sublist_app; [first [apply take_if_sublist | reflexivity]|]).
  apply take_if_sublist.
Qed.

(** X3. The chain that [assembleFeatureChain] leaves starts at
    [VkPhysicalDeviceFeatures2_], names no member twice, ends in a null link,
    holds between five and eleven structures, and lists its members in one
    fixed relative order whatever the gates let through. *)
Theorem assembled_chain_shape
    (this : N) (config : VulkanContextConfig) (vf : VulkanFeatures) :
  ∃ vf' chain,
    assembleFeatureChain this config vf = Some vf'
    ∧ featureChain this vf' = Some chain
    ∧ head chain = Some mFeatures2
    ∧ NoDup chain
    ∧ chain `sublist_of` link_order
    ∧ (∀ m, last chain = Some m → get_pNext m vf' = None)
    ∧ (5 ≤ List.length chain ≤ 11)%nat.
Proof.
  exists (assembled this config vf), (mFeatures2 :: linked_members vf config).
  split; [apply assemble_closed_form|].
  split; [apply assembled_chain|].
  split; [reflexivity|].
  split; [apply linked_members_NoDup|].
  split; [apply linked_members_sublist|].
  split.
  - intros m Hlast. rewrite assembled_pNext.
    assert (successor (mFeatures2 :: linked_members vf config) m = None) as ->; trivial.
    pose proof (linked_members_NoDup vf config) as Hnd.
    revert Hlast Hnd. generalize (mFeatures2 :: linked_members vf config) as l.
    induction l as [|a [|b rest] IH]; intros Hlast Hnd.
    + discriminate.
    + simpl in *. now destruct (decide (a = m)).
    + change (last (a :: b :: rest)) with (last (b :: rest)) in Hlast.
      apply NoDup_cons in Hnd as [Ha Hnd].
      change (successor (a :: b :: rest) m)
        with (if decide (a = m) then Some b else successor (b :: rest) m).
      rewrite decide_False; [now apply IH|].
      intros ->. apply Ha. apply last_Some_elem_of in Hlast. exact Hlast.
  - pose proof (linked_members_length vf config) as Hlen. simpl in *.
    split; [|lia].
    unfold linked_members. rewrite !length_app. simpl. lia.
Qed.

(** X4. The links an object holds before the call have no influence on the
    object [assembleFeatureChain] produces: overwriting any [pNext] members
    first, with null, with pointers into other objects or with cycles, gives
    the same result. *)
Theorem assembleFeatureChain_ignores_old_links
    (this : N) (config : VulkanContextConfig) (writes : list (Member * pointer))
    (vf : VulkanFeatures) :
  assembleFeatureChain this config (write_links writes vf)
  = assembleFeatureChain this config vf
  ∧ is_Some (assembleFeatureChain this config vf).
Proof.
  rewrite !assemble_closed_form.
  fold (assembled this config (write_links writes vf)) (assembled this config vf).
  rewrite assembled_write_links. eauto.
Qed.

(** ** The comparison *)

Lemma checks_only_toggles (R R' : VulkanFeatures) :
  enableDescriptorIndexing (config_ R) = enableDescriptorIndexing (config_ R') →
  enableBufferDeviceAddress (config_ R) = enableBufferDeviceAddress (config_ R') →
  checkSelectedFeatures_checks R = checkSelectedFeatures_checks R'.
Proof. unfold checkSelectedFeatures_checks. now intros -> ->. Qed.

Lemma filter_agree {A : Type} (p q : A → bool) (l : list A) :
  (∀ x, x ∈ l → p x = q x) → List.filter p l = List.filter q l.
Proof.
  induction l as [|x l IH]; intros Hpq; simpl; trivial.
  rewrite (Hpq x) by left. rewrite IH; trivial.
  intros y Hy. apply Hpq. now right.
Qed.

Lemma filter_sublist {A : Type} (p : A → bool) (l : list A) :
  List.filter p l `sublist_of` l.
Proof.
  induction l as [|x l IH]; simpl; [constructor|].
  destruct (p x); now constructor.
Qed.

Lemma checks_sublist (R : VulkanFeatures) :
  checkSelectedFeatures_checks R `sublist_of` every_check.
Proof.
  unfold every_check, checkSelectedFeatures_checks. cbn [config_ VulkanFeatures_init
    enableDescriptorIndexing enableBufferDeviceAddress config_all].
  repeat (apply sublist_app;
          [first [reflexivity
                 | match goal with |- (if ?c then _ else _) `sublist_of` _ =>
                     destruct c; [reflexivity | apply sublist_nil_l] end]|]).
  reflexivity.
Qed.

Lemma every_check_lines_NoDup :
  NoDup ((λ c : FeatureCheck, report_line (fst c) (snd c)) <$> every_check).
Proof. apply (bool_decide_unpack _). vm_compute. exact I. Qed.

Lemma missing_message_events (platform : Platform) (R A : VulkanFeatures) :
  missing_checks R A = [] →
  checkSelectedFeatures platform R A
  = {| events := if version_ A =? version_ R then []
                 else [DebugAssertFailed versions_message];
       value := Result_default |}.
Proof.
  intros Hnil. apply missingFeatures_of_empty in Hnil.
  unfold checkSelectedFeatures. rewrite Hnil.
  now destruct (version_ A =? version_ R).
Qed.

Lemma missingFeatures_of_agree (R R' A A' : VulkanFeatures) :
  enableDescriptorIndexing (config_ R) = enableDescriptorIndexing (config_ R') →
  enableBufferDeviceAddress (config_ R) = enableBufferDeviceAddress (config_ R') →
  (∀ c, c ∈ every_check →
        field_value (fst c) R = field_value (fst c) R'
        ∧ field_value (fst c) A = field_value (fst c) A') →
  missingFeatures_of R A = missingFeatures_of R' A'.
Proof.
  intros Hdi Hbda Hfields.
  rewrite !missingFeatures_of_flatten. unfold missing_checks.
  rewrite <- (checks_only_toggles R R' Hdi Hbda). f_equal. f_equal.
  apply filter_agree. intros c Hc. apply checks_subset in Hc.
  destruct (Hfields c Hc) as [HR HA]. unfold is_missing. now rewrite HR, HA.
Qed.

(** X5. The comparison reads, of the requested set, the two toggles
    [enableDescriptorIndexing] and [enableBufferDeviceAddress], the version and
    the twenty compared fields, and of the available set the version and the same
    fields. Sets that agree there give the same events and the same result:
    the chains, the catalogues, every other field, the other toggles and the
    whole configuration of the available set are never consulted. *)
Theorem checkSelectedFeatures_reads_compared_fields_only
    (platform : Platform) (R R' A A' : VulkanFeatures) :
  enableDescriptorIndexing (config_ R) = enableDescriptorIndexing (config_ R') →
  enableBufferDeviceAddress (config_ R) = enableBufferDeviceAddress (config_ R') →
  version_ R = version_ R' →
  version_ A = version_ A' →
  (∀ c, c ∈ every_check →
        field_value (fst c) R = field_value (fst c) R'
        ∧ field_value (fst c) A = field_value (fst c) A') →
  checkSelectedFeatures platform R A = checkSelectedFeatures platform R' A'.
Proof.
  intros Hdi Hbda HvR HvA Hfields. unfold checkSelectedFeatures.
  rewrite (missingFeatures_of_agree R R' A A' Hdi Hbda Hfields).
  now rewrite HvR, HvA.
Qed.

Lemma checkSelectedFeatures_reads_compared_fields_only_witness :
  checkSelectedFeatures linux requested (with_extensions ["VK_KHR_maintenance1"] device_bare)
  = checkSelectedFeatures linux (set_multiviewGeometryShader VK_TRUE requested) device_bare.
Proof.
  apply checkSelectedFeatures_reads_compared_fields_only; try reflexivity.
  intros c Hc. apply list_elem_of_In in Hc. simpl in Hc.
  repeat (destruct Hc as [<-|Hc]; [split; reflexivity|]). destruct Hc.
Defined.

(** X6. A set compared with itself is always satisfied: no field can be at
    [VK_TRUE] and at [VK_FALSE] at once, so the report is empty, nothing is
    logged and the result is success on every platform. *)
Theorem checkSelectedFeatures_self (platform : Platform) (R : VulkanFeatures) :
  missingFeatures_of R R = EmptyString
  ∧ checkSelectedFeatures platform R R = {| events := []; value := Result_default |}.
Proof.
  assert (missing_checks R R = []) as Hnil.
  { unfold missing_checks.
    induction (checkSelectedFeatures_checks R) as [|c l IH]; simpl; trivial.
    unfold is_missing at 1.
    destruct (field_value (fst c) R =? VK_TRUE) eqn:E1; simpl; trivial.
    apply Z.eqb_eq in E1. rewrite E1. exact IH. }
  split.
  - rewrite missingFeatures_of_flatten, Hnil. reflexivity.
  - rewrite missing_message_events by trivial. now rewrite Z.eqb_refl.
Qed.

(** X7. A device that lacks no more than another cannot fail where the other
    succeeds: if every compared field that is [VK_FALSE] in [A'] is [VK_FALSE]
    in [A] too, every line reported against [A'] is reported against [A], and
    success against [A] implies success against [A']. *)
Theorem checkSelectedFeatures_monotone
    (platform : Platform) (R A A' : VulkanFeatures) :
  (∀ c, c ∈ checkSelectedFeatures_checks R →
        field_value (fst c) A' = VK_FALSE → field_value (fst c) A = VK_FALSE) →
  (∀ line, line ∈ split_lines (missingFeatures_of R A') →
           line ∈ split_lines (missingFeatures_of R A))
  ∧ (value (checkSelectedFeatures platform R A) = Result_default →
     value (checkSelectedFeatures platform R A') = Result_default).
Proof.
  intros Hless.
  assert (∀ c, c ∈ missing_checks R A' → c ∈ missing_checks R A) as Hsub.
  { intros c (Hc & HR & HA')%elem_of_missing_checks.
    apply elem_of_missing_checks. auto. }
  split.
  - intros line. rewrite !report_lines, !elem_of_cons, !list_elem_of_fmap.
    intros [->|(c & -> & Hc)]; [now left | right; eauto].
  - rewrite !checkSelectedFeatures_value.
    destruct (IGL_PLATFORM_APPLE platform); rewrite ?orb_true_r, ?orb_false_r; trivial.
    destruct (string_empty (missingFeatures_of R A)) eqn:E; [|discriminate].
    intros _. apply missingFeatures_of_empty in E.
    assert (missing_checks R A' = []) as Hnil.
    { apply elem_of_nil_inv. intros c Hc. apply Hsub in Hc.
      rewrite E in Hc. inversion Hc. }
    apply missingFeatures_of_empty in Hnil. now rewrite Hnil.
Qed.

Lemma checkSelectedFeatures_monotone_witness :
  value (checkSelectedFeatures linux requested device_full) = Result_default
  ∧ ∀ line, line ∈ split_lines (missingFeatures_of requested device_full) →
            line ∈ split_lines (missingFeatures_of requested device_bare).
Proof.
  assert (∀ c, c ∈ checkSelectedFeatures_checks requested →
               field_value (fst c) device_full = VK_FALSE →
               field_value (fst c) device_bare = VK_FALSE) as Hless.
  { intros c Hc. apply list_elem_of_In in Hc. simpl in Hc.
    repeat (destruct Hc as [<-|Hc]; [vm_compute; trivial|]). destruct Hc. }
  split; [reflexivity|].
  exact (proj1 (checkSelectedFeatures_monotone linux requested device_bare device_full Hless)).
Defined.

(** X8. A field whose value in the available set is anything but [VK_FALSE]
    has no line in the report: a value that is neither [VK_TRUE] nor [VK_FALSE]
    counts as available. *)
Theorem available_field_not_reported
    (R A : VulkanFeatures) (f : FeatureField) (version : string) :
  field_value f A ≠ VK_FALSE →
  report_line f version ∉ split_lines (missingFeatures_of R A).
Proof.
  intros Hf Hin. rewrite report_lines in Hin.
  apply elem_of_cons in Hin as [Hempty|Hin]; [discriminate Hempty|].
  apply list_elem_of_fmap in Hin as (c & Heq & Hc).
  apply elem_of_missing_checks in Hc as (Hc & _ & HA).
  apply checks_subset in Hc.
  symmetry in Heq. apply report_line_field in Heq; trivial.
  congruence.
Qed.

Lemma available_field_not_reported_witness :
  field_value F_multiview (set_multiview 2 device_bare) ≠ VK_FALSE
  ∧ field_value F_multiview requested = VK_TRUE
  ∧ report_line F_multiview "1.1 EXT"
    ∉ split_lines (missingFeatures_of requested (set_multiview 2 device_bare)).
Proof.
  assert (field_value F_multiview (set_multiview 2 device_bare) ≠ VK_FALSE) as Hf
    by discriminate.
  split; [exact Hf|]. split; [reflexivity|].
  exact (available_field_not_reported requested (set_multiview 2 device_bare)
           F_multiview "1.1 EXT" Hf).
Defined.

(** X9. The report names no feature twice and keeps the order of the checks
    in the source: behind the empty first line its lines are distinct and form
    a subsequence of the twenty lines the body can write, so the report never
    has more than twenty entries. *)
Theorem report_lines_distinct_in_order (R A : VulkanFeatures) :
  NoDup (split_lines (missingFeatures_of R A))
  ∧ head (split_lines (missingFeatures_of R A)) = Some EmptyString
  ∧ tail (split_lines (missingFeatures_of R A))
    `sublist_of` ((λ c : FeatureCheck, report_line (fst c) (snd c)) <$> every_check)
  ∧ (List.length (tail (split_lines (missingFeatures_of R A))) ≤ 20)%nat.
Proof.
  rewrite report_lines. cbn [head tail].
  assert ((λ c : FeatureCheck, report_line (fst c) (snd c)) <$> missing_checks R A
          `sublist_of` (λ c : FeatureCheck, report_line (fst c) (snd c)) <$> every_check)
    as Hsub.
  { apply fmap_sublist. etrans; [apply filter_sublist | apply checks_sublist]. }
  split; [|split; [reflexivity|split; [exact Hsub|]]].
  - apply NoDup_cons. split.
    + intros (c & Heq & _)%list_elem_of_fmap. discriminate Heq.
    + eapply sublist_NoDup; [apply every_check_lines_NoDup | exact Hsub].
  - apply sublist_length in Hsub. rewrite !length_fmap in Hsub.
    rewrite length_map. exact Hsub.
Qed.

(** ** Default requests *)

Section DefaultsFrame.
Variables (platform : Platform) (vf : VulkanFeatures).

Lemma pNext_enableDefaultFeatures1_1 (m : Member) :
  get_pNext m (enableDefaultFeatures1_1 platform vf) = get_pNext m vf.
Proof. destruct m; simpl; trivial; now destruct (_ (config_ vf)). Qed.

Lemma sType_enableDefaultFeatures1_1 (m : Member) :
  get_sType m (enableDefaultFeatures1_1 platform vf) = get_sType m vf.
Proof. destruct m; simpl; trivial; now destruct (_ (config_ vf)). Qed.
End DefaultsFrame.

Lemma chain_from_pNext (this : N) (vf vf' : VulkanFeatures) :
  (∀ m, get_pNext m vf = get_pNext m vf') →
  ∀ fuel a, chain_from fuel this vf a = chain_from fuel this vf' a.
Proof.
  intros Hp fuel. induction fuel as [|fuel IH]; intros a; simpl; trivial.
  rewrite Hp. destruct (get_pNext a vf') as [[b m]|]; trivial.
  destruct (decide (b = this)); trivial. now rewrite IH.
Qed.

(** X10. [enableDefaultFeatures1_1] is idempotent and leaves the chain
    alone: applying it a second time changes nothing, and it writes no [pNext]
    member, no structure type, and neither version, configuration nor
    catalogue, so it may run before or after the chain is assembled. *)
Theorem enableDefaultFeatures1_1_idempotent
    (platform : Platform) (this : N) (vf : VulkanFeatures) :
  enableDefaultFeatures1_1 platform (enableDefaultFeatures1_1 platform vf)
  = enableDefaultFeatures1_1 platform vf
  ∧ featureChain this (enableDefaultFeatures1_1 platform vf) = featureChain this vf
  ∧ (∀ m, get_sType m (enableDefaultFeatures1_1 platform vf) = get_sType m vf)
  ∧ version_ (enableDefaultFeatures1_1 platform vf) = version_ vf
  ∧ config_ (enableDefaultFeatures1_1 platform vf) = config_ vf
  ∧ extensions_ (enableDefaultFeatures1_1 platform vf) = extensions_ vf.
Proof.
  split; [|split; [|split]].
  - destruct vf as [f2 yc dp mv bda di s16 f16 u8 s2 ts cfg ver exts].
    destruct cfg as [[] [] ? ? ? ?]; reflexivity.
  - apply chain_from_pNext. intros m. apply pNext_enableDefaultFeatures1_1.
  - intros m. apply sType_enableDefaultFeatures1_1.
  - repeat split.
Qed.

Lemma field_value_fresh (this : N) (version : Z) (config : VulkanContextConfig)
    (f : FeatureField) :
  field_value f (fresh this version config)
  = match f with
    | F_synchronization2 | F_timelineSemaphore => VK_TRUE
    | _ => VK_FALSE
    end.
Proof. rewrite fresh_assembled, assembled_field_value. now destruct f. Qed.

Lemma config_fresh (this : N) (version : Z) (config : VulkanContextConfig) :
  config_ (fresh this version config) = config.
Proof. now rewrite fresh_assembled, assembled_config. Qed.

Lemma version_fresh (this : N) (version : Z) (config : VulkanContextConfig) :
  version_ (fresh this version config) = version.
Proof. now rewrite fresh_assembled, assembled_version. Qed.

Lemma extensions_fresh (this : N) (version : Z) (config : VulkanContextConfig) :
  extensions_ (fresh this version config) = [].
Proof. now rewrite fresh_assembled, assembled_extensions. Qed.

(** The value [enableDefaultFeatures1_1] gives a field: fixed, taken from a
    toggle, or the value it had. *)
Lemma field_value_defaults (platform : Platform) (vf : VulkanFeatures) (f : FeatureField) :
  field_value f (enableDefaultFeatures1_1 platform vf)
  = let config := config_ vf in
    let toggle (b : bool) := if b then VK_TRUE else VK_FALSE in
    let under (b : bool) := if b then VK_TRUE else field_value f vf in
    match f with
    | F_dualSrcBlend => toggle (enableDualSrcBlend config)
    | F_shaderInt16 => toggle (enableShaderInt16 config)
    | F_multiDrawIndirect | F_drawIndirectFirstInstance | F_depthBiasClamp => VK_TRUE
    | F_fillModeNonSolid => toggle (negb (defined_IGL_PLATFORM_ANDROID platform))
    | F_shaderSampledImageArrayNonUniformIndexing
    | F_descriptorBindingUniformBufferUpdateAfterBind
    | F_descriptorBindingSampledImageUpdateAfterBind
    | F_descriptorBindingStorageImageUpdateAfterBind
    | F_descriptorBindingStorageBufferUpdateAfterBind
    | F_descriptorBindingUpdateUnusedWhilePending
    | F_descriptorBindingPartiallyBound
    | F_runtimeDescriptorArray => under (enableDescriptorIndexing config)
    | F_storageBuffer16BitAccess => toggle (enableStorageBuffer16BitAccess config)
    | F_bufferDeviceAddress => under (enableBufferDeviceAddress config)
    | F_multiview | F_samplerYcbcrConversion | F_synchronization2
    | F_timelineSemaphore => VK_TRUE
    | F_shaderDrawParameters => toggle (enableShaderDrawParameters config)
    | _ => field_value f vf
    end.
Proof.
  destruct f; cbn; trivial;
    try (now destruct (defined_IGL_PLATFORM_ANDROID platform));
    now destruct (_ (config_ vf)).
Qed.

(** X11. What the defaults request on a fresh object is what the comparison
    looks at, with two exceptions: every field that is [VK_TRUE] after
    [enableDefaultFeatures1_1] on a newly constructed object is one of the
    fields [checkSelectedFeatures] compares for that object, or it is
    [synchronization2] or [timelineSemaphore], which are requested and never
    compared. *)
Theorem defaults_requested_fields_are_compared
    (platform : Platform) (this : N) (version : Z) (config : VulkanContextConfig)
    (f : FeatureField) :
  let R := enableDefaultFeatures1_1 platform (fresh this version config) in
  (field_value f R = VK_TRUE →
   f ∈ fst <$> checkSelectedFeatures_checks R
   ∨ f = F_synchronization2 ∨ f = F_timelineSemaphore)
  ∧ field_value F_synchronization2 R = VK_TRUE
  ∧ field_value F_timelineSemaphore R = VK_TRUE
  ∧ (F_synchronization2 ∉ fst <$> every_check)
  ∧ (F_timelineSemaphore ∉ fst <$> every_check).
Proof.
  intros R. split; [|repeat split; try (apply (bool_decide_unpack _); vm_compute; exact I);
                     unfold R; now rewrite field_value_defaults].
  unfold R. rewrite field_value_defaults, field_value_fresh, config_fresh. cbn zeta.
  unfold checkSelectedFeatures_checks.
  cbn [config_ enableDefaultFeatures1_1]. rewrite config_fresh.
  destruct (enableDescriptorIndexing config), (enableBufferDeviceAddress config);
    destruct f; try discriminate; intros H;
    try (right; left; reflexivity); try (right; right; reflexivity); left;
    repeat match type of H with
           | context [if ?b then _ else _] => destruct b eqn:?; try discriminate H
           end;
    apply list_elem_of_In; simpl; tauto.
Qed.

Lemma defaults_requested_fields_are_compared_witness :
  field_value F_multiview requested = VK_TRUE
  ∧ F_multiview ∈ fst <$> checkSelectedFeatures_checks requested.
Proof.
  split; [reflexivity|].
  destruct (proj1 (defaults_requested_fields_are_compared linux 1 VK_API_VERSION_1_1
                     config_none F_multiview) eq_refl) as [H|[H|H]];
    [exact H | discriminate H | discriminate H].
Defined.

(** ** Structure types *)

Lemma assemble_assembled (this : N) (config : VulkanContextConfig) (vf : VulkanFeatures) :
  assembleFeatureChain this config vf = Some (assembled this config vf).
Proof. apply assemble_closed_form. Qed.

Lemma well_tagged_init (version : Z) (config : VulkanContextConfig) :
  well_tagged (VulkanFeatures_init version config).
Proof. intros m. now destruct m. Qed.

Lemma operator_assign_sType (this other_addr : N) (self other self' : VulkanFeatures)
    (m : Member) :
  operator_assign this self other_addr other = Some self' →
  get_sType m self' = get_sType m self ∨ get_sType m self' = get_sType m other.
Proof.
  unfold operator_assign.
  destruct (decide (this = other_addr)); [intros [= <-]; now left|].
  destruct (negb _ || negb _); [intros [= <-]; now left|].
  rewrite assemble_assembled. intros [= <-]. right.
  rewrite assembled_sType. now destruct m.
Qed.

Lemma populate_value (this : N) (context : VulkanContext) (physicalDevice : PhysicalDevice)
    (vf : VulkanFeatures) :
  let catalogue :=
    enumerate_into physicalDevice
      (vector_resize (extension_count physicalDevice) (extensions_ vf)) in
  let prepared :=
    assembled this (context_config_ context) (set_extensions catalogue vf) in
  value (populateWithAvailablePhysicalDeviceFeatures this context physicalDevice vf)
  = if vkGetPhysicalDeviceFeatures2_loaded context
    then Some (foldr (write_features (supported physicalDevice)) prepared
                 (mFeatures2 :: linked_members prepared (context_config_ context)))
    else None.
Proof.
  intros catalogue prepared.
  unfold populateWithAvailablePhysicalDeviceFeatures, IGL_DEBUG_ASSERT.
  assert (set_extensions
            (enumerate_into physicalDevice
               (extensions_ (set_extensions
                  (vector_resize (extension_count physicalDevice) (extensions_ vf)) vf)))
            (set_extensions
               (vector_resize (extension_count physicalDevice) (extensions_ vf)) vf)
          = set_extensions catalogue vf) as Hset
    by (rewrite extensions_set_extensions; now destruct vf).
  subst prepared.
  destruct (vkGetPhysicalDeviceFeatures2_loaded context);
    cbn -[assembleFeatureChain assembled linked_members vkGetPhysicalDeviceFeatures2];
    rewrite Hset, assemble_assembled; cbn [mbind option_bind]; trivial.
  unfold vkGetPhysicalDeviceFeatures2.
  rewrite assembled_chain. cbn [mbind option_bind].
  now rewrite assembled_linked_members.
Qed.

(** X12. Each member carries the structure type of its own Vulkan type from
    construction on, and no member function breaks that: the constructor sets
    it, and chain assembly, the default requests, the device query and copy
    assignment between two such objects keep it. *)
Theorem well_tagged_invariant :
  (∀ this version config,
     ∃ vf, VulkanFeatures_new this version config = Some vf ∧ well_tagged vf)
  ∧ (∀ this config vf vf',
       well_tagged vf → assembleFeatureChain this config vf = Some vf' → well_tagged vf')
  ∧ (∀ platform vf, well_tagged vf → well_tagged (enableDefaultFeatures1_1 platform vf))
  ∧ (∀ this context physicalDevice vf vf',
       well_tagged vf →
       value (populateWithAvailablePhysicalDeviceFeatures this context physicalDevice vf)
       = Some vf' →
       well_tagged vf')
  ∧ (∀ this self other_addr other self',
       well_tagged self → well_tagged other →
       operator_assign this self other_addr other = Some self' → well_tagged self').
Proof.
  split; [|split; [|split; [|split]]].
  - intros this version config. exists (fresh this version config).
    split; [apply VulkanFeatures_new_fresh|].
    intros m. rewrite fresh_assembled, assembled_sType. apply well_tagged_init.
  - intros this config vf vf' Hvf. rewrite assemble_assembled. intros [= <-] m.
    now rewrite assembled_sType.
  - intros platform vf Hvf m. now rewrite sType_enableDefaultFeatures1_1.
  - intros this context physicalDevice vf vf' Hvf. rewrite populate_value. cbv zeta.
    destruct (vkGetPhysicalDeviceFeatures2_loaded context); [|discriminate].
    intros <-%(inj Some) m.
    rewrite (write_features_frame (get_sType m))
      by (intros; apply sType_write_features).
    now rewrite assembled_sType, sType_set_extensions.
  - intros this self other_addr other self' Hself Hother Hassign m.
    destruct (operator_assign_sType _ _ _ _ _ m Hassign) as [-> | ->]; auto.
Qed.

(** ** Copy assignment *)

(** The object [operator=] hands to [assembleFeatureChain]: the feature
    structures and the catalogue of the source, version and configuration of the
    destination. *)
Lemma operator_assign_closed (this other_addr : N) (self other : VulkanFeatures) :
  this ≠ other_addr →
  version_ self = version_ other →
  enableBufferDeviceAddress (config_ self) = enableBufferDeviceAddress (config_ other) →
  enableDescriptorIndexing (config_ self) = enableDescriptorIndexing (config_ other) →
  operator_assign this self other_addr other
  = Some (assembled this (config_ self) (copy_members self other)).
Proof.
  intros Hne Hv Hb Hd. unfold operator_assign.
  rewrite decide_False by trivial.
  rewrite (proj2 (Z.eqb_eq _ _) Hv), (proj2 (Bool.eqb_true_iff _ _) Hb),
    (proj2 (Bool.eqb_true_iff _ _) Hd). simpl.
  apply assemble_assembled.
Qed.

Section CopyMembers.
Variables (self other : VulkanFeatures).

Lemma field_value_copy_members (f : FeatureField) :
  field_value f (copy_members self other) = field_value f other.
Proof. now destruct f. Qed.

Lemma copy_members_twice (x : VulkanFeatures) :
  version_ x = version_ self → config_ x = config_ self →
  copy_members x other = copy_members self other.
Proof. unfold copy_members. now intros -> ->. Qed.
End CopyMembers.

Lemma operator_assign_total (this other_addr : N) (self other : VulkanFeatures) :
  ∃ self', operator_assign this self other_addr other = Some self'
           ∧ version_ self' = version_ self ∧ config_ self' = config_ self
           ∧ (this = other_addr → self' = self).
Proof.
  unfold operator_assign.
  destruct (decide (this = other_addr)); [eauto|].
  destruct (negb _ || negb _); [exists self; repeat split; trivial; contradiction|].
  rewrite assemble_assembled. eexists. split; [reflexivity|].
  rewrite assembled_version, assembled_config. repeat split; trivial. contradiction.
Qed.

(** X13. Copy assignment between two objects in memory always completes and
    writes the destination only: every other object, the source included, is
    as before, the destination keeps its version and its whole configuration in
    every case, and an object assigned to itself is unchanged. *)
Theorem assign_writes_destination_only
    (h : gmap N VulkanFeatures) (this other : N) (dst src : VulkanFeatures) :
  h !! this = Some dst →
  h !! other = Some src →
  ∃ h' dst',
    assign h this other = Some h'
    ∧ h' !! this = Some dst'
    ∧ (∀ a, a ≠ this → h' !! a = h !! a)
    ∧ version_ dst' = version_ dst
    ∧ config_ dst' = config_ dst
    ∧ (this = other → h' = h).
Proof.
  intros Hdst Hsrc.
  destruct (operator_assign_total this other dst src) as (dst' & Hassign & Hv & Hc & Hself).
  exists (<[this := dst']> h), dst'.
  split; [unfold assign; rewrite Hdst, Hsrc; simpl; now rewrite Hassign|].
  split; [apply lookup_insert_eq|].
  split; [intros a Ha; now apply lookup_insert_ne|].
  repeat split; trivial.
  intros Heq. rewrite (Hself Heq). now apply insert_id.
Qed.

Lemma assign_writes_destination_only_witness :
  ∃ h' dst',
    assign two_objects 1 2 = Some h'
    ∧ h' !! 1%N = Some dst'
    ∧ h' !! 2%N = two_objects !! 2%N
    ∧ config_ dst' = config_none.
Proof.
  assert (two_objects !! 1%N = Some (fresh 1 VK_API_VERSION_1_1 config_none)) as H1
    by apply lookup_insert_eq.
  assert (two_objects !! 2%N
          = Some (enableDefaultFeatures1_1 linux (fresh 2 VK_API_VERSION_1_1 config_int16)))
    as H2 by (unfold two_objects; rewrite lookup_insert_ne by discriminate;
              apply lookup_insert_eq).
  destruct (assign_writes_destination_only two_objects 1 2 _ _ H1 H2)
    as (h' & dst' & Hassign & Hthis & Hframe & _ & Hcfg & _).
  exists h', dst'.
  repeat split; trivial; try (apply Hframe; discriminate); try (rewrite Hcfg; reflexivity).
Defined.

(** X14. When the guard lets an assignment between distinct objects through,
    the destination ends up with every feature field and the catalogue of the
    source, and with a chain of its own: each of its [pNext] members is null or
    points to one of its own members, never into the source, and the chain
    holds the members that the version, the destination's toggles and the
    copied catalogue gate in. *)
Theorem assign_copies_and_relinks
    (h : gmap N VulkanFeatures) (this other : N) (dst src : VulkanFeatures) :
  h !! this = Some dst →
  h !! other = Some src →
  this ≠ other →
  version_ dst = version_ src →
  enableBufferDeviceAddress (config_ dst) = enableBufferDeviceAddress (config_ src) →
  enableDescriptorIndexing (config_ dst) = enableDescriptorIndexing (config_ src) →
  ∃ dst' chain,
    assign h this other = Some (<[this := dst']> h)
    ∧ (∀ f, field_value f dst' = field_value f src)
    ∧ extensions_ dst' = extensions_ src
    ∧ (∀ m a m', get_pNext m dst' = Some (a, m') → a = this)
    ∧ featureChain this dst' = Some chain
    ∧ (∀ m, m ∈ chain ↔ gating_condition src (config_ dst) m).
Proof.
  intros Hdst Hsrc Hne Hv Hb Hd.
  exists (assembled this (config_ dst) (copy_members dst src)),
         (mFeatures2 :: linked_members (copy_members dst src) (config_ dst)).
  split.
  { unfold assign. rewrite Hdst, Hsrc. simpl.
    now rewrite operator_assign_closed. }
  split; [intros f; now rewrite assembled_field_value, field_value_copy_members|].
  split; [now rewrite assembled_extensions|].
  split.
  { intros m a m'. rewrite assembled_pNext.
    destruct (successor _ m); simpl; [intros [= <- _]; trivial | discriminate]. }
  split; [apply assembled_chain|].
  intros m. rewrite linked_iff_gated.
  destruct m; simpl; rewrite ?Hv; reflexivity.
Qed.

Lemma assign_copies_and_relinks_witness :
  ∃ dst' chain,
    assign two_alike 1 2 = Some (<[1%N := dst']> two_alike)
    ∧ field_value F_multiview dst' = VK_TRUE
    ∧ featureChain 1 dst' = Some chain
    ∧ mTimelineSemaphore ∈ chain
    ∧ mSynchronization2 ∉ chain.
Proof.
  assert (two_alike !! 1%N = Some (fresh 1 VK_API_VERSION_1_1 config_none)) as H1
    by apply lookup_insert_eq.
  assert (two_alike !! 2%N
          = Some (with_extensions ["VK_KHR_timeline_semaphore"] device_full))
    as H2 by (unfold two_alike; rewrite lookup_insert_ne by discriminate;
              apply lookup_insert_eq).
  destruct (assign_copies_and_relinks two_alike 1 2 _ _ H1 H2)
    as (dst' & chain & Hassign & Hfields & _ & _ & Hchain & Hgate);
    try reflexivity; try discriminate.
  exists dst', chain. split; [exact Hassign|]. split; [now rewrite Hfields|].
  split; [exact Hchain|]. rewrite !Hgate.
  unfold gating_condition. split.
  - apply (bool_decide_unpack _). vm_compute. exact I.
  - apply (bool_decide_unpack _). vm_compute. exact I.
Defined.

(** X15. After an assignment that the guard lets through, the destination
    stands for the source in every comparison: as the available set and as the
    requested set it gives the events and the result the source gives. *)
Theorem assign_then_compare
    (h : gmap N VulkanFeatures) (this other : N) (dst src : VulkanFeatures) :
  h !! this = Some dst →
  h !! other = Some src →
  this ≠ other →
  version_ dst = version_ src →
  enableBufferDeviceAddress (config_ dst) = enableBufferDeviceAddress (config_ src) →
  enableDescriptorIndexing (config_ dst) = enableDescriptorIndexing (config_ src) →
  ∃ dst',
    assign h this other = Some (<[this := dst']> h)
    ∧ ∀ platform X,
        checkSelectedFeatures platform X dst' = checkSelectedFeatures platform X src
        ∧ checkSelectedFeatures platform dst' X = checkSelectedFeatures platform src X.
Proof.
  intros Hdst Hsrc Hne Hv Hb Hd.
  exists (assembled this (config_ dst) (copy_members dst src)).
  split.
  { unfold assign. rewrite Hdst, Hsrc. simpl. now rewrite operator_assign_closed. }
  intros platform X.
  set (dst' := assembled this (config_ dst) (copy_members dst src)).
  assert (∀ f, field_value f dst' = field_value f src) as Hfields
    by (intros f; unfold dst';
        now rewrite assembled_field_value, field_value_copy_members).
  assert (version_ dst' = version_ src) as Hv'
    by (unfold dst'; now rewrite assembled_version).
  assert (config_ dst' = config_ dst) as Hc'
    by (unfold dst'; now rewrite assembled_config).
  split; unfold checkSelectedFeatures.
  - rewrite (missingFeatures_of_agree X X dst' src), Hv'; auto.
  - rewrite (missingFeatures_of_agree dst' src X X), Hv'; rewrite ?Hc'; auto.
Qed.

Lemma assign_then_compare_witness :
  ∃ dst',
    assign two_alike 1 2 = Some (<[1%N := dst']> two_alike)
    ∧ checkSelectedFeatures linux requested dst'
      = {| events := []; value := Result_default |}.
Proof.
  assert (two_alike !! 1%N = Some (fresh 1 VK_API_VERSION_1_1 config_none)) as H1
    by apply lookup_insert_eq.
  assert (two_alike !! 2%N
          = Some (with_extensions ["VK_KHR_timeline_semaphore"] device_full))
    as H2 by (unfold two_alike; rewrite lookup_insert_ne by discriminate;
              apply lookup_insert_eq).
  destruct (assign_then_compare two_alike 1 2 _ _ H1 H2) as (dst' & Hassign & Hsame);
    try reflexivity; try discriminate.
  exists dst'. split; [exact Hassign|].
  rewrite (proj1 (Hsame linux requested)). reflexivity.
Defined.

Lemma operator_assign_again (this other_addr : N) (self other self' : VulkanFeatures) :
  operator_assign this self other_addr other = Some self' →
  operator_assign this self' other_addr other = Some self'.
Proof.
  unfold operator_assign at 1.
  destruct (decide (this = other_addr)) as [Heq|Hne].
  { intros [= <-]. unfold operator_assign. now rewrite decide_True. }
  destruct (version_ self =? version_ other) eqn:Ev; cycle 1.
  { intros [= <-]. unfold operator_assign. rewrite decide_False, Ev by trivial.
    reflexivity. }
  destruct (Bool.eqb (enableBufferDeviceAddress (config_ self))
              (enableBufferDeviceAddress (config_ other))) eqn:Eb; cycle 1.
  { intros [= <-]. unfold operator_assign. rewrite decide_False, Ev, Eb by trivial.
    reflexivity. }
  destruct (Bool.eqb (enableDescriptorIndexing (config_ self))
              (enableDescriptorIndexing (config_ other))) eqn:Ed; cycle 1.
  { intros [= <-]. unfold operator_assign. rewrite decide_False, Ev, Eb, Ed by trivial.
    reflexivity. }
  cbn [negb orb andb]. fold (copy_members self other).
  change (config_ (copy_members self other)) with (config_ self).
  rewrite assemble_assembled. intros <-%(inj Some).
  apply Z.eqb_eq in Ev. apply Bool.eqb_prop in Eb. apply Bool.eqb_prop in Ed.
  rewrite operator_assign_closed;
    rewrite ?assembled_version, ?assembled_config; trivial.
  rewrite (copy_members_twice self other (assembled _ _ _)); trivial.
  - now rewrite assembled_version.
  - now rewrite assembled_config.
Qed.

(** X16. Copy assignment is idempotent: assigning the same source a second
    time leaves memory as the first assignment left it, whether the guard let
    the copy through or not. *)
Theorem assign_idempotent (h : gmap N VulkanFeatures) (this other : N) :
  (assign h this other ≫= λ h', assign h' this other) = assign h this other.
Proof.
  destruct (assign h this other) as [h'|] eqn:Hfirst; [|reflexivity].
  cbn [mbind option_bind]. unfold assign in Hfirst |- *.
  destruct (h !! this) as [dst|] eqn:Hdst; [|discriminate].
  destruct (h !! other) as [src|] eqn:Hsrc; [|discriminate].
  cbn [mbind option_bind] in Hfirst.
  destruct (operator_assign this dst other src) as [dst'|] eqn:Hassign; [|discriminate].
  cbn [mbind option_bind] in Hfirst. apply (inj Some) in Hfirst. subst h'.
  rewrite lookup_insert_eq. cbn [mbind option_bind].
  destruct (decide (this = other)) as [<-|Hne].
  - rewrite lookup_insert_eq. cbn [mbind option_bind].
    unfold operator_assign. rewrite decide_True by trivial. cbn [mbind option_bind].
    now rewrite insert_insert_eq.
  - rewrite lookup_insert_ne, Hsrc by trivial. cbn [mbind option_bind].
    rewrite (operator_assign_again _ _ _ _ _ Hassign). cbn [mbind option_bind].
    now rewrite insert_insert_eq.
Qed.

(** ** Querying the physical device *)

Lemma vector_resize_length (n : nat) (v : list VkExtensionProperties) :
  List.length (vector_resize n v) = n.
Proof.
  unfold vector_resize. rewrite length_app, length_take, length_replicate. lia.
Qed.

Lemma enumerate_into_length (physicalDevice : PhysicalDevice)
    (array : list VkExtensionProperties) :
  List.length (enumerate_into physicalDevice array) = List.length array.
Proof.
  unfold enumerate_into. rewrite length_app, length_drop, !length_take. lia.
Qed.

Lemma enumerate_stable (physicalDevice : PhysicalDevice) (old : list VkExtensionProperties) :
  extension_count physicalDevice = List.length (extension_properties physicalDevice) →
  enumerate_into physicalDevice (vector_resize (extension_count physicalDevice) old)
  = extension_properties physicalDevice.
Proof.
  intros Hcount. unfold enumerate_into.
  rewrite vector_resize_length, Hcount, take_ge by lia.
  rewrite drop_ge; [apply app_nil_r|].
  rewrite <- Hcount, vector_resize_length. lia.
Qed.

Lemma gating_condition_agree (vf vf' : VulkanFeatures) (config : VulkanContextConfig)
    (m : Member) :
  version_ vf = version_ vf' → extensions_ vf = extensions_ vf' →
  gating_condition vf config m ↔ gating_condition vf' config m.
Proof. intros Hv He. destruct m; simpl; now rewrite ?Hv, ?He. Qed.

Lemma populate_events (this : N) (context : VulkanContext) (physicalDevice : PhysicalDevice)
    (vf : VulkanFeatures) :
  events (populateWithAvailablePhysicalDeviceFeatures this context physicalDevice vf)
  = if vkGetPhysicalDeviceFeatures2_loaded context then []
    else [DebugAssertFailed "Pointer to function vkGetPhysicalDeviceFeatures2() is nullptr"].
Proof.
  unfold populateWithAvailablePhysicalDeviceFeatures.
  now destruct (vkGetPhysicalDeviceFeatures2_loaded context).
Qed.

(** The state after a query with the entry point loaded and a device whose
    count matches what it writes. *)
Lemma populate_stable (this : N) (context : VulkanContext) (physicalDevice : PhysicalDevice)
    (vf : VulkanFeatures) :
  vkGetPhysicalDeviceFeatures2_loaded context = true →
  extension_count physicalDevice = List.length (extension_properties physicalDevice) →
  let prepared :=
    assembled this (context_config_ context)
      (set_extensions (extension_properties physicalDevice) vf) in
  value (populateWithAvailablePhysicalDeviceFeatures this context physicalDevice vf)
  = Some (foldr (write_features (supported physicalDevice)) prepared
            (mFeatures2 :: linked_members prepared (context_config_ context))).
Proof.
  intros Hloaded Hcount. rewrite populate_value. cbv zeta.
  now rewrite Hloaded, enumerate_stable.
Qed.

(** X17. With the entry point loaded and a device that writes as many
    extension properties as it counted, the query raises nothing and leaves
    the catalogue of the device, whatever was stored before; a chain gated by
    the version, by that catalogue and by the configuration of the context,
    not the object's own; the device's value in every field of a structure on
    the chain; and the old value in every field of a structure off it. Version
    and stored configuration stay. *)
Theorem populate_from_device
    (this : N) (context : VulkanContext) (physicalDevice : PhysicalDevice)
    (vf : VulkanFeatures) :
  vkGetPhysicalDeviceFeatures2_loaded context = true →
  extension_count physicalDevice = List.length (extension_properties physicalDevice) →
  ∃ vf' chain,
    populateWithAvailablePhysicalDeviceFeatures this context physicalDevice vf
    = {| events := []; value := Some vf' |}
    ∧ extensions_ vf' = extension_properties physicalDevice
    ∧ featureChain this vf' = Some chain
    ∧ (∀ m, m ∈ chain ↔ gating_condition vf' (context_config_ context) m)
    ∧ (∀ f, field_value f vf'
            = if decide (field_member f ∈ chain) then supported physicalDevice f
              else field_value f vf)
    ∧ version_ vf' = version_ vf
    ∧ config_ vf' = config_ vf.
Proof.
  intros Hloaded Hcount.
  pose proof (populate_stable this context physicalDevice vf Hloaded Hcount) as Hvalue.
  pose proof (populate_events this context physicalDevice vf) as Hevents.
  rewrite Hloaded in Hevents. cbv zeta in Hvalue.
  set (start := set_extensions (extension_properties physicalDevice) vf) in *.
  set (prepared := assembled this (context_config_ context) start) in *.
  set (chain := mFeatures2 :: linked_members prepared (context_config_ context)) in *.
  set (vf' := foldr (write_features (supported physicalDevice)) prepared chain) in *.
  assert (version_ vf' = version_ vf) as Hv.
  { unfold vf'. rewrite (write_features_frame version_)
      by (intros; apply version_write_features).
    unfold prepared, start. now rewrite assembled_version, version_set_extensions. }
  assert (extensions_ vf' = extension_properties physicalDevice) as He.
  { unfold vf'. rewrite (write_features_frame extensions_)
      by (intros; apply extensions_write_features).
    unfold prepared, start. now rewrite assembled_extensions, extensions_set_extensions. }
  exists vf', chain.
  split.
  { destruct (populateWithAvailablePhysicalDeviceFeatures _ _ _ _) as [ev val].
    simpl in *. now subst. }
  split; [exact He|].
  split.
  { unfold featureChain.
    rewrite (chain_from_pNext this vf' prepared).
    - unfold chain, prepared. rewrite assembled_linked_members. apply assembled_chain.
    - intros m. unfold vf'.
      apply (write_features_frame (get_pNext m)). intros; apply pNext_write_features. }
  split.
  { intros m. unfold chain, prepared. rewrite assembled_linked_members, linked_iff_gated.
    apply gating_condition_agree.
    - unfold start. now rewrite version_set_extensions, Hv.
    - unfold start. now rewrite extensions_set_extensions, He. }
  split.
  { intros f. unfold vf'. rewrite field_value_written.
    unfold prepared, start.
    now rewrite assembled_field_value, field_value_set_extensions. }
  split; [exact Hv|].
  unfold vf'. rewrite (write_features_frame config_)
    by (intros; apply config_write_features).
  unfold prepared, start. now rewrite assembled_config, config_set_extensions.
Qed.

Lemma populate_from_device_witness :
  ∃ vf' chain,
    populateWithAvailablePhysicalDeviceFeatures 1 (context_loaded config_all) device_timeline
      (fresh 1 VK_API_VERSION_1_1 config_none)
    = {| events := []; value := Some vf' |}
    ∧ featureChain 1 vf' = Some chain
    ∧ mTimelineSemaphore ∈ chain
    ∧ field_value F_multiview vf' = VK_TRUE.
Proof.
  destruct (populate_from_device 1 (context_loaded config_all) device_timeline
              (fresh 1 VK_API_VERSION_1_1 config_none))
    as (vf' & chain & Hrun & Hext & Hchain & Hgate & Hfield & _); try reflexivity.
  exists vf', chain. split; [exact Hrun|]. split; [exact Hchain|].
  assert (∀ m, gating_condition vf' config_all m → m ∈ chain) as Hin
    by (intros m; apply Hgate).
  split.
  - apply Hin. simpl. rewrite Hext. apply (bool_decide_unpack _). vm_compute. exact I.
  - rewrite Hfield, decide_True; [reflexivity|]. apply Hin. exact I.
Defined.

(** The fields after a query with the entry point loaded and a device whose
    count matches what it writes. *)
Lemma populate_fields (this : N) (context : VulkanContext) (physicalDevice : PhysicalDevice)
    (vf : VulkanFeatures) :
  vkGetPhysicalDeviceFeatures2_loaded context = true →
  extension_count physicalDevice = List.length (extension_properties physicalDevice) →
  ∃ vf',
    value (populateWithAvailablePhysicalDeviceFeatures this context physicalDevice vf)
    = Some vf'
    ∧ version_ vf' = version_ vf
    ∧ ∀ f, field_value f vf'
           = if decide (field_member f
                        ∈ mFeatures2
                          :: linked_members
                               (set_extensions (extension_properties physicalDevice) vf)
                               (context_config_ context))
             then supported physicalDevice f
             else field_value f vf.
Proof.
  intros Hloaded Hcount.
  pose proof (populate_stable this context physicalDevice vf Hloaded Hcount) as Hvalue.
  cbv zeta in Hvalue. eexists. split; [exact Hvalue|]. split.
  - rewrite (write_features_frame version_) by (intros; apply version_write_features).
    now rewrite assembled_version, version_set_extensions.
  - intros f.
    now rewrite field_value_written, assembled_linked_members, assembled_field_value,
      field_value_set_extensions.
Qed.

(** X18. The two fields the constructor sets survive a query that does not
    reach them: on a newly constructed object, when the device does not list
    the synchronization2 extension, the query leaves [synchronization2] at
    [VK_TRUE], whatever the device supports; the same holds of
    [timelineSemaphore] and its extension. *)
Theorem populate_fresh_keeps_constructor_fields
    (this : N) (version : Z) (config : VulkanContextConfig)
    (context : VulkanContext) (physicalDevice : PhysicalDevice) :
  vkGetPhysicalDeviceFeatures2_loaded context = true →
  extension_count physicalDevice = List.length (extension_properties physicalDevice) →
  ∃ vf',
    value (populateWithAvailablePhysicalDeviceFeatures this context physicalDevice
             (fresh this version config))
    = Some vf'
    ∧ (VK_KHR_SYNCHRONIZATION_2_EXTENSION_NAME
         ∉ extensionName <$> extension_properties physicalDevice →
       field_value F_synchronization2 vf' = VK_TRUE)
    ∧ (VK_KHR_TIMELINE_SEMAPHORE_EXTENSION_NAME
         ∉ extensionName <$> extension_properties physicalDevice →
       field_value F_timelineSemaphore vf' = VK_TRUE).
Proof.
  intros Hloaded Hcount.
  destruct (populate_fields this context physicalDevice (fresh this version config)
              Hloaded Hcount) as (vf' & Hvalue & _ & Hfield).
  exists vf'. split; [exact Hvalue|].
  split; intros Hname; rewrite Hfield, decide_False;
    try (now rewrite field_value_fresh);
    rewrite linked_iff_gated; simpl; now rewrite extensions_set_extensions.
Qed.

Lemma populate_fresh_keeps_constructor_fields_witness :
  ∃ vf',
    value (populateWithAvailablePhysicalDeviceFeatures 1 (context_loaded config_none)
             {| extension_count := 0; extension_properties := [];
                supported := λ _, VK_FALSE |}
             (fresh 1 VK_API_VERSION_1_1 config_none))
    = Some vf'
    ∧ field_value F_synchronization2 vf' = VK_TRUE
    ∧ field_value F_multiview vf' = VK_FALSE.
Proof.
  destruct (populate_fresh_keeps_constructor_fields 1 VK_API_VERSION_1_1 config_none
              (context_loaded config_none)
              {| extension_count := 0; extension_properties := [];
                 supported := λ _, VK_FALSE |})
    as (vf' & Hvalue & Hsync & _); try reflexivity.
  exists vf'. split; [exact Hvalue|]. split.
  - apply Hsync. apply not_elem_of_nil.
  - rewrite populate_value in Hvalue. apply (inj Some) in Hvalue. now subst vf'.
Defined.

Lemma version_enableDefaultFeatures1_1 (platform : Platform) (vf : VulkanFeatures) :
  version_ (enableDefaultFeatures1_1 platform vf) = version_ vf.
Proof. now destruct vf. Qed.

Lemma config_enableDefaultFeatures1_1 (platform : Platform) (vf : VulkanFeatures) :
  config_ (enableDefaultFeatures1_1 platform vf) = config_ vf.
Proof. now destruct vf. Qed.

(** X19. Request and query fit together: the defaults applied to a newly
    constructed object are met by the set queried, with the same version and
    the same configuration, from a device that supports every field the
    comparison can look at. The comparison raises nothing and succeeds on every
    platform, whatever extensions the device lists. *)
Theorem defaults_met_by_capable_device
    (platform : Platform) (a b : N) (version : Z) (config : VulkanContextConfig)
    (context : VulkanContext) (physicalDevice : PhysicalDevice) :
  vkGetPhysicalDeviceFeatures2_loaded context = true →
  extension_count physicalDevice = List.length (extension_properties physicalDevice) →
  context_config_ context = config →
  (∀ c, c ∈ every_check → supported physicalDevice (fst c) ≠ VK_FALSE) →
  ∃ available,
    value (populateWithAvailablePhysicalDeviceFeatures b context physicalDevice
             (fresh b version config))
    = Some available
    ∧ checkSelectedFeatures platform
        (enableDefaultFeatures1_1 platform (fresh a version config)) available
      = {| events := []; value := Result_default |}.
Proof.
  intros Hloaded Hcount Hconfig Hsupported.
  destruct (populate_fields b context physicalDevice (fresh b version config)
              Hloaded Hcount) as (available & Hvalue & Hversion & Hfield).
  exists available. split; [exact Hvalue|].
  set (R := enableDefaultFeatures1_1 platform (fresh a version config)).
  assert (version_ R = version) as HvR.
  { unfold R. rewrite version_enableDefaultFeatures1_1. apply version_fresh. }
  assert (config_ R = config) as HcR.
  { unfold R. rewrite config_enableDefaultFeatures1_1. apply config_fresh. }
  assert (missing_checks R available = []) as Hnil.
  { apply elem_of_nil_inv. intros c (Hc & HR & HA)%elem_of_missing_checks.
    rewrite Hfield in HA.
    destruct (decide (field_member (fst c) ∈ _)) as [_|Hout].
    { now apply (Hsupported c (checks_subset R c Hc)). }
    rewrite field_value_fresh in HA.
    apply Hout. apply linked_iff_gated.
    unfold checkSelectedFeatures_checks in Hc. rewrite HcR in Hc.
    unfold R in HR. rewrite field_value_defaults, config_fresh in HR.
    rewrite Hconfig.
    destruct (enableDescriptorIndexing config) eqn:Edi,
             (enableBufferDeviceAddress config) eqn:Ebda;
      simpl in Hc; rewrite ?elem_of_app, !elem_of_cons, elem_of_nil in Hc;
      repeat (destruct Hc as [Hc|Hc]); try contradiction; subst c; simpl; trivial;
      change (field_value F_shaderFloat16 (fresh a version config) = VK_TRUE) in HR;
      rewrite field_value_fresh in HR; discriminate. }
  rewrite missing_message_events by exact Hnil.
  now rewrite Hversion, version_fresh, HvR, Z.eqb_refl.
Qed.

Lemma defaults_met_by_capable_device_witness :
  ∃ available,
    value (populateWithAvailablePhysicalDeviceFeatures 2 (context_loaded config_all)
             device_timeline (fresh 2 VK_API_VERSION_1_1 config_all))
    = Some available
    ∧ checkSelectedFeatures linux
        (enableDefaultFeatures1_1 linux (fresh 1 VK_API_VERSION_1_1 config_all)) available
      = {| events := []; value := Result_default |}.
Proof.
  apply (defaults_met_by_capable_device linux 1 2 VK_API_VERSION_1_1 config_all
           (context_loaded config_all) device_timeline);
    [reflexivity | reflexivity | reflexivity | intros c _; discriminate].
Defined.

(** ** [PlatformDevice]: the textures of the swapchain *)

Section PlatformDeviceTextures.
Import PlatformDevice.
Context `{Collaborators}.

Lemma mismatches_false (held : option Texture) (width height : N)
    (iglFormat : TextureFormat) :
  mismatches held width height iglFormat = false
  ↔ ∃ texture, held = Some texture
      ∧ getDimensions texture
        = {| Dimensions_width := width; Dimensions_height := height |}
      ∧ getFormat texture = iglFormat.
Proof.
  unfold mismatches. destruct held as [texture|].
  - rewrite !orb_false_iff, !negb_false_iff, !bool_decide_eq_true.
    split.
    + intros [[-> ->] ->]. exists texture. now destruct (getDimensions texture).
    + intros (? & [= <-] & -> & ->). auto.
  - split; [discriminate | now intros (? & ? & _)].
Qed.

Lemma mismatches_made (vkTex : VulkanTexture) (desc : TextureDesc TextureFormat) :
  Texture_reports_desc →
  mismatches (Some (make_shared_Texture vkTex desc)) (width desc) (height desc)
    (format desc) = false.
Proof.
  intros Hlaw. apply mismatches_false. eexists. split; [reflexivity|]. apply Hlaw.
Qed.

Lemma at_index_insert (textures : list (option Texture)) (i : nat)
    (texture : option Texture) :
  (i < List.length textures)%nat → at_index (<[i := texture]> textures) i = texture.
Proof. intros Hi. unfold at_index. now rewrite list_lookup_insert_eq. Qed.

Lemma resized_length (textures : list (option Texture)) (i : nat) :
  List.length (resized textures i) = (List.length textures `max` (i + 1))%nat.
Proof.
  unfold resized. destruct (decide _); [rewrite length_resize|]; lia.
Qed.

Lemma resized_lookup_old (textures : list (option Texture)) (i j : nat) :
  (j < List.length textures)%nat → resized textures i !! j = textures !! j.
Proof.
  intros Hj. unfold resized. destruct (decide _); trivial.
  apply lookup_resize; lia.
Qed.

Lemma resized_lookup_new (textures : list (option Texture)) (i j : nat) :
  (List.length textures ≤ j ≤ i)%nat → resized textures i !! j = Some None.
Proof.
  intros Hj. unfold resized. rewrite decide_True by lia.
  apply lookup_resize_new; lia.
Qed.

Lemma resized_fits (textures : list (option Texture)) (i : nat) :
  (i < List.length textures)%nat → resized textures i = textures.
Proof. intros Hi. unfold resized. now rewrite decide_False by lia. Qed.

(** The successful path of [createTextureFromNativeDrawable], in one piece. *)
Lemma createTextureFromNativeDrawable_success
    (ctx : VulkanContext) (swapChain : VulkanSwapchain) (vkTex : VulkanTexture)
    (self : PlatformDevice) :
  hasSwapchain ctx = true →
  swapchain_ ctx = Some swapChain →
  getCurrentVulkanTexture swapChain = Some vkTex →
  vkFormatToTextureFormat (imageFormat_ vkTex) ≠ TextureFormat_Invalid →
  let i := getCurrentImageIndex swapChain in
  let iglFormat := vkFormatToTextureFormat (imageFormat_ vkTex) in
  let textures := resized (nativeDrawableTextures_ self) i in
  let desc :=
    new2D iglFormat (getWidth swapChain) (getHeight swapChain) [Attachment]
      "SwapChain Texture" in
  let stale :=
    mismatches (at_index textures i) (getWidth swapChain) (getHeight swapChain) iglFormat in
  let textures' :=
    if stale then <[i := Some (make_shared_Texture vkTex desc)]> textures else textures in
  createTextureFromNativeDrawable ctx self
  = Some {| notices := assert_image_format vkTex ++ (if stale then [TextureMade desc] else []);
            after := {| nativeDrawableTextures_ := textures';
                        nativeDepthTexture_ := nativeDepthTexture_ self |};
            outResult := {| code := Ok; message := "" |};
            returned := at_index textures' i |}.
Proof.
  intros Hhas Hsc Htex Hfmt i iglFormat textures desc stale textures'.
  unfold createTextureFromNativeDrawable.
  rewrite Hhas, Hsc. cbn [negb mbind option_bind]. rewrite Htex. cbv zeta.
  rewrite decide_False by exact Hfmt.
  fold i iglFormat. fold (resized (nativeDrawableTextures_ self) i). fold textures.
  fold desc. fold stale. subst textures'.
  destruct stale; [reflexivity|]. now rewrite app_nil_r.
Qed.

(** X20. A successful call of [createTextureFromNativeDrawable] returns a
    texture, never null, which is the one held at the current image index
    afterwards. The vector grows to reach that index and never shrinks, the
    slots it gains before the index are null, every other slot it had keeps its
    texture, and the depth texture is not touched. *)
Theorem drawable_updates_one_slot
    (ctx : VulkanContext) (swapChain : VulkanSwapchain) (vkTex : VulkanTexture)
    (self : PlatformDevice) :
  hasSwapchain ctx = true →
  swapchain_ ctx = Some swapChain →
  getCurrentVulkanTexture swapChain = Some vkTex →
  vkFormatToTextureFormat (imageFormat_ vkTex) ≠ TextureFormat_Invalid →
  let i := getCurrentImageIndex swapChain in
  let before := nativeDrawableTextures_ self in
  ∃ out texture,
    createTextureFromNativeDrawable ctx self = Some out
    ∧ outResult out = {| code := Ok; message := "" |}
    ∧ returned out = Some texture
    ∧ nativeDrawableTextures_ (after out) !! i = Some (Some texture)
    ∧ List.length (nativeDrawableTextures_ (after out))
      = (List.length before `max` (i + 1))%nat
    ∧ (∀ j, j ≠ i → (j < List.length before)%nat →
            nativeDrawableTextures_ (after out) !! j = before !! j)
    ∧ (∀ j, (List.length before ≤ j < i)%nat →
            nativeDrawableTextures_ (after out) !! j = Some None)
    ∧ nativeDepthTexture_ (after out) = nativeDepthTexture_ self.
Proof.
  intros Hhas Hsc Htex Hfmt i before.
  rewrite (createTextureFromNativeDrawable_success ctx swapChain vkTex self)
    by assumption.
  cbv zeta. fold i before.
  set (textures := resized before i).
  assert (i < List.length textures)%nat as Hi
    by (unfold textures; rewrite resized_length; lia).
  destruct (mismatches (at_index textures i) _ _ _) eqn:Estale.
  - eexists _, _. split; [reflexivity|]. cbn [outResult returned after
      nativeDrawableTextures_ nativeDepthTexture_].
    rewrite at_index_insert by exact Hi.
    repeat split.
    + now rewrite list_lookup_insert_eq.
    + rewrite length_insert. apply resized_length.
    + intros j Hne Hj. rewrite list_lookup_insert_ne by congruence.
      now apply resized_lookup_old.
    + intros j Hj. rewrite list_lookup_insert_ne by lia.
      apply resized_lookup_new. lia.
  - destruct (proj1 (mismatches_false _ _ _ _) Estale) as (texture & Hheld & _).
    exists {| notices := assert_image_format vkTex ++ [];
              after := {| nativeDrawableTextures_ := textures;
                          nativeDepthTexture_ := nativeDepthTexture_ self |};
              outResult := {| code := Ok; message := "" |};
              returned := at_index textures i |}, texture.
    split; [reflexivity|].
    cbn [outResult returned after nativeDrawableTextures_ nativeDepthTexture_].
    unfold at_index in Hheld.
    destruct (textures !! i) as [slot|] eqn:Eslot;
      [|apply lookup_ge_None in Eslot; lia].
    cbn in Hheld. subst slot.
    repeat split.
    + unfold at_index. now rewrite Eslot.
    + apply resized_length.
    + intros j Hne Hj. now apply resized_lookup_old.
    + intros j Hj. apply resized_lookup_new. lia.
Qed.

(** X21. The two texture functions fail closed. A call that stores a code
    other than [Ok] returns null, changes no member and has reported a failed
    verification; a call that returns a texture has stored [Ok] with an empty
    message; and without a swapchain the call stores [Ok], returns null and
    drops what it held, the drawable textures in one function and the depth
    texture in the other. *)
Theorem texture_calls_fail_closed
    (ctx : VulkanContext) (width height : N) (self : PlatformDevice) (out : Outcome) :
  createTextureFromNativeDrawable ctx self = Some out
  ∨ createTextureFromNativeDepth ctx width height self = Some out →
  (code (outResult out) ≠ Ok →
     returned out = None ∧ after out = self
     ∧ ∃ condition, VerifyFailed condition ∈ notices out)
  ∧ (returned out ≠ None →
       outResult out = {| code := Ok; message := "" |} ∧ hasSwapchain ctx = true)
  ∧ (hasSwapchain ctx = false →
       outResult out = {| code := Ok; message := "" |} ∧ returned out = None
       ∧ notices out = []
       ∧ (createTextureFromNativeDrawable ctx self = Some out →
          nativeDrawableTextures_ (after out) = [])
       ∧ (createTextureFromNativeDepth ctx width height self = Some out →
          nativeDepthTexture_ (after out) = None)).
Proof.
  intros [Hcall|Hcall].
  - unfold createTextureFromNativeDrawable in Hcall.
    destruct (hasSwapchain ctx) eqn:Hhas; cbn [negb] in Hcall.
    + destruct (swapchain_ ctx) as [swapChain|]; [|discriminate].
      cbn [mbind option_bind] in Hcall.
      destruct (getCurrentVulkanTexture swapChain) as [vkTex|].
      * cbv zeta in Hcall.
        destruct (decide (_ = TextureFormat_Invalid)).
        { apply (inj Some) in Hcall. subst out. cbn. repeat split; try discriminate;
            try congruence. eexists. apply elem_of_app. right. left. }
        destruct (mismatches _ _ _ _); apply (inj Some) in Hcall; subst out; cbn;
          repeat split; try discriminate; congruence.
      * apply (inj Some) in Hcall. subst out. cbn. repeat split; try discriminate;
          try congruence. eexists. left.
    + apply (inj Some) in Hcall. subst out. cbn.
      repeat split; try discriminate; try congruence.
      unfold createTextureFromNativeDepth. rewrite Hhas. cbn [negb].
      intros [=]; congruence.
  - unfold createTextureFromNativeDepth in Hcall.
    destruct (hasSwapchain ctx) eqn:Hhas; cbn [negb] in Hcall.
    + destruct (swapchain_ ctx) as [swapChain|]; [|discriminate].
      cbn [mbind option_bind] in Hcall.
      destruct (getCurrentDepthTexture swapChain) as [vkTex|].
      * cbv zeta in Hcall.
        destruct (decide (_ = TextureFormat_Invalid)).
        { apply (inj Some) in Hcall. subst out. cbn. repeat split; try discriminate;
            try congruence. eexists. apply elem_of_app. right. left. }
        destruct (mismatches _ _ _ _); apply (inj Some) in Hcall; subst out; cbn;
          repeat split; try discriminate; congruence.
      * apply (inj Some) in Hcall. subst out. cbn. repeat split; try discriminate;
          try congruence. eexists. left.
    + apply (inj Some) in Hcall. subst out. cbn.
      repeat split; try discriminate; try congruence.
      unfold createTextureFromNativeDrawable. rewrite Hhas. cbn [negb].
      intros [=]; congruence.
Qed.

(** The successful path of [createTextureFromNativeDepth], in one piece. *)
Lemma createTextureFromNativeDepth_success
    (ctx : VulkanContext) (swapChain : VulkanSwapchain) (vkTex : VulkanTexture)
    (width height : N) (self : PlatformDevice) :
  hasSwapchain ctx = true →
  swapchain_ ctx = Some swapChain →
  getCurrentDepthTexture swapChain = Some vkTex →
  vkFormatToTextureFormat (imageFormat_ vkTex) ≠ TextureFormat_Invalid →
  let iglFormat := vkFormatToTextureFormat (imageFormat_ vkTex) in
  let desc := new2D iglFormat width height [Attachment; Sampled] "SwapChain Texture" in
  let stale := mismatches (nativeDepthTexture_ self) width height iglFormat in
  let held :=
    if stale then Some (make_shared_Texture vkTex desc) else nativeDepthTexture_ self in
  createTextureFromNativeDepth ctx width height self
  = Some {| notices := assert_image_format vkTex ++ (if stale then [TextureMade desc] else []);
            after := {| nativeDrawableTextures_ := nativeDrawableTextures_ self;
                        nativeDepthTexture_ := held |};
            outResult := {| code := Ok; message := "" |};
            returned := held |}.
Proof.
  intros Hhas Hsc Htex Hfmt iglFormat desc stale held.
  unfold createTextureFromNativeDepth.
  rewrite Hhas, Hsc. cbn [negb mbind option_bind]. rewrite Htex. cbv zeta.
  rewrite decide_False by exact Hfmt.
  fold iglFormat. fold desc. fold stale. subst held.
  destruct stale; [reflexivity|]. rewrite app_nil_r. now destruct self.
Qed.

Lemma assert_image_format_makes_nothing (vkTex : VulkanTexture)
    (desc : TextureDesc TextureFormat) (rest : list Notice) :
  TextureMade desc ∈ assert_image_format vkTex ++ rest → TextureMade desc ∈ rest.
Proof.
  unfold assert_image_format. destruct (decide _); cbn; trivial.
  intros [?|?]%elem_of_cons; [discriminate | trivial].
Qed.

(** X22. Asking again costs nothing: when a texture made from a description
    reports the size and the format of that description, a second call of
    [createTextureFromNativeDrawable] with the swapchain as it was makes no
    texture, returns what the first call returned, stores the same result and
    leaves the members as the first call left them. *)
Theorem drawable_repeat_hits_cache
    (ctx : VulkanContext) (self : PlatformDevice) (out : Outcome) :
  Texture_reports_desc →
  createTextureFromNativeDrawable ctx self = Some out →
  ∃ out',
    createTextureFromNativeDrawable ctx (after out) = Some out'
    ∧ after out' = after out
    ∧ returned out' = returned out
    ∧ outResult out' = outResult out
    ∧ ∀ desc, TextureMade desc ∉ notices out'.
Proof.
  intros Hlaw Hcall.
  destruct (hasSwapchain ctx) eqn:Hhas; cycle 1.
  { unfold createTextureFromNativeDrawable in *. rewrite Hhas in *. cbn [negb] in *.
    apply (inj Some) in Hcall. subst out. eexists. split; [reflexivity|]. cbn.
    repeat split. intros desc. apply not_elem_of_nil. }
  destruct (swapchain_ ctx) as [swapChain|] eqn:Hsc; cycle 1.
  { unfold createTextureFromNativeDrawable in Hcall. rewrite Hhas, Hsc in Hcall.
    discriminate. }
  destruct (getCurrentVulkanTexture swapChain) as [vkTex|] eqn:Htex; cycle 1.
  { unfold createTextureFromNativeDrawable in *. rewrite Hhas, Hsc in *.
    cbn [negb mbind option_bind] in *. rewrite Htex in *.
    apply (inj Some) in Hcall. subst out. eexists. split; [reflexivity|]. cbn.
    repeat split. intros desc [?|[]%elem_of_nil]%elem_of_cons. discriminate. }
  destruct (decide (vkFormatToTextureFormat (imageFormat_ vkTex) = TextureFormat_Invalid))
    as [Hbad|Hfmt].
  { unfold createTextureFromNativeDrawable in *. rewrite Hhas, Hsc in *.
    cbn [negb mbind option_bind] in *. rewrite Htex in *. cbv zeta in *.
    rewrite decide_True in * by exact Hbad.
    apply (inj Some) in Hcall. subst out. eexists. split; [reflexivity|]. cbn.
    repeat split. intros desc Hin%assert_image_format_makes_nothing.
    apply elem_of_cons in Hin as [?|[]%elem_of_nil]. discriminate. }
  rewrite (createTextureFromNativeDrawable_success ctx swapChain vkTex self) in Hcall
    by assumption.
  cbv zeta in Hcall. apply (inj Some) in Hcall.
  set (i := getCurrentImageIndex swapChain) in *.
  set (textures := resized (nativeDrawableTextures_ self) i) in *.
  set (desc := new2D _ _ _ _ _) in *.
  assert (i < List.length textures)%nat as Hi
    by (unfold textures; rewrite resized_length; lia).
  rewrite (createTextureFromNativeDrawable_success ctx swapChain vkTex (after out))
    by assumption.
  cbv zeta. fold i. fold desc.
  assert (∃ textures',
            nativeDrawableTextures_ (after out) = textures'
            ∧ nativeDepthTexture_ (after out) = nativeDepthTexture_ self
            ∧ returned out = at_index textures' i
            ∧ outResult out = {| code := Ok; message := "" |}
            ∧ (i < List.length textures')%nat
            ∧ mismatches (at_index textures' i) (getWidth swapChain) (getHeight swapChain)
                (vkFormatToTextureFormat (imageFormat_ vkTex)) = false)
    as (textures' & Hafter & Hdepth & Hret & Hres & Hi' & Hfresh).
  { subst out. cbn. eexists. split; [reflexivity|]. repeat split.
    - destruct (mismatches _ _ _ _); [now rewrite length_insert | trivial].
    - destruct (mismatches (at_index textures i) _ _ _) eqn:Estale; [|exact Estale].
      rewrite at_index_insert by exact Hi. apply (mismatches_made vkTex desc Hlaw). }
  rewrite Hafter, resized_fits, Hfresh by exact Hi'.
  eexists. split; [reflexivity|]. cbn. repeat split.
  - destruct (after out) as [held depth]. cbn in *. congruence.
  - now rewrite Hret.
  - now rewrite Hres.
  - intros d Hin%assert_image_format_makes_nothing. now apply elem_of_nil in Hin.
Qed.

(** X23. The same of the depth texture: a second call of
    [createTextureFromNativeDepth] for the same size, with the swapchain as it
    was, makes no texture, returns what the first call returned and leaves the
    members as they were after it. *)
Theorem depth_repeat_hits_cache
    (ctx : VulkanContext) (width height : N) (self : PlatformDevice) (out : Outcome) :
  Texture_reports_desc →
  createTextureFromNativeDepth ctx width height self = Some out →
  ∃ out',
    createTextureFromNativeDepth ctx width height (after out) = Some out'
    ∧ after out' = after out
    ∧ returned out' = returned out
    ∧ outResult out' = outResult out
    ∧ ∀ desc, TextureMade desc ∉ notices out'.
Proof.
  intros Hlaw Hcall.
  destruct (hasSwapchain ctx) eqn:Hhas; cycle 1.
  { unfold createTextureFromNativeDepth in *. rewrite Hhas in *. cbn [negb] in *.
    apply (inj Some) in Hcall. subst out. eexists. split; [reflexivity|]. cbn.
    repeat split. intros desc. apply not_elem_of_nil. }
  destruct (swapchain_ ctx) as [swapChain|] eqn:Hsc; cycle 1.
  { unfold createTextureFromNativeDepth in Hcall. rewrite Hhas, Hsc in Hcall.
    discriminate. }
  destruct (getCurrentDepthTexture swapChain) as [vkTex|] eqn:Htex; cycle 1.
  { unfold createTextureFromNativeDepth in *. rewrite Hhas, Hsc in *.
    cbn [negb mbind option_bind] in *. rewrite Htex in *.
    apply (inj Some) in Hcall. subst out. eexists. split; [reflexivity|]. cbn.
    repeat split. intros desc [?|[]%elem_of_nil]%elem_of_cons. discriminate. }
  destruct (decide (vkFormatToTextureFormat (imageFormat_ vkTex) = TextureFormat_Invalid))
    as [Hbad|Hfmt].
  { unfold createTextureFromNativeDepth in *. rewrite Hhas, Hsc in *.
    cbn [negb mbind option_bind] in *. rewrite Htex in *. cbv zeta in *.
    rewrite decide_True in * by exact Hbad.
    apply (inj Some) in Hcall. subst out. eexists. split; [reflexivity|]. cbn.
    repeat split. intros desc Hin%assert_image_format_makes_nothing.
    apply elem_of_cons in Hin as [?|[]%elem_of_nil]. discriminate. }
  rewrite (createTextureFromNativeDepth_success ctx swapChain vkTex width height self)
    in Hcall by assumption.
  cbv zeta in Hcall. apply (inj Some) in Hcall.
  set (desc := new2D _ _ _ _ _) in *.
  rewrite (createTextureFromNativeDepth_success ctx swapChain vkTex width height (after out))
    by assumption.
  cbv zeta. fold desc.
  assert (mismatches (nativeDepthTexture_ (after out)) width height
            (vkFormatToTextureFormat (imageFormat_ vkTex)) = false
          ∧ returned out = nativeDepthTexture_ (after out)
          ∧ outResult out = {| code := Ok; message := "" |})
    as (Hfresh & Hret & Hres).
  { subst out. cbn. repeat split.
    destruct (mismatches (nativeDepthTexture_ self) _ _ _) eqn:Estale; [|exact Estale].
    apply (mismatches_made vkTex desc Hlaw). }
  rewrite Hfresh. eexists. split; [reflexivity|]. cbn. repeat split.
  - now destruct (after out).
  - now rewrite Hret.
  - now rewrite Hres.
  - intros d Hin%assert_image_format_makes_nothing. now apply elem_of_nil in Hin.
Qed.

Lemma drawable_returned_path
    (ctx : VulkanContext) (self : PlatformDevice) (out : Outcome) (texture : Texture) :
  createTextureFromNativeDrawable ctx self = Some out →
  returned out = Some texture →
  ∃ swapChain vkTex,
    hasSwapchain ctx = true
    ∧ swapchain_ ctx = Some swapChain
    ∧ getCurrentVulkanTexture swapChain = Some vkTex
    ∧ vkFormatToTextureFormat (imageFormat_ vkTex) ≠ TextureFormat_Invalid.
Proof.
  intros Hcall Hret. unfold createTextureFromNativeDrawable in Hcall.
  destruct (hasSwapchain ctx) eqn:Hhas; cbn [negb] in Hcall;
    [|apply (inj Some) in Hcall; subst out; discriminate].
  destruct (swapchain_ ctx) as [swapChain|] eqn:Hsc; [|discriminate].
  cbn [mbind option_bind] in Hcall.
  destruct (getCurrentVulkanTexture swapChain) as [vkTex|] eqn:Htex;
    [|apply (inj Some) in Hcall; subst out; discriminate].
  cbv zeta in Hcall.
  destruct (decide (_ = TextureFormat_Invalid)) as [|Hfmt];
    [apply (inj Some) in Hcall; subst out; discriminate|].
  now exists swapChain, vkTex.
Qed.

Lemma depth_returned_path
    (ctx : VulkanContext) (width height : N) (self : PlatformDevice) (out : Outcome)
    (texture : Texture) :
  createTextureFromNativeDepth ctx width height self = Some out →
  returned out = Some texture →
  ∃ swapChain vkTex,
    hasSwapchain ctx = true
    ∧ swapchain_ ctx = Some swapChain
    ∧ getCurrentDepthTexture swapChain = Some vkTex
    ∧ vkFormatToTextureFormat (imageFormat_ vkTex) ≠ TextureFormat_Invalid.
Proof.
  intros Hcall Hret. unfold createTextureFromNativeDepth in Hcall.
  destruct (hasSwapchain ctx) eqn:Hhas; cbn [negb] in Hcall;
    [|apply (inj Some) in Hcall; subst out; discriminate].
  destruct (swapchain_ ctx) as [swapChain|] eqn:Hsc; [|discriminate].
  cbn [mbind option_bind] in Hcall.
  destruct (getCurrentDepthTexture swapChain) as [vkTex|] eqn:Htex;
    [|apply (inj Some) in Hcall; subst out; discriminate].
  cbv zeta in Hcall.
  destruct (decide (_ = TextureFormat_Invalid)) as [|Hfmt];
    [apply (inj Some) in Hcall; subst out; discriminate|].
  now exists swapChain, vkTex.
Qed.

(** X24. A texture that is handed out fits what was asked for, whether it was
    made in this call or held from an earlier one: the drawable texture has
    the width and the height of the swapchain and the format of its current
    image, the depth texture the width and the height passed to the call and
    the format of the swapchain's depth image; that format is never the
    invalid one. *)
Theorem returned_texture_fits
    (ctx : VulkanContext) (width height : N) (self : PlatformDevice) (out : Outcome)
    (texture : Texture) :
  Texture_reports_desc →
  returned out = Some texture →
  (createTextureFromNativeDrawable ctx self = Some out →
   ∃ swapChain vkTex,
     swapchain_ ctx = Some swapChain
     ∧ getCurrentVulkanTexture swapChain = Some vkTex
     ∧ getDimensions texture
       = {| Dimensions_width := getWidth swapChain;
            Dimensions_height := getHeight swapChain |}
     ∧ getFormat texture = vkFormatToTextureFormat (imageFormat_ vkTex)
     ∧ getFormat texture ≠ TextureFormat_Invalid)
  ∧ (createTextureFromNativeDepth ctx width height self = Some out →
     ∃ swapChain vkTex,
       swapchain_ ctx = Some swapChain
       ∧ getCurrentDepthTexture swapChain = Some vkTex
       ∧ getDimensions texture
         = {| Dimensions_width := width; Dimensions_height := height |}
       ∧ getFormat texture = vkFormatToTextureFormat (imageFormat_ vkTex)
       ∧ getFormat texture ≠ TextureFormat_Invalid).
Proof.
  intros Hlaw Hret. split; intros Hcall.
  - destruct (drawable_returned_path ctx self out texture Hcall Hret)
      as (swapChain & vkTex & Hhas & Hsc & Htex & Hfmt).
    rewrite (createTextureFromNativeDrawable_success ctx swapChain vkTex self)
      in Hcall by assumption.
    cbv zeta in Hcall. apply (inj Some) in Hcall.
    exists swapChain, vkTex. split; [exact Hsc|]. split; [exact Htex|].
    set (i := getCurrentImageIndex swapChain) in *.
    set (textures := resized (nativeDrawableTextures_ self) i) in *.
    assert (i < List.length textures)%nat as Hi
      by (unfold textures; rewrite resized_length; lia).
    subst out. cbn [returned] in Hret.
    destruct (mismatches (at_index textures i) _ _ _) eqn:Estale.
    + rewrite at_index_insert in Hret by exact Hi. apply (inj Some) in Hret.
      subst texture.
      destruct (Hlaw vkTex (new2D (vkFormatToTextureFormat (imageFormat_ vkTex))
                              (getWidth swapChain) (getHeight swapChain) [Attachment]
                              "SwapChain Texture")) as [-> ->].
      cbn. auto.
    + apply mismatches_false in Estale as (t & Ht & Hdim & Hformat).
      rewrite Ht in Hret. apply (inj Some) in Hret. subst t.
      rewrite Hdim, Hformat. auto.
  - destruct (depth_returned_path ctx width height self out texture Hcall Hret)
      as (swapChain & vkTex & Hhas & Hsc & Htex & Hfmt).
    rewrite (createTextureFromNativeDepth_success ctx swapChain vkTex width height self)
      in Hcall by assumption.
    cbv zeta in Hcall. apply (inj Some) in Hcall.
    exists swapChain, vkTex. split; [exact Hsc|]. split; [exact Htex|].
    subst out. cbn [returned] in Hret.
    destruct (mismatches (nativeDepthTexture_ self) _ _ _) eqn:Estale.
    + apply (inj Some) in Hret. subst texture.
      destruct (Hlaw vkTex (new2D (vkFormatToTextureFormat (imageFormat_ vkTex))
                              width height [Attachment; Sampled] "SwapChain Texture"))
        as [-> ->].
      cbn. auto.
    + apply mismatches_false in Estale as (t & Ht & Hdim & Hformat).
      rewrite Ht in Hret. apply (inj Some) in Hret. subst t.
      rewrite Hdim, Hformat. auto.
Qed.

End PlatformDeviceTextures.

Section PlatformDeviceSamples.
Import PlatformDevice.

Lemma sample_Texture_reports_desc : @Texture_reports_desc sample_collaborators.
Proof. intros vkTex desc. split; reflexivity. Qed.

Lemma drawable_updates_one_slot_witness :
  ∃ out texture,
    createTextureFromNativeDrawable sample_context sample_device = Some out
    ∧ outResult out = {| code := Ok; message := "" |}
    ∧ returned out = Some texture
    ∧ nativeDrawableTextures_ (after out) !! 2%nat = Some (Some texture)
    ∧ List.length (nativeDrawableTextures_ (after out)) = 3%nat
    ∧ (∀ j, j ≠ 2%nat → (j < 0)%nat →
            nativeDrawableTextures_ (after out) !! j = @nil (option Texture) !! j)
    ∧ (∀ j, (0 ≤ j < 2)%nat → nativeDrawableTextures_ (after out) !! j = Some None)
    ∧ nativeDepthTexture_ (after out) = None.
Proof.
  apply (drawable_updates_one_slot (H := sample_collaborators) sample_context
           sample_swapchain 44 sample_device);
    [reflexivity | reflexivity | reflexivity | discriminate].
Defined.

Lemma texture_calls_fail_closed_witness :
  ∃ out,
    createTextureFromNativeDepth sample_context_no_image 640 480 sample_device = Some out
    ∧ code (outResult out) = InvalidOperation
    ∧ returned out = None
    ∧ after out = sample_device.
Proof.
  eexists. split; [reflexivity|]. split; [reflexivity|].
  destruct (texture_calls_fail_closed (H := sample_collaborators) sample_context_no_image
              640 480 sample_device _ (or_intror eq_refl)) as [Hfail _].
  destruct Hfail as (Hret & Hafter & _); [discriminate|].
  split; assumption.
Defined.

Lemma drawable_repeat_hits_cache_witness :
  ∃ out,
    createTextureFromNativeDrawable sample_context sample_device = Some out
    ∧ ∃ out',
        createTextureFromNativeDrawable sample_context (after out) = Some out'
        ∧ after out' = after out
        ∧ returned out' = returned out
        ∧ outResult out' = outResult out
        ∧ ∀ desc, TextureMade desc ∉ notices out'.
Proof.
  eexists. split; [reflexivity|].
  apply (drawable_repeat_hits_cache (H := sample_collaborators) sample_context
           sample_device _ sample_Texture_reports_desc eq_refl).
Defined.

Lemma depth_repeat_hits_cache_witness :
  ∃ out,
    createTextureFromNativeDepth sample_context 640 480 sample_device = Some out
    ∧ ∃ out',
        createTextureFromNativeDepth sample_context 640 480 (after out) = Some out'
        ∧ after out' = after out
        ∧ returned out' = returned out
        ∧ outResult out' = outResult out
        ∧ ∀ desc, TextureMade desc ∉ notices out'.
Proof.
  eexists. split; [reflexivity|].
  apply (depth_repeat_hits_cache (H := sample_collaborators) sample_context 640 480
           sample_device _ sample_Texture_reports_desc eq_refl).
Defined.

Lemma returned_texture_fits_witness :
  ∃ out texture,
    createTextureFromNativeDepth sample_context 1024 768 sample_device = Some out
    ∧ returned out = Some texture
    ∧ getDimensions texture
      = {| Dimensions_width := 1024; Dimensions_height := 768 |}
    ∧ getFormat texture = 126%nat.
Proof.
  assert (∃ out texture,
            createTextureFromNativeDepth sample_context 1024 768 sample_device = Some out
            ∧ returned out = Some texture)
    as (out & texture & Hcall & Hret)
    by (eexists _, _; split; reflexivity).
  exists out, texture. split; [exact Hcall|]. split; [exact Hret|].
  destruct (returned_texture_fits (H := sample_collaborators) sample_context 1024 768
              sample_device out texture sample_Texture_reports_desc Hret)
    as [_ Hdepth].
  destruct (Hdepth Hcall) as (swapChain & vkTex & Hsc & Htex & Hdim & Hformat & _).
  split; [exact Hdim|].
  apply (inj Some) in Hsc. subst swapChain.
  apply (inj Some) in Htex. subst vkTex. exact Hformat.
Defined.

End PlatformDeviceSamples.

(** ** [TestShell]: command-line arguments *)

Lemma ensure_times_initialized (n : nat) :
  TestShell.ensure_times n true = ([], true).
Proof. induction n as [|n IH]; simpl; [|rewrite IH]; reflexivity. Qed.

(** X25. However often [ensureCommandLineArgsInitialized] runs, the
    command-line arguments are initialized at most once: never where
    [IGL_PLATFORM_ANDROID] is set, and otherwise by the first call and by no
    later one. *)
Theorem command_line_args_initialized_once (n : nat) (IGL_PLATFORM_ANDROID : bool) :
  TestShell.ensure_times n (TestShell.sInitialized_initial IGL_PLATFORM_ANDROID)
  = (if IGL_PLATFORM_ANDROID || bool_decide (n = 0%nat) then []
     else [TestShell.initializeCommandLineArgs],
     IGL_PLATFORM_ANDROID || negb (bool_decide (n = 0%nat))).
Proof.
  destruct IGL_PLATFORM_ANDROID; cbn [TestShell.sInitialized_initial orb].
  - apply ensure_times_initialized.
  - destruct n as [|n]; [reflexivity|].
    simpl. now rewrite ensure_times_initialized.
Qed.
